(** * nano-envanter: inventory list, coordinator and products API

    A shallow embedding of the TypeScript sources

      - [src/models/Product.ts]            (module [ProductModel])
      - [src/app/api/products/route.ts]    (module [Api])
      - [src/services/productService.ts]   (module [Service])
      - [src/app/page.tsx]                 (module [Page])
      - [src/components/InventoryForm.tsx] (module [InventoryForm])
      - [src/components/ConfirmModal.tsx]  (module [ConfirmModal])
      - [src/components/InventoryList.tsx] (module [InventoryList])

    JavaScript numbers that hold integers are [Z]; strings are [string]
    (sequences of UTF-8 bytes); [Date] values are milliseconds as [Z];
    optional fields are [option]; arrays are [list].  React state is a
    record and every handler is a function from the state of the render it
    closes over to the next state together with the callbacks it invoked. *)

From Stdlib Require Import ZArith List String Ascii Bool Lia.
From Stdlib Require Import Permutation Sorted.
Import ListNotations.
Local Open Scope string_scope.
Local Open Scope Z_scope.

(* ===================================================================== *)
(** ** JavaScript built-ins used by the sources *)
(* ===================================================================== *)

Module JS.

(** Truthiness of a string: only the empty string is falsy. *)
Definition truthy (s : string) : bool :=
  match s with EmptyString => false | String _ _ => true end.

(** [a || b] on strings. *)
Definition strOr (a b : string) : string := if truthy a then a else b.

(** Truthiness of a number that is an integer: [0] is falsy. *)
Definition truthyNum (n : Z) : bool := negb (n =? 0).

(** [parseInt(v) || 0], where [parsed] is what [parseInt] returned
    ([None] for [NaN]). *)
Definition parseIntOr0 (parsed : option Z) : Z :=
  match parsed with
  | Some n => if truthyNum n then n else 0
  | None => 0
  end.

(** The white space and line terminator code points that
    [String.prototype.trim] removes, as UTF-8 byte sequences. *)
Definition bytes (l : list nat) : string :=
  fold_right (fun n s => String (ascii_of_nat n) s) EmptyString l.

Definition whiteSpace : list string :=
  map bytes
    [ [9%nat]; [10%nat]; [11%nat]; [12%nat]; [13%nat]; [32%nat];
      [194; 160]%nat;                       (* U+00A0 *)
      [225; 154; 128]%nat;                  (* U+1680 *)
      [226; 128; 128]%nat; [226; 128; 129]%nat; [226; 128; 130]%nat;
      [226; 128; 131]%nat; [226; 128; 132]%nat; [226; 128; 133]%nat;
      [226; 128; 134]%nat; [226; 128; 135]%nat; [226; 128; 136]%nat;
      [226; 128; 137]%nat; [226; 128; 138]%nat;   (* U+2000 .. U+200A *)
      [226; 128; 168]%nat; [226; 128; 169]%nat;   (* U+2028, U+2029 *)
      [226; 128; 175]%nat;                  (* U+202F *)
      [226; 129; 159]%nat;                  (* U+205F *)
      [227; 128; 128]%nat;                  (* U+3000 *)
      [239; 187; 191]%nat ].                (* U+FEFF *)

Fixpoint revString (s acc : string) : string :=
  match s with
  | EmptyString => acc
  | String c s' => revString s' (String c acc)
  end.

Fixpoint dropPrefix (p s : string) : option string :=
  match p, s with
  | EmptyString, _ => Some s
  | String a p', String b s' =>
      if Ascii.eqb a b then dropPrefix p' s' else None
  | String _ _, EmptyString => None
  end.

(** Remove one leading element of [ws] from [s], if there is one. *)
Fixpoint dropOne (ws : list string) (s : string) : option string :=
  match ws with
  | [] => None
  | w :: ws' =>
      match dropPrefix w s with
      | Some rest => Some rest
      | None => dropOne ws' s
      end
  end.

Fixpoint dropWhile (fuel : nat) (ws : list string) (s : string) : string :=
  match fuel with
  | O => s
  | S fuel' =>
      match dropOne ws s with
      | Some rest => dropWhile fuel' ws rest
      | None => s
      end
  end.

Definition trimStart (s : string) : string :=
  dropWhile (String.length s) whiteSpace s.

Definition trimEnd (s : string) : string :=
  let r := revString s EmptyString in
  revString
    (dropWhile (String.length s)
               (map (fun w => revString w EmptyString) whiteSpace) r)
    EmptyString.

(** [s.trim()]. *)
Definition trim (s : string) : string := trimEnd (trimStart s).

(** [Math.ceil(n / k)] for integers [n] and [k <> 0].  ([Z.div] rounds
    towards minus infinity, so this is the ceiling of the quotient.) *)
Definition ceilDiv (n k : Z) : Z := - ((- n) / k).

(** [arr.slice(start, end)]: a negative index counts from the end, and
    both indices are clamped to the array. *)
Definition slice {A : Type} (arr : list A) (start finish : Z) : list A :=
  let len := Z.of_nat (List.length arr) in
  let k := if start <? 0 then Z.max (len + start) 0 else Z.min start len in
  let final :=
    if finish <? 0 then Z.max (len + finish) 0 else Z.min finish len in
  let count := Z.max (final - k) 0 in
  firstn (Z.to_nat count) (skipn (Z.to_nat k) arr).

(** [arr.find(pred)]. *)
Definition find {A : Type} (pred : A -> bool) (arr : list A) : option A :=
  List.find pred arr.

(** [[...arr].sort(cmp)]: a stable sort; [b] is moved before [a] only
    when [cmp a b > 0]. *)
Fixpoint insertSorted {A : Type} (cmp : A -> A -> Z) (x : A) (l : list A)
  : list A :=
  match l with
  | [] => [x]
  | y :: l' =>
      if cmp x y >? 0 then y :: insertSorted cmp x l' else x :: y :: l'
  end.

Definition sort {A : Type} (cmp : A -> A -> Z) (arr : list A) : list A :=
  fold_right (insertSorted cmp) [] arr.

End JS.

(* ===================================================================== *)
(** ** src/models/Product.ts *)
(* ===================================================================== *)

(** A [Date], in milliseconds. *)
Definition Date := Z.

(** An [ObjectId], by its hexadecimal rendering, 24 digits in lower case:
    [toString()] is the identity on it, and so is [new ObjectId(s)] for an
    [s] in that form.  The driver also takes digits in upper case, which it
    renders in lower case; what is proved below of an identifier that no
    document has is therefore stated for identifiers in the rendered form
    ([canonicalHex]). *)
Definition ObjectId := string.

Module ProductModel.

(** [interface ProductDocument] *)
Record ProductDocument := mkDocument {
  _id : option ObjectId;
  doc_name : string;
  doc_code : string;
  doc_count : Z;
  doc_description : option string;
  doc_createdAt : Date;
  doc_updatedAt : Date
}.

(** [interface Product] *)
Record Product := mkProduct {
  id : string;
  name : string;
  code : string;
  count : Z;
  description : option string;
  createdAt : option Date;
  updatedAt : option Date
}.

(** [Omit<Product, 'id'>] *)
Record ProductInput := mkInput {
  in_name : string;
  in_code : string;
  in_count : Z;
  in_description : option string;
  in_createdAt : option Date;
  in_updatedAt : option Date
}.

(** [Omit<ProductDocument, '_id'>] *)
Record DocumentFields := mkFields {
  f_name : string;
  f_code : string;
  f_count : Z;
  f_description : option string;
  f_createdAt : Date;
  f_updatedAt : Date
}.

(** [documentToProduct]; [doc._id!.toString()] throws when the document
    carries no [_id], which is [None] here. *)
Definition documentToProduct (doc : ProductDocument) : option Product :=
  match _id doc with
  | Some oid =>
      Some {| id := oid;
              name := doc_name doc;
              code := doc_code doc;
              count := doc_count doc;
              description := doc_description doc;
              createdAt := Some (doc_createdAt doc);
              updatedAt := Some (doc_updatedAt doc) |}
  | None => None
  end.

(** [productToDocument]; [now1] and [now2] are the values of its two
    [new Date()] expressions (the first one is evaluated only when
    [product.createdAt] is absent, a [Date] object being truthy). *)
Definition productToDocument (now1 now2 : Date) (product : ProductInput)
  : DocumentFields :=
  {| f_name := in_name product;
     f_code := in_code product;
     f_count := in_count product;
     f_description := in_description product;
     f_createdAt :=
       match in_createdAt product with
       | Some d => d
       | None => now1
       end;
     f_updatedAt := now2 |}.

End ProductModel.
Import ProductModel.

(* ===================================================================== *)
(** ** The environment of one request *)
(* ===================================================================== *)

(** What a [catch] clause can receive: an [Error] with its message, or any
    other thrown value. *)
Inductive Thrown :=
| ErrorObject (message : string)
| NotAnError.

(** The outcome of an [async] function of the client. *)
Inductive Result (A : Type) :=
| Returned (a : A)
| Threw (e : Thrown).
Arguments Returned {A} a.
Arguments Threw {A} e.

(** Everything a round trip reads from outside the program: the values of
    the successive [new Date()] expressions of a handler, the [_id] that
    [insertOne] generates, whether [getDatabase()] succeeds, and whether
    [fetch] (or [response.json()]) throws instead of delivering. *)
Record Env := mkEnv {
  now1 : Date;
  now2 : Date;
  now3 : Date;
  freshId : ObjectId;
  dbUp : bool;
  transport : option Thrown
}.

(* ===================================================================== *)
(** ** src/app/api/products/route.ts *)
(* ===================================================================== *)

Module Api.

(** The [products] collection, in its natural order. *)
Definition Collection := list ProductDocument.

(** The JSON envelope of a response: [{ success: true, data }] (for
    DELETE, [{ success: true, message }]) or [{ success: false, error }]. *)
Inductive Envelope (A : Type) :=
| Success (payload : A)
| Failure (error : string).
Arguments Success {A} payload.
Arguments Failure {A} error.

Record Response (A : Type) := mkResponse {
  status : Z;
  envelope : Envelope A
}.
Arguments mkResponse {A} status envelope.
Arguments status {A} r.
Arguments envelope {A} r.

(** [NextResponse.json(body)] and [NextResponse.json(body, { status })]. *)
Definition json {A : Type} (e : Envelope A) : Response A := mkResponse 200 e.
Definition jsonStatus {A : Type} (e : Envelope A) (s : Z) : Response A :=
  mkResponse s e.

(** The body of a POST request after [const { name, code, count,
    description } = body]; [None] is [undefined]. *)
Record PostBody := mkPostBody {
  b_name : option string;
  b_code : option string;
  b_count : option Z;
  b_description : option string
}.

(** The body of a PUT request: the four fields that the client's
    [JSON.stringify(product)] carries for an [Omit<Product, 'id'>]. *)
Record PutBody := mkPutBody {
  u_name : string;
  u_code : string;
  u_count : Z;
  u_description : option string
}.

(** [!x] for a string that may be [undefined]. *)
Definition falsy (x : option string) : bool :=
  match x with
  | Some s => negb (JS.truthy s)
  | None => true
  end.

(** The filter [{ _id: new ObjectId(id) }], for an [id] in the rendered
    form. *)
Definition hasId (oid : ObjectId) (d : ProductDocument) : bool :=
  match _id d with
  | Some i => String.eqb i oid
  | None => false
  end.

(** [collection.findOne({ code })] *)
Definition findOneByCode (c : string) (db : Collection)
  : option ProductDocument :=
  List.find (fun d => String.eqb (doc_code d) c) db.

(** [collection.findOne({ _id })] *)
Definition findOneById (oid : ObjectId) (db : Collection)
  : option ProductDocument :=
  List.find (hasId oid) db.

(** [collection.insertOne(doc)] with the generated [_id]; the unique
    index on [_id] makes the driver throw ([None]) on a collision. *)
Definition insertOne (oid : ObjectId) (f : DocumentFields) (db : Collection)
  : option Collection :=
  match findOneById oid db with
  | Some _ => None
  | None =>
      Some (List.app db [ {| _id := Some oid;
                       doc_name := f_name f;
                       doc_code := f_code f;
                       doc_count := f_count f;
                       doc_description := f_description f;
                       doc_createdAt := f_createdAt f;
                       doc_updatedAt := f_updatedAt f |} ])
  end.

(** [{ $set: updateDoc }] applied to one document; the client is created
    with no options, so an [undefined] description is written as [null],
    which is [None] here as well. *)
Definition set (f : DocumentFields) (d : ProductDocument) : ProductDocument :=
  {| _id := _id d;
     doc_name := f_name f;
     doc_code := f_code f;
     doc_count := f_count f;
     doc_description := f_description f;
     doc_createdAt := f_createdAt f;
     doc_updatedAt := f_updatedAt f |}.

(** [collection.findOneAndUpdate({ _id }, { $set }, { returnDocument:
    'after' })]: the first match is updated and returned. *)
Fixpoint findOneAndUpdate (oid : ObjectId) (f : DocumentFields)
  (db : Collection) : option ProductDocument * Collection :=
  match db with
  | [] => (None, [])
  | d :: rest =>
      if hasId oid d then (Some (set f d), set f d :: rest)
      else
        let '(r, rest') := findOneAndUpdate oid f rest in
        (r, d :: rest')
  end.

(** [collection.deleteOne({ _id })], with its [deletedCount]. *)
Fixpoint deleteOne (oid : ObjectId) (db : Collection) : Z * Collection :=
  match db with
  | [] => (0, [])
  | d :: rest =>
      if hasId oid d then (1, rest)
      else
        let '(n, rest') := deleteOne oid rest in
        (n, d :: rest')
  end.

Section Handlers.

(** [ObjectId.isValid] of the [mongodb] driver. *)
Variable ObjectId_isValid : string -> bool.

(** [export async function POST(request)] *)
Definition POST (env : Env) (body : PostBody) (db : Collection)
  : Response Product * Collection :=
  match b_name body, b_code body, b_count body with
  | Some name, Some code, Some count =>
      if falsy (Some name) || falsy (Some code) then
        (jsonStatus (Failure "Name, code, and count are required") 400, db)
      else if negb (dbUp env) then
        (jsonStatus (Failure "Failed to create product") 500, db)
      else
        match findOneByCode code db with
        | Some _ =>
            (jsonStatus (Failure "Product code already exists") 400, db)
        | None =>
            let productDoc :=
              productToDocument (now1 env) (now2 env)
                {| in_name := name; in_code := code; in_count := count;
                   in_description := b_description body;
                   in_createdAt := None; in_updatedAt := None |} in
            match insertOne (freshId env) productDoc db with
            | None =>
                (jsonStatus (Failure "Failed to create product") 500, db)
            | Some db' =>
                match findOneById (freshId env) db' with
                | Some newProduct =>
                    match documentToProduct newProduct with
                    | Some p => (json (Success p), db')
                    | None =>
                        (jsonStatus (Failure "Failed to create product")
                                    500, db')
                    end
                | None =>
                    (jsonStatus (Failure "Failed to create product") 500,
                     db')
                end
            end
        end
  | _, _, _ =>
      (jsonStatus (Failure "Name, code, and count are required") 400, db)
  end.

(** [export async function PUT(request, { params })] *)
Definition PUT (env : Env) (id : string) (body : PutBody) (db : Collection)
  : Response Product * Collection :=
  if negb (ObjectId_isValid id) then
    (jsonStatus (Failure "Invalid product ID") 400, db)
  else if negb (dbUp env) then
    (jsonStatus (Failure "Failed to update product") 500, db)
  else
    let doc :=
      productToDocument (now1 env) (now2 env)
        {| in_name := u_name body; in_code := u_code body;
           in_count := u_count body;
           in_description := u_description body;
           in_createdAt := None; in_updatedAt := None |} in
    let updateDoc :=
      {| f_name := f_name doc; f_code := f_code doc;
         f_count := f_count doc; f_description := f_description doc;
         f_createdAt := f_createdAt doc;
         f_updatedAt := now3 env |} in
    match findOneAndUpdate id updateDoc db with
    | (None, db') =>
        (jsonStatus (Failure "Product not found") 404, db')
    | (Some result, db') =>
        match documentToProduct result with
        | Some p => (json (Success p), db')
        | None => (jsonStatus (Failure "Failed to update product") 500, db')
        end
    end.

(** [export async function DELETE(request, { params })] *)
Definition DELETE (env : Env) (id : string) (db : Collection)
  : Response string * Collection :=
  if negb (ObjectId_isValid id) then
    (jsonStatus (Failure "Invalid product ID") 400, db)
  else if negb (dbUp env) then
    (jsonStatus (Failure "Failed to delete product") 500, db)
  else
    match deleteOne id db with
    | (0, db') => (jsonStatus (Failure "Product not found") 404, db')
    | (_, db') => (json (Success "Product deleted successfully"), db')
    end.

End Handlers.

Section Listing.

(** [collection.find({}).sort({ createdAt: -1 }).toArray()]: what the
    driver returns for the stored collection. *)
Variable newestFirst : Collection -> Collection.

(** [products.map(documentToProduct)], which throws ([None]) at the first
    document without [_id]. *)
Fixpoint mapDocuments (docs : Collection) : option (list Product) :=
  match docs with
  | [] => Some []
  | doc :: rest =>
      match documentToProduct doc with
      | Some p =>
          match mapDocuments rest with
          | Some ps => Some (p :: ps)
          | None => None
          end
      | None => None
      end
  end.

(** [export async function GET()] *)
Definition GET (env : Env) (db : Collection) : Response (list Product) :=
  if negb (dbUp env) then
    jsonStatus (Failure "Failed to fetch products") 500
  else
    match mapDocuments (newestFirst db) with
    | Some data => json (Success data)
    | None => jsonStatus (Failure "Failed to fetch products") 500
    end.

End Listing.

(** [POST] with the writes that other requests make while the handler
    awaits: [afterCheck] is what they do to the store between its
    [findOne({ code })] and its [insertOne], [afterInsert] between its
    [insertOne] and its [findOne({ _id })].  A missing [newProduct] makes
    [documentToProduct(newProduct!)] throw. *)
Definition POSTinterleaved (afterCheck afterInsert : Collection -> Collection)
  (env : Env) (body : PostBody) (db : Collection)
  : Response Product * Collection :=
  match b_name body, b_code body, b_count body with
  | Some name, Some code, Some count =>
      if falsy (Some name) || falsy (Some code) then
        (jsonStatus (Failure "Name, code, and count are required") 400, db)
      else if negb (dbUp env) then
        (jsonStatus (Failure "Failed to create product") 500, db)
      else
        match findOneByCode code db with
        | Some _ =>
            (jsonStatus (Failure "Product code already exists") 400, db)
        | None =>
            let productDoc :=
              productToDocument (now1 env) (now2 env)
                {| in_name := name; in_code := code; in_count := count;
                   in_description := b_description body;
                   in_createdAt := None; in_updatedAt := None |} in
            match insertOne (freshId env) productDoc (afterCheck db) with
            | None =>
                (jsonStatus (Failure "Failed to create product") 500,
                 afterCheck db)
            | Some db' =>
                match findOneById (freshId env) (afterInsert db') with
                | Some newProduct =>
                    match documentToProduct newProduct with
                    | Some p => (json (Success p), afterInsert db')
                    | None =>
                        (jsonStatus (Failure "Failed to create product")
                                    500, afterInsert db')
                    end
                | None =>
                    (jsonStatus (Failure "Failed to create product") 500,
                     afterInsert db')
                end
            end
        end
  | _, _, _ =>
      (jsonStatus (Failure "Name, code, and count are required") 400, db)
  end.

End Api.

(* ===================================================================== *)
(** ** src/services/productService.ts *)
(* ===================================================================== *)

Module Service.

(** A [fetch] call issued by the client. *)
Inductive Request :=
| ReqPOST (body : Api.PostBody)
| ReqPUT (id : string) (body : Api.PutBody)
| ReqDELETE (id : string).

(** The remote side as the client sees it: the stored collection and the
    requests issued so far, oldest first. *)
Record Server := mkServer {
  collection : Api.Collection;
  requests : list Request
}.

Definition issue (r : Request) (srv : Server) : Server :=
  {| collection := collection srv;
     requests := List.app (requests srv) [r] |}.

Definition store (db : Api.Collection) (srv : Server) : Server :=
  {| collection := db; requests := requests srv |}.

(** [JSON.stringify(product)] as the POST handler destructures it. *)
Definition postBody (product : ProductInput) : Api.PostBody :=
  {| Api.b_name := Some (in_name product);
     Api.b_code := Some (in_code product);
     Api.b_count := Some (in_count product);
     Api.b_description := in_description product |}.

(** [JSON.stringify(product)] as the PUT handler destructures it. *)
Definition putBody (product : ProductInput) : Api.PutBody :=
  {| Api.u_name := in_name product;
     Api.u_code := in_code product;
     Api.u_count := in_count product;
     Api.u_description := in_description product |}.

(** [if (!data.success) throw new Error(data.error || fallback); return
    data.data] *)
Definition unwrap {A : Type} (fallback : string) (e : Api.Envelope A)
  : Result A :=
  match e with
  | Api.Success payload => Returned payload
  | Api.Failure error => Threw (ErrorObject (JS.strOr error fallback))
  end.

Section Client.

Variable ObjectId_isValid : string -> bool.

(** [export async function createProduct(product)] *)
Definition createProduct (env : Env) (product : ProductInput) (srv : Server)
  : Result Product * Server :=
  let srv := issue (ReqPOST (postBody product)) srv in
  match transport env with
  | Some e => (Threw e, srv)
  | None =>
      let '(response, db) :=
        Api.POST env (postBody product) (collection srv) in
      (unwrap "Failed to create product" (Api.envelope response),
       store db srv)
  end.

(** [export async function updateProduct(id, product)] *)
Definition updateProduct (env : Env) (id : string) (product : ProductInput)
  (srv : Server) : Result Product * Server :=
  let srv := issue (ReqPUT id (putBody product)) srv in
  match transport env with
  | Some e => (Threw e, srv)
  | None =>
      let '(response, db) :=
        Api.PUT ObjectId_isValid env id (putBody product)
                (collection srv) in
      (unwrap "Failed to update product" (Api.envelope response),
       store db srv)
  end.

(** [export async function deleteProduct(id)]; the message of a
    successful response is dropped. *)
Definition deleteProduct (env : Env) (id : string) (srv : Server)
  : Result unit * Server :=
  let srv := issue (ReqDELETE id) srv in
  match transport env with
  | Some e => (Threw e, srv)
  | None =>
      let '(response, db) :=
        Api.DELETE ObjectId_isValid env id (collection srv) in
      (match unwrap "Failed to delete product" (Api.envelope response) with
       | Returned _ => Returned tt
       | Threw e => Threw e
       end,
       store db srv)
  end.

End Client.

Section Fetch.

Variable newestFirst : Api.Collection -> Api.Collection.

(** [export async function fetchProducts()]; a GET writes nothing, and the
    log of [requests] keeps the requests that can write. *)
Definition fetchProducts (env : Env) (srv : Server) : Result (list Product) :=
  match transport env with
  | Some e => Threw e
  | None =>
      unwrap "Failed to fetch products"
             (Api.envelope (Api.GET newestFirst env (collection srv)))
  end.

End Fetch.

End Service.

(* ===================================================================== *)
(** ** src/app/page.tsx *)
(* ===================================================================== *)

Module Page.

(** The [useState] cells of [Home]. *)
Record State := mkState {
  products : list Product;
  isModalOpen : bool;
  loading : bool;
  error : option string
}.

Definition setProducts (f : list Product -> list Product) (st : State)
  : State :=
  {| products := f (products st); isModalOpen := isModalOpen st;
     loading := loading st; error := error st |}.

Definition setError (e : option string) (st : State) : State :=
  {| products := products st; isModalOpen := isModalOpen st;
     loading := loading st; error := e |}.

Definition setIsModalOpen (b : bool) (st : State) : State :=
  {| products := products st; isModalOpen := b;
     loading := loading st; error := error st |}.

(** [err instanceof Error ? err.message : fallback] *)
Definition messageOf (err : Thrown) (fallback : string) : string :=
  match err with
  | ErrorObject message => message
  | NotAnError => fallback
  end.

Section Coordinator.

Variable ObjectId_isValid : string -> bool.

(** [const addProduct = async (product) => ...] *)
Definition addProduct (env : Env) (product : ProductInput)
  (st : State) (srv : Service.Server) : State * Service.Server :=
  match Service.createProduct env product srv with
  | (Returned newProduct, srv') =>
      (setProducts (fun prev => newProduct :: prev) st, srv')
  | (Threw err, srv') =>
      (setError (Some (messageOf err "Failed to add product")) st, srv')
  end.

(** [const updateProduct = async (id, updatedProduct) => ...] *)
Definition updateProduct (env : Env) (id : string)
  (updatedProduct : ProductInput) (st : State) (srv : Service.Server)
  : State * Service.Server :=
  match Service.updateProduct ObjectId_isValid env id updatedProduct srv with
  | (Returned updated, srv') =>
      (setProducts
         (fun prev =>
            map (fun product =>
                   if String.eqb (ProductModel.id product) id
                   then updated else product) prev) st, srv')
  | (Threw err, srv') =>
      (setError (Some (messageOf err "Failed to update product")) st, srv')
  end.

(** [const deleteProduct = async (id) => ...] *)
Definition deleteProduct (env : Env) (id : string)
  (st : State) (srv : Service.Server) : State * Service.Server :=
  match Service.deleteProduct ObjectId_isValid env id srv with
  | (Returned _, srv') =>
      (setProducts
         (fun prev =>
            filter (fun product =>
                      negb (String.eqb (ProductModel.id product) id)) prev)
         st, srv')
  | (Threw err, srv') =>
      (setError (Some (messageOf err "Failed to delete product")) st, srv')
  end.

End Coordinator.

(** The cells of [Home] at the first render. *)
Definition initial : State :=
  {| products := []; isModalOpen := false; loading := true; error := None |}.

Definition setLoading (b : bool) (st : State) : State :=
  {| products := products st; isModalOpen := isModalOpen st;
     loading := b; error := error st |}.

(** [{error && (...)}]: whether the red banner is rendered. *)
Definition bannerShown (st : State) : bool :=
  match error st with
  | Some message => JS.truthy message
  | None => false
  end.

Section Load.

Variable newestFirst : Api.Collection -> Api.Collection.

(** [const loadProducts = async () => ...], with its [finally]. *)
Definition loadProducts (env : Env) (st : State) (srv : Service.Server)
  : State :=
  let st := setLoading true st in
  let st :=
    match Service.fetchProducts newestFirst env srv with
    | Returned fetchedProducts =>
        setError None (setProducts (fun _ => fetchedProducts) st)
    | Threw err =>
        setError (Some (messageOf err "Failed to load products")) st
    end in
  setLoading false st.

End Load.

End Page.

(* ===================================================================== *)
(** ** src/components/InventoryForm.tsx *)
(* ===================================================================== *)

Module InventoryForm.

Record FormData := mkFormData {
  fd_name : string;
  fd_code : string;
  fd_count : Z;
  fd_description : string
}.

(** [Record<string, string>] restricted to the keys the component
    writes; [None] is an absent key. *)
Record Errors := mkErrors {
  e_name : option string;
  e_code : option string;
  e_count : option string
}.

Record State := mkState {
  formData : FormData;
  errors : Errors
}.

Definition emptyForm : FormData :=
  {| fd_name := ""; fd_code := ""; fd_count := 0; fd_description := "" |}.

Definition initial : State :=
  {| formData := emptyForm;
     errors := {| e_name := None; e_code := None; e_count := None |} |}.

(** [Object.keys(newErrors).length] *)
Definition keysLength (e : Errors) : Z :=
  let key (o : option string) : Z :=
    match o with Some _ => 1 | None => 0 end in
  key (e_name e) + key (e_code e) + key (e_count e).

(** What [handleSubmit] did besides updating its own state. *)
Record Outcome := mkOutcome {
  onAddProduct : option ProductInput;
  onClose : bool
}.

(** [const handleSubmit = (e) => ...] *)
Definition handleSubmit (st : State) : State * Outcome :=
  let fd := formData st in
  let newErrors :=
    {| e_name :=
         if negb (JS.truthy (JS.trim (fd_name fd)))
         then Some "Ürün adı gereklidir" else None;
       e_code :=
         if negb (JS.truthy (JS.trim (fd_code fd)))
         then Some "Ürün kodu gereklidir" else None;
       e_count :=
         if fd_count fd <=? 0
         then Some "Adet 0'dan büyük olmalıdır" else None |} in
  if keysLength newErrors =? 0 then
    ({| formData := emptyForm; errors := newErrors |},
     {| onAddProduct :=
          Some {| in_name := JS.trim (fd_name fd);
                  in_code := JS.trim (fd_code fd);
                  in_count := fd_count fd;
                  in_description :=
                    if JS.truthy (JS.trim (fd_description fd))
                    then Some (JS.trim (fd_description fd)) else None;
                  in_createdAt := None;
                  in_updatedAt := None |};
        onClose := true |})
  else
    ({| formData := fd; errors := newErrors |},
     {| onAddProduct := None; onClose := false |}).

(** The [<input>] and [<textarea>] elements of the form. *)
Inductive Field := FieldName | FieldCode | FieldCount | FieldDescription.

(** [const handleInputChange = (e) => ...]; [parsed] is
    [parseInt(value)], read only for the [type="number"] field. *)
Definition handleInputChange (f : Field) (value : string)
  (parsed : option Z) (st : State) : State :=
  let fd := formData st in
  let fd' :=
    match f with
    | FieldName =>
        {| fd_name := value; fd_code := fd_code fd;
           fd_count := fd_count fd; fd_description := fd_description fd |}
    | FieldCode =>
        {| fd_name := fd_name fd; fd_code := value;
           fd_count := fd_count fd; fd_description := fd_description fd |}
    | FieldCount =>
        {| fd_name := fd_name fd; fd_code := fd_code fd;
           fd_count := JS.parseIntOr0 parsed;
           fd_description := fd_description fd |}
    | FieldDescription =>
        {| fd_name := fd_name fd; fd_code := fd_code fd;
           fd_count := fd_count fd; fd_description := value |}
    end in
  let clear (e : option string) : option string :=
    match e with
    | Some m => if JS.truthy m then Some "" else e
    | None => None
    end in
  let er := errors st in
  let er' :=
    match f with
    | FieldName =>
        {| e_name := clear (e_name er); e_code := e_code er;
           e_count := e_count er |}
    | FieldCode =>
        {| e_name := e_name er; e_code := clear (e_code er);
           e_count := e_count er |}
    | FieldCount =>
        {| e_name := e_name er; e_code := e_code er;
           e_count := clear (e_count er) |}
    | FieldDescription => er
    end in
  {| formData := fd'; errors := er' |}.

End InventoryForm.

(* ===================================================================== *)
(** ** src/components/ConfirmModal.tsx *)
(* ===================================================================== *)

Module ConfirmModal.

(** What the user can do to the modal. *)
Inductive Control :=
| Backdrop
| CancelButton
| ConfirmButton
| KeyDown (key : string).

Inductive Callback := OnConfirm | OnCancel.

(** The handlers the component has attached for a given [isOpen]: the
    [keydown] listener is added only [if (isOpen)], and nothing is
    rendered [if (!isOpen)]. *)
Definition fire (isOpen : bool) (c : Control) : option Callback :=
  if negb isOpen then None
  else
    match c with
    | Backdrop => Some OnCancel
    | CancelButton => Some OnCancel
    | ConfirmButton => Some OnConfirm
    | KeyDown key => if String.eqb key "Escape" then Some OnCancel else None
    end.

End ConfirmModal.

(* ===================================================================== *)
(** ** src/components/InventoryList.tsx *)
(* ===================================================================== *)

Module InventoryList.

(** The state of the delete confirmation modal. *)
Record DeleteConfirm := mkDeleteConfirm {
  isOpen : bool;
  productId : string;
  productName : string
}.

Definition closedModal : DeleteConfirm :=
  {| isOpen := false; productId := ""; productName := "" |}.

(** The columns [handleSort] is called with. *)
Inductive SortField := ByName | ByCode | ByCount.
Inductive SortDirection := Asc | Desc.

Definition sortField_eqb (a b : SortField) : bool :=
  match a, b with
  | ByName, ByName | ByCode, ByCode | ByCount, ByCount => true
  | _, _ => false
  end.

(** The [useState] cells of [InventoryList]. *)
Record State := mkState {
  editingId : option string;
  editFormData : InventoryForm.FormData;
  editingCountId : option string;
  tempCount : Z;
  deleteConfirmModal : DeleteConfirm;
  sortField : SortField;
  sortDirection : SortDirection;
  currentPage : Z;
  itemsPerPage : Z
}.

Definition initial : State :=
  {| editingId := None;
     editFormData := InventoryForm.emptyForm;
     editingCountId := None;
     tempCount := 0;
     deleteConfirmModal := closedModal;
     sortField := ByName;
     sortDirection := Asc;
     currentPage := 1;
     itemsPerPage := 10 |}.

Definition setEditingId (v : option string) (st : State) : State :=
  mkState v (editFormData st) (editingCountId st) (tempCount st)
          (deleteConfirmModal st) (sortField st) (sortDirection st)
          (currentPage st) (itemsPerPage st).

Definition setEditFormData (v : InventoryForm.FormData) (st : State) : State :=
  mkState (editingId st) v (editingCountId st) (tempCount st)
          (deleteConfirmModal st) (sortField st) (sortDirection st)
          (currentPage st) (itemsPerPage st).

Definition setEditingCountId (v : option string) (st : State) : State :=
  mkState (editingId st) (editFormData st) v (tempCount st)
          (deleteConfirmModal st) (sortField st) (sortDirection st)
          (currentPage st) (itemsPerPage st).

Definition setTempCount (v : Z) (st : State) : State :=
  mkState (editingId st) (editFormData st) (editingCountId st) v
          (deleteConfirmModal st) (sortField st) (sortDirection st)
          (currentPage st) (itemsPerPage st).

Definition setDeleteConfirmModal (v : DeleteConfirm) (st : State) : State :=
  mkState (editingId st) (editFormData st) (editingCountId st) (tempCount st)
          v (sortField st) (sortDirection st)
          (currentPage st) (itemsPerPage st).

Definition setSortField (v : SortField) (st : State) : State :=
  mkState (editingId st) (editFormData st) (editingCountId st) (tempCount st)
          (deleteConfirmModal st) v (sortDirection st)
          (currentPage st) (itemsPerPage st).

Definition setSortDirection (v : SortDirection) (st : State) : State :=
  mkState (editingId st) (editFormData st) (editingCountId st) (tempCount st)
          (deleteConfirmModal st) (sortField st) v
          (currentPage st) (itemsPerPage st).

Definition setCurrentPage (v : Z) (st : State) : State :=
  mkState (editingId st) (editFormData st) (editingCountId st) (tempCount st)
          (deleteConfirmModal st) (sortField st) (sortDirection st)
          v (itemsPerPage st).

Definition setItemsPerPage (v : Z) (st : State) : State :=
  mkState (editingId st) (editFormData st) (editingCountId st) (tempCount st)
          (deleteConfirmModal st) (sortField st) (sortDirection st)
          (currentPage st) v.

(** A call of one of the two props [onUpdateProduct], [onDeleteProduct]. *)
Inductive Emit :=
| OnUpdateProduct (id : string) (product : ProductInput)
| OnDeleteProduct (id : string).

(** *** Handlers *)

(** [const startEditing = (product) => ...] *)
Definition startEditing (product : Product) (st : State) : State :=
  setEditFormData
    {| InventoryForm.fd_name := name product;
       InventoryForm.fd_code := code product;
       InventoryForm.fd_count := count product;
       InventoryForm.fd_description :=
         match description product with
         | Some d => JS.strOr d ""
         | None => ""
         end |}
    (setEditingId (Some (id product)) st).

(** [const cancelEditing = () => ...] *)
Definition cancelEditing (st : State) : State :=
  setEditFormData InventoryForm.emptyForm (setEditingId None st).

(** [const saveEdit = (id) => ...] *)
Definition saveEdit (id : string) (st : State) : State * list Emit :=
  let fd := editFormData st in
  if JS.truthy (JS.trim (InventoryForm.fd_name fd))
     && JS.truthy (JS.trim (InventoryForm.fd_code fd))
     && (InventoryForm.fd_count fd >? 0)
  then
    (setEditingId None st,
     [OnUpdateProduct id
        {| in_name := JS.trim (InventoryForm.fd_name fd);
           in_code := JS.trim (InventoryForm.fd_code fd);
           in_count := InventoryForm.fd_count fd;
           in_description :=
             if JS.truthy (JS.trim (InventoryForm.fd_description fd))
             then Some (JS.trim (InventoryForm.fd_description fd))
             else None;
           in_createdAt := None;
           in_updatedAt := None |}])
  else (st, []).

(** The inputs of the edit row: three of [type="text"], one of
    [type="number"]. *)
Inductive InputChange :=
| ChangeName (value : string)
| ChangeCode (value : string)
| ChangeCount (parsed : option Z)      (* [parseInt(value)] *)
| ChangeDescription (value : string).

(** [const handleEditInputChange = (e) => ...] *)
Definition handleEditInputChange (e : InputChange) (st : State) : State :=
  let fd := editFormData st in
  setEditFormData
    match e with
    | ChangeName value =>
        InventoryForm.mkFormData value (InventoryForm.fd_code fd)
          (InventoryForm.fd_count fd) (InventoryForm.fd_description fd)
    | ChangeCode value =>
        InventoryForm.mkFormData (InventoryForm.fd_name fd) value
          (InventoryForm.fd_count fd) (InventoryForm.fd_description fd)
    | ChangeCount parsed =>
        InventoryForm.mkFormData (InventoryForm.fd_name fd)
          (InventoryForm.fd_code fd) (JS.parseIntOr0 parsed)
          (InventoryForm.fd_description fd)
    | ChangeDescription value =>
        InventoryForm.mkFormData (InventoryForm.fd_name fd)
          (InventoryForm.fd_code fd) (InventoryForm.fd_count fd) value
    end st.

(** [const startCountEdit = (product) => ...] *)
Definition startCountEdit (product : Product) (st : State) : State :=
  setTempCount (count product) (setEditingCountId (Some (id product)) st).

(** [const saveCountEdit = (id) => ...] *)
Definition saveCountEdit (products : list Product) (id : string) (st : State)
  : State * list Emit :=
  let emits :=
    if tempCount st >? 0 then
      match JS.find (fun p => String.eqb (ProductModel.id p) id) products with
      | Some product =>
          [OnUpdateProduct id
             {| in_name := name product;
                in_code := code product;
                in_count := tempCount st;
                in_description := description product;
                in_createdAt := None;
                in_updatedAt := None |}]
      | None => []
      end
    else [] in
  (setEditingCountId None st, emits).

(** [const cancelCountEdit = () => ...] *)
Definition cancelCountEdit (st : State) : State :=
  setTempCount 0 (setEditingCountId None st).

(** [const handleCountKeyPress = (e, id) => ...] *)
Definition handleCountKeyPress (products : list Product) (key : string)
  (id : string) (st : State) : State * list Emit :=
  if String.eqb key "Enter" then saveCountEdit products id st
  else if String.eqb key "Escape" then (cancelCountEdit st, [])
  else (st, []).

(** [const handleDeleteClick = (product) => ...] *)
Definition handleDeleteClick (product : Product) (st : State) : State :=
  setDeleteConfirmModal
    {| isOpen := true; productId := id product;
       productName := name product |} st.

(** [const handleDeleteConfirm = () => ...] *)
Definition handleDeleteConfirm (st : State) : State * list Emit :=
  (setDeleteConfirmModal closedModal st,
   [OnDeleteProduct (productId (deleteConfirmModal st))]).

(** [const handleDeleteCancel = () => ...] *)
Definition handleDeleteCancel (st : State) : State :=
  setDeleteConfirmModal closedModal st.

(** [const handleSort = (field) => ...] *)
Definition handleSort (field : SortField) (st : State) : State :=
  if sortField_eqb (sortField st) field then
    setSortDirection
      (match sortDirection st with Asc => Desc | Desc => Asc end) st
  else setSortDirection Asc (setSortField field st).

(** [const handlePageChange = (page) => ...] *)
Definition handlePageChange (page : Z) (st : State) : State :=
  setCurrentPage page st.

(** [const handleItemsPerPageChange = (newItemsPerPage) => ...] *)
Definition handleItemsPerPageChange (newItemsPerPage : Z) (st : State)
  : State :=
  setCurrentPage 1 (setItemsPerPage newItemsPerPage st).

(** *** Derived values of a render *)

(** The status badge of a row. *)
Inductive Badge := StokYok | DusukStok | Stokta.

Definition badgeText (b : Badge) : string :=
  match b with
  | StokYok => "Stok Yok"
  | DusukStok => "Düşük Stok"
  | Stokta => "Stokta"
  end.

(** [product.count === 0 ? ... : product.count <= 5 ? ... : ...] *)
Definition badge (product : Product) : Badge :=
  if count product =? 0 then StokYok
  else if count product <=? 5 then DusukStok
  else Stokta.

(** [const getTotalValue = () => ...]; the additions of the source are
    exact, and are these, as long as the partial sums are integers that a
    number holds exactly (up to 2^53 in absolute value). *)
Definition getTotalValue (products : list Product) : Z :=
  fold_left (fun total product => total + count product) products 0.

(** [const getLowStockItems = () => ...] *)
Definition getLowStockItems (products : list Product) : Z :=
  Z.of_nat (List.length (filter (fun product => count product <=? 5) products)).

Section Render.

(** [String.prototype.localeCompare] in the locale of the browser. *)
Variable localeCompare : string -> string -> Z.

(** The comparator passed to [sort]; the three columns hold two
    strings or two numbers, so the final [return 0] is not reached. *)
Definition compareProducts (field : SortField) (dir : SortDirection)
  (a b : Product) : Z :=
  match field with
  | ByName =>
      match dir with
      | Asc => localeCompare (name a) (name b)
      | Desc => localeCompare (name b) (name a)
      end
  | ByCode =>
      match dir with
      | Asc => localeCompare (code a) (code b)
      | Desc => localeCompare (code b) (code a)
      end
  | ByCount =>
      match dir with
      | Asc => count a - count b
      | Desc => count b - count a
      end
  end.

(** [const sortedProducts = [...products].sort(...)] *)
Definition sortedProducts (products : list Product) (st : State)
  : list Product :=
  JS.sort (compareProducts (sortField st) (sortDirection st)) products.

(** [const totalPages = Math.ceil(sortedProducts.length / itemsPerPage)] *)
Definition totalPages (products : list Product) (st : State) : Z :=
  JS.ceilDiv (Z.of_nat (List.length (sortedProducts products st)))
             (itemsPerPage st).

Definition startIndex (st : State) : Z :=
  (currentPage st - 1) * itemsPerPage st.

Definition endIndex (st : State) : Z := startIndex st + itemsPerPage st.

(** [const paginatedProducts = sortedProducts.slice(startIndex, endIndex)] *)
Definition paginatedProducts (products : list Product) (st : State)
  : list Product :=
  JS.slice (sortedProducts products st) (startIndex st) (endIndex st).

(** The rows of the table body: each displayed product with its badge. *)
Definition rows (products : list Product) (st : State)
  : list (Product * Badge) :=
  map (fun product => (product, badge product))
      (paginatedProducts products st).

(** The label of the [i]-th numbered page button. *)
Definition pageNumber (products : list Product) (st : State) (i : Z) : Z :=
  let totalPages := totalPages products st in
  if totalPages <=? 7 then i + 1
  else if currentPage st <=? 4 then i + 1
  else if currentPage st >=? totalPages - 3 then totalPages - 6 + i
  else currentPage st - 3 + i.

(** [Array.from({ length: Math.min(totalPages, 7) }, (_, i) => ...)] *)
Definition pageButtons (products : list Product) (st : State) : list Z :=
  map (fun i => pageNumber products st (Z.of_nat i))
      (seq 0 (Z.to_nat (Z.min (totalPages products st) 7))).

(** [onClick={() => setCurrentPage(prev => Math.max(prev - 1, 1))}] *)
Definition previousPage (st : State) : State :=
  setCurrentPage (Z.max (currentPage st - 1) 1) st.

(** [onClick={() => setCurrentPage(prev => Math.min(prev + 1,
    totalPages))}] *)
Definition nextPage (products : list Product) (st : State) : State :=
  setCurrentPage (Z.min (currentPage st + 1) (totalPages products st)) st.

(** [onClick={() => setCurrentPage(pageNumber)}] *)
Definition gotoPage (products : list Product) (i : Z) (st : State) : State :=
  setCurrentPage (pageNumber products st i) st.

(** The range shown next to the title: [{startIndex + 1}] and
    [{Math.min(endIndex, products.length)}]. *)
Definition shownFrom (st : State) : Z := startIndex st + 1.

Definition shownTo (products : list Product) (st : State) : Z :=
  Z.min (endIndex st) (Z.of_nat (List.length products)).

(** *** The handlers attached by one render

    What the user can do to the rendered component.  A row is named by
    its position in [paginatedProducts]. *)
Inductive Event :=
| ClickSort (field : SortField)
| ClickEdit (row : nat)                         (* "Düzenle" *)
| ChangeEditInput (row : nat) (e : InputChange)
| ClickSaveChanges (row : nat)
| ClickCancelEdit (row : nat)
| ClickCount (row : nat)
| ChangeCountInput (row : nat) (parsed : option Z)
| BlurCountInput (row : nat)
| KeyDownCountInput (row : nat) (key : string)
| ClickDelete (row : nat)                       (* "Sil" *)
| ClickPrevious
| ClickNext
| ClickPageButton (i : nat)
| Modal (c : ConfirmModal.Control).

Definition optEq (a : option string) (b : string) : bool :=
  match a with
  | Some x => String.eqb x b
  | None => false
  end.

(** The handler that the JSX of this render attaches to [ev], run on
    the state of this render; an element that is not rendered, or a
    [disabled] button, has none. *)
Definition dispatch (products : list Product) (st : State) (ev : Event)
  : State * list Emit :=
  let idle := (st, @nil Emit) in
  let onRow (row : nat) (k : Product -> State * list Emit) :=
    match nth_error (paginatedProducts products st) row with
    | Some product => k product
    | None => idle
    end in
  let inEditMode product := optEq (editingId st) (id product) in
  let inCountEdit product :=
    negb (inEditMode product) && optEq (editingCountId st) (id product) in
  if Z.of_nat (List.length products) =? 0 then idle
  else
    match ev with
    | ClickSort field => (handleSort field st, [])
    | ClickEdit row =>
        onRow row (fun product =>
          if inEditMode product then idle
          else (startEditing product st, []))
    | ChangeEditInput row e =>
        onRow row (fun product =>
          if inEditMode product then (handleEditInputChange e st, [])
          else idle)
    | ClickSaveChanges row =>
        onRow row (fun product =>
          if inEditMode product then saveEdit (id product) st else idle)
    | ClickCancelEdit row =>
        onRow row (fun product =>
          if inEditMode product then (cancelEditing st, []) else idle)
    | ClickCount row =>
        onRow row (fun product =>
          if inEditMode product || inCountEdit product then idle
          else (startCountEdit product st, []))
    | ChangeCountInput row parsed =>
        onRow row (fun product =>
          if inCountEdit product
          then (setTempCount (JS.parseIntOr0 parsed) st, [])
          else idle)
    | BlurCountInput row =>
        onRow row (fun product =>
          if inCountEdit product
          then saveCountEdit products (id product) st
          else idle)
    | KeyDownCountInput row key =>
        onRow row (fun product =>
          if inCountEdit product
          then handleCountKeyPress products key (id product) st
          else idle)
    | ClickDelete row =>
        onRow row (fun product =>
          if inEditMode product then idle
          else (handleDeleteClick product st, []))
    | ClickPrevious =>
        if currentPage st =? 1 then idle else (previousPage st, [])
    | ClickNext =>
        if currentPage st =? totalPages products st then idle
        else (nextPage products st, [])
    | ClickPageButton i =>
        if (i <? Z.to_nat (Z.min (totalPages products st) 7))%nat
        then (gotoPage products (Z.of_nat i) st, [])
        else idle
    | Modal c =>
        match ConfirmModal.fire (isOpen (deleteConfirmModal st)) c with
        | Some ConfirmModal.OnConfirm => handleDeleteConfirm st
        | Some ConfirmModal.OnCancel => (handleDeleteCancel st, [])
        | None => idle
        end
    end.

End Render.

End InventoryList.

(* ===================================================================== *)
(** ** The page as a whole: [Home] with its two children *)
(* ===================================================================== *)

Module App.

Record World := mkWorld {
  page : Page.State;
  list : InventoryList.State;
  form : InventoryForm.State;
  server : Service.Server
}.

Inductive Event :=
| ListEvent (e : InventoryList.Event)
| ClickAddProduct                    (* "Ürün Ekle": opens the form *)
| FormInput (f : InventoryForm.Field) (value : string) (parsed : option Z)
| FormSubmit
| FormClose
| DismissError.

Section Wiring.

Variable ObjectId_isValid : string -> bool.
Variable localeCompare : string -> string -> Z.

(** [onUpdateProduct={updateProduct} onDeleteProduct={deleteProduct}] *)
Definition callback (env : Env) (e : InventoryList.Emit)
  (ps : Page.State * Service.Server) : Page.State * Service.Server :=
  match e with
  | InventoryList.OnUpdateProduct id product =>
      Page.updateProduct ObjectId_isValid env id product (fst ps) (snd ps)
  | InventoryList.OnDeleteProduct id =>
      Page.deleteProduct ObjectId_isValid env id (fst ps) (snd ps)
  end.

(** One user event, with the round trip it starts run to completion.
    While [loading] only the spinner is rendered, and the form is
    rendered only while [isModalOpen]. *)
Definition step (w : World) (ee : Env * Event) : World :=
  let '(env, ev) := ee in
  if Page.loading (page w) then w
  else
    match ev with
    | ListEvent e =>
        let '(l', emits) :=
          InventoryList.dispatch localeCompare
            (Page.products (page w)) (list w) e in
        let '(p', s') :=
          fold_left (fun ps e => callback env e ps) emits
                    (page w, server w) in
        {| page := p'; list := l'; form := form w; server := s' |}
    | ClickAddProduct =>
        {| page := Page.setIsModalOpen true (page w); list := list w;
           form := form w; server := server w |}
    | FormInput f value parsed =>
        if Page.isModalOpen (page w) then
          {| page := page w; list := list w;
             form := InventoryForm.handleInputChange f value parsed (form w);
             server := server w |}
        else w
    | FormSubmit =>
        if Page.isModalOpen (page w) then
          let '(f', out) := InventoryForm.handleSubmit (form w) in
          let '(p', s') :=
            match InventoryForm.onAddProduct out with
            | Some product =>
                Page.addProduct env product (page w) (server w)
            | None => (page w, server w)
            end in
          {| page :=
               if InventoryForm.onClose out
               then Page.setIsModalOpen false p' else p';
             list := list w; form := f'; server := s' |}
        else w
    | FormClose =>
        if Page.isModalOpen (page w) then
          {| page := Page.setIsModalOpen false (page w); list := list w;
             form := form w; server := server w |}
        else w
    | DismissError =>
        {| page := Page.setError None (page w); list := list w;
           form := form w; server := server w |}
    end.

Definition run (w : World) (evs : Datatypes.list (Env * Event)) : World :=
  fold_left step evs w.

End Wiring.

End App.

(* ===================================================================== *)
(** ** Reference notions used by the statements *)
(* ===================================================================== *)

(** The half-open window [[lo, hi)] of a sequence: the items at the
    positions [lo], [lo + 1], ..., [hi - 1] that exist. *)
Definition window {A : Type} (l : list A) (lo hi : Z) : list A :=
  firstn (Z.to_nat hi - Z.to_nat lo) (skipn (Z.to_nat lo) l).

(** [t] is the ceiling of [n / k]: the least integer with [n <= t * k]. *)
Definition isCeiling (n k t : Z) : Prop :=
  (t - 1) * k < n <= t * k.

(** The pagination invariant of a render. *)
Definition pageInRange (localeCompare : string -> string -> Z)
  (products : list Product) (st : InventoryList.State) : Prop :=
  1 <= InventoryList.currentPage st
    <= InventoryList.totalPages localeCompare products st.

(** A comparison that ignores its arguments, and an [ObjectId.isValid]
    that accepts 24 characters, for the worked examples. *)
Definition anyOrder (a b : string) : Z := 0.
Definition has24 (s : string) : bool := (String.length s =? 24)%nat.

Definition widget (n : Z) : Product :=
  {| id := "6543210fedcba9876543210f"; name := "Widget"; code := "W-1";
     count := n; description := None;
     createdAt := Some 1000; updatedAt := Some 1000 |}.

(** The gate of the list is open and carries [id] as its target. *)
Definition gateOpenFor (id : string) (st : InventoryList.State) : Prop :=
  InventoryList.isOpen (InventoryList.deleteConfirmModal st) = true
  /\ InventoryList.productId (InventoryList.deleteConfirmModal st) = id.

(** The click on the "Sil" button of the open gate. *)
Definition confirmClick : App.Event :=
  App.ListEvent (InventoryList.Modal ConfirmModal.ConfirmButton).

(** The events of a delete request that is never confirmed: asking for the
    deletion of a row, and anything done to the gate but confirming. *)
Definition unconfirmed (ev : App.Event) : Prop :=
  match ev with
  | App.ListEvent (InventoryList.ClickDelete _) => True
  | App.ListEvent (InventoryList.Modal c) => c <> ConfirmModal.ConfirmButton
  | _ => False
  end.

(** What a request asks the store to hold as a stock count, if anything. *)
Definition requestedCount (r : Service.Request) : option Z :=
  match r with
  | Service.ReqPOST body => Api.b_count body
  | Service.ReqPUT _ body => Some (Api.u_count body)
  | Service.ReqDELETE _ => None
  end.

(** A second product and a world with both products stored and shown,
    for the worked examples. *)
Definition gadget : Product :=
  {| id := "6543210fedcba98765432110"; name := "Gadget"; code := "G-1";
     count := 2; description := None;
     createdAt := Some 500; updatedAt := Some 500 |}.

Definition online : Env :=
  mkEnv 2000 2000 2000 "6543210fedcba98765432111" true None.

Definition twoProducts : App.World :=
  {| App.page := Page.mkState [widget 10; gadget] false false None;
     App.list := InventoryList.initial;
     App.form := InventoryForm.initial;
     App.server :=
       Service.mkServer
         [mkDocument (Some (id (widget 10))) "Widget" "W-1" 10 None 1000 1000;
          mkDocument (Some (id gadget)) "Gadget" "G-1" 2 None 500 500]
         [] |}.

(** A [Product] passed where an [Omit<Product, 'id'>] is expected. *)
Definition omitId (p : Product) : ProductInput :=
  {| in_name := name p; in_code := code p; in_count := count p;
     in_description := description p;
     in_createdAt := createdAt p; in_updatedAt := updatedAt p |}.

(** Every stored document has an [_id], and no two have the same. *)
Definition wellKeyed (db : Api.Collection) : Prop :=
  ~ In None (map _id db) /\ NoDup (map _id db).

(** No two stored documents have the same code. *)
Definition uniqueCodes (db : Api.Collection) : Prop :=
  NoDup (map doc_code db).

(** The collection of the page lists the stored documents: the same ids,
    each once, in some order. *)
Definition inSync (st : Page.State) (srv : Service.Server) : Prop :=
  Permutation (map (fun p => Some (id p)) (Page.products st))
              (map _id (Service.collection srv)).

(** A sort by creation time, newest first, for the worked examples. *)
Definition sortNewestFirst (db : Api.Collection) : Api.Collection :=
  JS.sort (fun a b => doc_createdAt b - doc_createdAt a) db.

(** Whether a product is flagged in its row: any badge but "Stokta". *)
Definition flagged (p : Product) : bool :=
  match InventoryList.badge p with
  | InventoryList.Stokta => false
  | _ => true
  end.

(** The counts are integers small enough for every sum of some of them,
    taken in any order, to be held exactly by a number: their absolute
    values add up to 2^53 at most. *)
Definition sumAbs (products : list Product) : Z :=
  fold_right (fun p total => Z.abs (count p) + total) 0 products.

Definition safeIntegers (products : list Product) : Prop :=
  sumAbs products <= 2 ^ 53.

(** The rendering of an [ObjectId]: 24 hexadecimal digits in lower case.
    For such a string [new ObjectId(id).toString()] is the string itself. *)
Definition isLowerHex (c : ascii) : bool :=
  let n := nat_of_ascii c in
  ((48 <=? n) && (n <=? 57) || (97 <=? n) && (n <=? 102))%nat.

Fixpoint allChars (f : ascii -> bool) (s : string) : bool :=
  match s with
  | EmptyString => true
  | String c s' => f c && allChars f s'
  end.

Definition canonicalHex (s : string) : bool :=
  (String.length s =? 24)%nat && allChars isLowerHex s.

(** The sum of the stock counts. *)
Definition sumCounts (products : list Product) : Z :=
  fold_right (fun p total => count p + total) 0 products.

(** Two products have the same key in a sort column. *)
Definition sameKey (field : InventoryList.SortField) (a b : Product) : bool :=
  match field with
  | InventoryList.ByName => String.eqb (name a) (name b)
  | InventoryList.ByCode => String.eqb (code a) (code b)
  | InventoryList.ByCount => count a =? count b
  end.

(** The request of a round trip is delivered and answered. *)
Definition delivered (ee : Env * App.Event) : Prop :=
  transport (fst ee) = None.

(* ===================================================================== *)
(** ** Lemmas on the built-ins *)
(* ===================================================================== *)

Lemma insertSorted_length {A : Type} (cmp : A -> A -> Z) (x : A) (l : list A) :
  List.length (JS.insertSorted cmp x l) = S (List.length l).
Proof.
  induction l as [|y l IH]; simpl; [reflexivity|].
  destruct (cmp x y >? 0); simpl; [rewrite IH|]; reflexivity.
Qed.

Lemma sort_length {A : Type} (cmp : A -> A -> Z) (l : list A) :
  List.length (JS.sort cmp l) = List.length l.
Proof.
  induction l as [|x l IH]; simpl; [reflexivity|].
  unfold JS.sort in *. rewrite insertSorted_length, IH. reflexivity.
Qed.

Lemma ceilDiv_isCeiling (n k : Z) : 1 <= k -> isCeiling n k (JS.ceilDiv n k).
Proof.
  intros Hk. unfold isCeiling, JS.ceilDiv.
  pose proof (Z.div_mod (- n) k ltac:(lia)) as Hdm.
  pose proof (Z.mod_pos_bound (- n) k ltac:(lia)) as Hb.
  split; nia.
Qed.

Lemma ceilDiv_pos (n k : Z) : 1 <= k -> 1 <= n -> 1 <= JS.ceilDiv n k.
Proof.
  intros Hk Hn. destruct (ceilDiv_isCeiling n k Hk) as [_ H]. nia.
Qed.

Lemma slice_window {A : Type} (l : list A) (start finish : Z) :
  0 <= start -> start <= finish ->
  JS.slice l start finish = window l start finish.
Proof.
  intros Hs Hf. unfold JS.slice, window. cbv zeta.
  destruct (start <? 0) eqn:E1; [apply Z.ltb_lt in E1; lia|].
  destruct (finish <? 0) eqn:E2; [apply Z.ltb_lt in E2; lia|].
  remember (Z.of_nat (List.length l)) as len eqn:Hlen.
  destruct (Z.le_gt_cases len start) as [Hge|Hlt].
  - rewrite (Z.min_r start len) by lia.
    rewrite (skipn_all2 (n := Z.to_nat len) l) by lia.
    rewrite (skipn_all2 (n := Z.to_nat start) l) by lia.
    now rewrite !firstn_nil.
  - rewrite (Z.min_l start len) by lia.
    destruct (Z.le_gt_cases finish len) as [Hfl|Hfg].
    + rewrite Z.min_l by lia. f_equal. lia.
    + rewrite Z.min_r by lia.
      rewrite !firstn_all2; try reflexivity;
        rewrite length_skipn; lia.
Qed.

(* ===================================================================== *)
(** ** List presentation: status badge and pagination *)
(* ===================================================================== *)

Lemma sortedProducts_length lc (products : list Product) st :
  List.length (InventoryList.sortedProducts lc products st)
  = List.length products.
Proof. apply sort_length. Qed.

Lemma totalPages_eq lc (products : list Product) st :
  InventoryList.totalPages lc products st
  = JS.ceilDiv (Z.of_nat (List.length products)) (InventoryList.itemsPerPage st).
Proof.
  unfold InventoryList.totalPages. now rewrite sortedProducts_length.
Qed.

Lemma badge_cases (product : Product) :
  (InventoryList.badge product = InventoryList.StokYok <-> count product = 0)
  /\ (InventoryList.badge product = InventoryList.DusukStok
      <-> count product <> 0 /\ count product <= 5)
  /\ (InventoryList.badge product = InventoryList.Stokta <-> count product > 5).
Proof.
  unfold InventoryList.badge.
  destruct (Z.eqb_spec (count product) 0) as [E|E];
    [|destruct (Z.leb_spec (count product) 5) as [L|L]];
    repeat split; intros; try discriminate; try lia; try tauto.
Qed.

(** C1 (as amended): every displayed row carries the badge of its product,
    and that badge is "Stok Yok" (out of stock) exactly when [count = 0],
    "Düşük Stok" (low stock) exactly when [count <> 0] and [count <= 5] —
    which for a count that is not negative is [0 < count <= 5] — and
    "Stokta" (in stock) exactly when [count > 5]; the threshold is the
    literal 5. *)
Theorem C1_badge_of_displayed_row lc (products : list Product) st
  (product : Product) (b : InventoryList.Badge) :
  In (product, b) (InventoryList.rows lc products st) ->
  In product (InventoryList.paginatedProducts lc products st)
  /\ (b = InventoryList.StokYok <-> count product = 0)
  /\ (b = InventoryList.DusukStok <-> count product <> 0 /\ count product <= 5)
  /\ (0 <= count product ->
      (b = InventoryList.DusukStok <-> 0 < count product <= 5))
  /\ (b = InventoryList.Stokta <-> count product > 5).
Proof.
  unfold InventoryList.rows. intros Hin.
  apply in_map_iff in Hin. destruct Hin as [q [Hq Hinq]].
  inversion Hq; subst q b; clear Hq.
  destruct (badge_cases product) as [H0 [H1 H2]].
  split; [exact Hinq|]. split; [exact H0|]. split; [exact H1|].
  split; [|exact H2].
  intros Hnn. split; intros H; [apply H1 in H; lia | apply H1; lia].
Qed.

Lemma C1_badge_of_displayed_row_witness :
  In (widget 3) (InventoryList.paginatedProducts anyOrder [widget 3]
                   InventoryList.initial)
  /\ (InventoryList.DusukStok = InventoryList.DusukStok
      <-> 0 < count (widget 3) <= 5).
Proof.
  pose proof (C1_badge_of_displayed_row anyOrder [widget 3]
                InventoryList.initial (widget 3) InventoryList.DusukStok
                ltac:(simpl; left; reflexivity)) as [H1 [_ [_ [H4 _]]]].
  split; [exact H1 | apply H4; simpl; lia].
Defined.

(** C1 as stated fails for a negative count: a displayed product with
    [count = -1] carries the low-stock badge although [0 < count] is
    false. *)
Lemma C1_negative_count_counterexample :
  let product := widget (-1) in
  In (product, InventoryList.DusukStok)
     (InventoryList.rows anyOrder [product] InventoryList.initial)
  /\ ~ (InventoryList.badge product = InventoryList.DusukStok
        <-> 0 < count product <= 5).
Proof.
  split.
  - simpl. left. reflexivity.
  - intros [H _]. simpl in H. specialize (H eq_refl). lia.
Qed.

(** C8: for [itemsPerPage = K >= 1] and a page [p >= 1], the displayed page
    is the window [[(p-1)*K, p*K)] of the sorted sequence, the number of
    pages is the ceiling of [N / K], page 1 shows the first [K] items, and
    the last page shows the remainder, between 1 and [K] items. *)
Theorem C8_pagination_window lc (products : list Product) st :
  let K := InventoryList.itemsPerPage st in
  let p := InventoryList.currentPage st in
  let N := Z.of_nat (List.length products) in
  let T := InventoryList.totalPages lc products st in
  let sorted := InventoryList.sortedProducts lc products st in
  let shown := InventoryList.paginatedProducts lc products st in
  1 <= K -> 1 <= p ->
  shown = window sorted ((p - 1) * K) (p * K)
  /\ List.length sorted = List.length products
  /\ isCeiling N K T
  /\ (p = 1 -> shown = firstn (Z.to_nat K) sorted)
  /\ (1 <= N -> p = T ->
      shown = skipn (Z.to_nat ((T - 1) * K)) sorted
      /\ Z.of_nat (List.length shown) = N - (T - 1) * K
      /\ 0 < Z.of_nat (List.length shown) <= K).
Proof.
  intros K p N T sorted shown HK Hp.
  assert (Hshown : shown = window sorted ((p - 1) * K) (p * K)).
  { unfold shown, InventoryList.paginatedProducts.
    rewrite slice_window.
    - unfold InventoryList.endIndex, InventoryList.startIndex.
      fold K p sorted. f_equal. ring.
    - unfold InventoryList.startIndex. fold K p. nia.
    - unfold InventoryList.endIndex, InventoryList.startIndex. fold K p. lia. }
  assert (Hlen : List.length sorted = List.length products)
    by apply sortedProducts_length.
  assert (HT : isCeiling N K T).
  { unfold T. rewrite totalPages_eq. now apply ceilDiv_isCeiling. }
  split; [exact Hshown|]. split; [exact Hlen|]. split; [exact HT|]. split.
  - intros Hp1. rewrite Hshown, Hp1. unfold window.
    replace ((1 - 1) * K) with 0 by ring. replace (1 * K) with K by ring.
    change (Z.to_nat 0) with 0%nat. rewrite Nat.sub_0_r. reflexivity.
  - intros HN HpT. rewrite Hshown, HpT. unfold window.
    destruct HT as [HT1 HT2].
    assert (1 <= T) by nia.
    assert (Hsk : Z.of_nat (List.length (skipn (Z.to_nat ((T - 1) * K)) sorted))
                  = N - (T - 1) * K).
    { rewrite length_skipn, Hlen. unfold N. nia. }
    rewrite firstn_all2 by nia.
    split; [reflexivity|]. split; [exact Hsk|]. rewrite Hsk. nia.
Qed.

Lemma C8_pagination_window_witness :
  InventoryList.paginatedProducts anyOrder
    [widget 1; widget 2; widget 3]
    (InventoryList.setItemsPerPage 2
       (InventoryList.setCurrentPage 2 InventoryList.initial))
  = [widget 3]
  /\ InventoryList.totalPages anyOrder [widget 1; widget 2; widget 3]
       (InventoryList.setItemsPerPage 2
          (InventoryList.setCurrentPage 2 InventoryList.initial)) = 2.
Proof.
  pose proof (C8_pagination_window anyOrder [widget 1; widget 2; widget 3]
                (InventoryList.setItemsPerPage 2
                   (InventoryList.setCurrentPage 2 InventoryList.initial))
                ltac:(simpl; lia) ltac:(simpl; lia)) as [H1 _].
  split; [rewrite H1; reflexivity | reflexivity].
Defined.

(** *** Page navigation *)

Lemma pageInRange_iff lc (products : list Product) st :
  pageInRange lc products st
  <-> 1 <= InventoryList.currentPage st
        <= JS.ceilDiv (Z.of_nat (List.length products))
                      (InventoryList.itemsPerPage st).
Proof. unfold pageInRange. rewrite totalPages_eq. tauto. Qed.

Lemma pageInRange_same lc (products : list Product) st st' :
  InventoryList.currentPage st' = InventoryList.currentPage st ->
  InventoryList.itemsPerPage st' = InventoryList.itemsPerPage st ->
  pageInRange lc products st -> pageInRange lc products st'.
Proof.
  intros Hc Hi. rewrite !pageInRange_iff, Hc, Hi. tauto.
Qed.

Lemma previousPage_inRange lc (products : list Product) st :
  pageInRange lc products st ->
  pageInRange lc products (InventoryList.previousPage st).
Proof.
  rewrite !pageInRange_iff. simpl. lia.
Qed.

Lemma nextPage_inRange lc (products : list Product) st :
  pageInRange lc products st ->
  pageInRange lc products (InventoryList.nextPage lc products st).
Proof.
  rewrite !pageInRange_iff. simpl. rewrite totalPages_eq. lia.
Qed.

Lemma pageNumber_inRange lc (products : list Product) st (i : Z) :
  pageInRange lc products st ->
  0 <= i < Z.min (InventoryList.totalPages lc products st) 7 ->
  1 <= InventoryList.pageNumber lc products st i
    <= InventoryList.totalPages lc products st.
Proof.
  unfold pageInRange, InventoryList.pageNumber. intros Hr Hi.
  destruct (Z.leb_spec (InventoryList.totalPages lc products st) 7);
    [lia|].
  destruct (Z.leb_spec (InventoryList.currentPage st) 4); [lia|].
  destruct (Z.geb_spec (InventoryList.currentPage st)
              (InventoryList.totalPages lc products st - 3)); lia.
Qed.

Lemma gotoPage_inRange lc (products : list Product) st (i : Z) :
  pageInRange lc products st ->
  0 <= i < Z.min (InventoryList.totalPages lc products st) 7 ->
  pageInRange lc products (InventoryList.gotoPage lc products i st).
Proof.
  intros Hr Hi. pose proof (pageNumber_inRange lc products st i Hr Hi) as H.
  rewrite totalPages_eq in H.
  apply pageInRange_iff. simpl. exact H.
Qed.

Lemma saveCountEdit_page (products : list Product) id st :
  InventoryList.currentPage (fst (InventoryList.saveCountEdit products id st))
  = InventoryList.currentPage st
  /\ InventoryList.itemsPerPage
       (fst (InventoryList.saveCountEdit products id st))
     = InventoryList.itemsPerPage st.
Proof. split; reflexivity. Qed.

Lemma dispatch_inRange lc (products : list Product) st ev :
  pageInRange lc products st ->
  pageInRange lc products (fst (InventoryList.dispatch lc products st ev)).
Proof.
  intros Hr. unfold InventoryList.dispatch.
  destruct (Z.of_nat (List.length products) =? 0); [exact Hr|].
  destruct ev; simpl;
    try (destruct (nth_error _ _) as [product|]; [|exact Hr]).
  - unfold InventoryList.handleSort.
    destruct (InventoryList.sortField_eqb _ _);
      (eapply pageInRange_same; [| |exact Hr]; reflexivity).
  - destruct (InventoryList.optEq _ _); [exact Hr|].
    eapply pageInRange_same; [| |exact Hr]; reflexivity.
  - destruct (InventoryList.optEq _ _); [|exact Hr].
    eapply pageInRange_same; [| |exact Hr]; reflexivity.
  - destruct (InventoryList.optEq _ _); [|exact Hr].
    unfold InventoryList.saveEdit.
    destruct (_ && _); simpl; [|exact Hr].
    eapply pageInRange_same; [| |exact Hr]; reflexivity.
  - destruct (InventoryList.optEq _ _); [|exact Hr].
    eapply pageInRange_same; [| |exact Hr]; reflexivity.
  - destruct (_ || _); [exact Hr|].
    eapply pageInRange_same; [| |exact Hr]; reflexivity.
  - destruct (_ && _); [|exact Hr].
    eapply pageInRange_same; [| |exact Hr]; reflexivity.
  - destruct (_ && _); [|exact Hr].
    eapply pageInRange_same; [| |exact Hr]; reflexivity.
  - destruct (_ && _); [|exact Hr].
    unfold InventoryList.handleCountKeyPress.
    destruct (String.eqb key "Enter");
      [eapply pageInRange_same; [| |exact Hr]; reflexivity|].
    destruct (String.eqb key "Escape"); [|exact Hr].
    eapply pageInRange_same; [| |exact Hr]; reflexivity.
  - destruct (InventoryList.optEq _ _); [exact Hr|].
    eapply pageInRange_same; [| |exact Hr]; reflexivity.
  - destruct (_ =? 1); [exact Hr|]. now apply previousPage_inRange.
  - destruct (_ =? _); [exact Hr|]. now apply nextPage_inRange.
  - destruct (Nat.ltb_spec i
                (Z.to_nat (Z.min (InventoryList.totalPages lc products st) 7)));
      [|exact Hr].
    apply gotoPage_inRange; [exact Hr|lia].
  - destruct (ConfirmModal.fire _ _) as [[|]|]; [| |exact Hr];
      (eapply pageInRange_same; [| |exact Hr]; reflexivity).
Qed.

(** C3: the pagination invariant [currentPage] in [[1, totalPages]] is kept
    by every navigation operation: the "Önceki" and "Sonraki" buttons clamp
    with [Math.max] and [Math.min], the numbered page buttons go to a page
    within the range, and every other handler attached by a render leaves
    the page where it is; changing [itemsPerPage] resets [currentPage] to 1,
    which is in range as soon as there is a product and the new page size
    is at least 1. *)
Theorem C3_navigation_keeps_page_in_range lc (products : list Product) st :
  pageInRange lc products st ->
  pageInRange lc products (InventoryList.previousPage st)
  /\ pageInRange lc products (InventoryList.nextPage lc products st)
  /\ (forall i, 0 <= i < Z.min (InventoryList.totalPages lc products st) 7 ->
        pageInRange lc products (InventoryList.gotoPage lc products i st))
  /\ (forall ev,
        pageInRange lc products
          (fst (InventoryList.dispatch lc products st ev)))
  /\ (forall k,
        InventoryList.currentPage
          (InventoryList.handleItemsPerPageChange k st) = 1
        /\ InventoryList.itemsPerPage
             (InventoryList.handleItemsPerPageChange k st) = k
        /\ (1 <= k -> products <> [] ->
            pageInRange lc products
              (InventoryList.handleItemsPerPageChange k st))).
Proof.
  intros Hr.
  split; [now apply previousPage_inRange|].
  split; [now apply nextPage_inRange|].
  split; [intros i Hi; now apply gotoPage_inRange|].
  split; [intros ev; now apply dispatch_inRange|].
  intros k. split; [reflexivity|]. split; [reflexivity|].
  intros Hk Hne. apply pageInRange_iff. simpl.
  split; [lia|]. apply ceilDiv_pos; [exact Hk|].
  destruct products; [congruence|simpl; lia].
Qed.

Lemma C3_navigation_keeps_page_in_range_witness :
  pageInRange anyOrder [widget 1; widget 2; widget 3]
    (InventoryList.nextPage anyOrder [widget 1; widget 2; widget 3]
       (InventoryList.setItemsPerPage 2 InventoryList.initial))
  /\ InventoryList.currentPage
       (InventoryList.nextPage anyOrder [widget 1; widget 2; widget 3]
          (InventoryList.nextPage anyOrder [widget 1; widget 2; widget 3]
             (InventoryList.setItemsPerPage 2 InventoryList.initial))) = 2.
Proof.
  assert (H : pageInRange anyOrder [widget 1; widget 2; widget 3]
                (InventoryList.setItemsPerPage 2 InventoryList.initial))
    by (unfold pageInRange; vm_compute; split; discriminate).
  pose proof (C3_navigation_keeps_page_in_range anyOrder
                [widget 1; widget 2; widget 3]
                (InventoryList.setItemsPerPage 2 InventoryList.initial) H)
    as [_ [H2 _]].
  split; [exact H2 | reflexivity].
Defined.

(** [handlePageChange], which no control of the component calls, stores
    the page it is given as it is. *)
Example handlePageChange_stores_any_page :
  pageInRange anyOrder [widget 1] InventoryList.initial
  /\ ~ pageInRange anyOrder [widget 1]
         (InventoryList.handlePageChange 0 InventoryList.initial)
  /\ ~ pageInRange anyOrder [widget 1]
         (InventoryList.handlePageChange 99 InventoryList.initial).
Proof.
  unfold pageInRange. vm_compute.
  split; [split; discriminate|].
  split; intros [H1 H2]; [apply H1 | apply H2]; reflexivity.
Qed.

(* ===================================================================== *)
(** ** What the list and the form submit *)
(* ===================================================================== *)

Lemma saveEdit_emits id st e :
  In e (snd (InventoryList.saveEdit id st)) ->
  exists product,
    e = InventoryList.OnUpdateProduct id product /\ 0 < in_count product.
Proof.
  unfold InventoryList.saveEdit.
  destruct (JS.truthy (JS.trim (InventoryForm.fd_name _))) ; simpl;
    [|intros []].
  destruct (JS.truthy (JS.trim (InventoryForm.fd_code _))) ; simpl;
    [|intros []].
  destruct (Z.gtb_spec
              (InventoryForm.fd_count (InventoryList.editFormData st)) 0)
    as [Hpos|Hle]; simpl; [|intros []].
  intros [<-|[]]. eexists. split; [reflexivity|]. simpl. lia.
Qed.

Lemma saveCountEdit_emits (products : list Product) id st e :
  In e (snd (InventoryList.saveCountEdit products id st)) ->
  exists product,
    e = InventoryList.OnUpdateProduct id product /\ 0 < in_count product.
Proof.
  unfold InventoryList.saveCountEdit. simpl.
  destruct (Z.gtb_spec (InventoryList.tempCount st) 0) as [Hpos|Hle];
    [|intros []].
  destruct (JS.find _ products) as [product|]; [|intros []].
  intros [<-|[]]. eexists. split; [reflexivity|]. simpl. lia.
Qed.

Lemma fire_confirm isOpen c :
  ConfirmModal.fire isOpen c = Some ConfirmModal.OnConfirm ->
  isOpen = true /\ c = ConfirmModal.ConfirmButton.
Proof.
  unfold ConfirmModal.fire. destruct isOpen; simpl; [|discriminate].
  destruct c; try discriminate; [tauto|].
  destruct (String.eqb key "Escape"); discriminate.
Qed.

(** One handler run calls at most one of the two props; an update it asks
    for has a positive count, and a deletion is asked for only by the
    confirm button of the open gate, for the target of the gate. *)
Lemma dispatch_emits lc (products : list Product) st ev e :
  In e (snd (InventoryList.dispatch lc products st ev)) ->
  snd (InventoryList.dispatch lc products st ev) = [e]
  /\ match e with
     | InventoryList.OnUpdateProduct _ product => 0 < in_count product
     | InventoryList.OnDeleteProduct id =>
         ev = InventoryList.Modal ConfirmModal.ConfirmButton
         /\ gateOpenFor id st
     end.
Proof.
  unfold InventoryList.dispatch.
  destruct (Z.of_nat (List.length products) =? 0); [intros []|].
  destruct ev; simpl;
    try (destruct (nth_error _ _) as [product|]; [|intros []]);
    try (intros []; fail).
  - destruct (InventoryList.optEq _ _); intros [].
  - destruct (InventoryList.optEq _ _); intros [].
  - destruct (InventoryList.optEq _ _); [|intros []].
    intros Hin. destruct (saveEdit_emits _ _ _ Hin) as [p [-> Hp]].
    split; [|exact Hp].
    revert Hin. unfold InventoryList.saveEdit.
    destruct (_ && _); simpl; [|intros []]. intros [H|[]]. now rewrite H.
  - destruct (InventoryList.optEq _ _); intros [].
  - destruct (_ || _); intros [].
  - destruct (_ && _); intros [].
  - destruct (_ && _); [|intros []].
    intros Hin. destruct (saveCountEdit_emits _ _ _ _ Hin) as [p [-> Hp]].
    split; [|exact Hp].
    revert Hin. unfold InventoryList.saveCountEdit. simpl.
    destruct (_ >? 0); [|intros []].
    destruct (JS.find _ products); [|intros []].
    intros [H|[]]. now rewrite H.
  - destruct (_ && _); [|intros []].
    unfold InventoryList.handleCountKeyPress.
    destruct (String.eqb key "Enter").
    + intros Hin. destruct (saveCountEdit_emits _ _ _ _ Hin) as [p [-> Hp]].
      split; [|exact Hp].
      revert Hin. unfold InventoryList.saveCountEdit. simpl.
      destruct (_ >? 0); [|intros []].
      destruct (JS.find _ products); [|intros []].
      intros [H|[]]. now rewrite H.
    + destruct (String.eqb key "Escape"); intros [].
  - destruct (InventoryList.optEq _ _); intros [].
  - destruct (_ =? 1); intros [].
  - destruct (_ =? _); intros [].
  - destruct (_ <? _)%nat; intros [].
  - destruct (ConfirmModal.fire _ c) as [[|]|] eqn:F; try (intros []; fail).
    apply fire_confirm in F. destruct F as [Ho ->].
    simpl. intros [<-|[]]. split; [reflexivity|].
    split; [reflexivity|]. split; [exact Ho|reflexivity].
Qed.

Lemma handleSubmit_submits st product :
  InventoryForm.onAddProduct (snd (InventoryForm.handleSubmit st))
  = Some product ->
  0 < in_count product.
Proof.
  unfold InventoryForm.handleSubmit, InventoryForm.keysLength. cbv zeta.
  destruct (Z.leb_spec (InventoryForm.fd_count (InventoryForm.formData st)) 0)
    as [Hle|Hpos].
  - destruct (negb (JS.truthy (JS.trim (InventoryForm.fd_name _))));
      destruct (negb (JS.truthy (JS.trim (InventoryForm.fd_code _))));
      simpl; discriminate.
  - destruct (negb (JS.truthy (JS.trim (InventoryForm.fd_name _))));
      destruct (negb (JS.truthy (JS.trim (InventoryForm.fd_code _))));
      simpl; try discriminate.
    intros H. inversion H; subst. simpl. exact Hpos.
Qed.

(** C2 (as amended): count 0 is reachable neither through the creation form
    nor through an edit — the full-row edit commit and the inline count
    edit commit submit an update only when the count is positive, whatever
    handler of the list runs, and the creation form submits a product only
    when its count is positive. *)
Theorem C2_no_interaction_submits_count_zero :
  (forall id st e,
      In e (snd (InventoryList.saveEdit id st)) ->
      exists product,
        e = InventoryList.OnUpdateProduct id product /\ 0 < in_count product)
  /\ (forall products id st e,
      In e (snd (InventoryList.saveCountEdit products id st)) ->
      exists product,
        e = InventoryList.OnUpdateProduct id product /\ 0 < in_count product)
  /\ (forall lc products st ev id product,
      In (InventoryList.OnUpdateProduct id product)
         (snd (InventoryList.dispatch lc products st ev)) ->
      0 < in_count product)
  /\ (forall st product,
      InventoryForm.onAddProduct (snd (InventoryForm.handleSubmit st))
      = Some product ->
      0 < in_count product).
Proof.
  split; [exact saveEdit_emits|].
  split; [exact saveCountEdit_emits|].
  split; [|exact handleSubmit_submits].
  intros lc products st ev id product Hin.
  exact (proj2 (dispatch_emits lc products st ev _ Hin)).
Qed.

Lemma C2_no_interaction_submits_count_zero_witness :
  let st :=
    InventoryList.setEditFormData
      (InventoryForm.mkFormData " Widget " "W-1" 3 "") InventoryList.initial in
  exists product,
    InventoryList.OnUpdateProduct "a"
      (mkInput "Widget" "W-1" 3 None None None)
    = InventoryList.OnUpdateProduct "a" product
    /\ 0 < in_count product.
Proof.
  intros st.
  destruct C2_no_interaction_submits_count_zero as [H _].
  apply (H "a" st (InventoryList.OnUpdateProduct "a"
                     (mkInput "Widget" "W-1" 3 None None None))).
  vm_compute. left. reflexivity.
Defined.

(** C2 as stated fails: neither edit commit ever submits an update with
    [count = 0]. *)
Lemma C2_edit_count_zero_counterexample :
  ~ ((exists id st product,
         In (InventoryList.OnUpdateProduct id product)
            (snd (InventoryList.saveEdit id st))
         /\ in_count product = 0)
     \/ (exists products id st product,
         In (InventoryList.OnUpdateProduct id product)
            (snd (InventoryList.saveCountEdit products id st))
         /\ in_count product = 0)).
Proof.
  intros [[id [st [product [Hin H0]]]]|[products [id [st [product [Hin H0]]]]]].
  - destruct (saveEdit_emits _ _ _ Hin) as [p [Heq Hp]].
    inversion Heq; subst. lia.
  - destruct (saveCountEdit_emits _ _ _ _ Hin) as [p [Heq Hp]].
    inversion Heq; subst. lia.
Qed.

(** With the count of the edit row set to 0, "Save Changes" submits
    nothing and the row stays in edit mode. *)
Example saveEdit_count_zero :
  let st :=
    InventoryList.setEditingId (Some "a")
      (InventoryList.setEditFormData
         (InventoryForm.mkFormData "Widget" "W-1" 0 "") InventoryList.initial) in
  InventoryList.saveEdit "a" st = (st, []).
Proof. reflexivity. Qed.

(** With the inline count set to 0, leaving the input submits nothing. *)
Example saveCountEdit_count_zero :
  let st :=
    InventoryList.setEditingCountId (Some (id (widget 4)))
      (InventoryList.setTempCount 0 InventoryList.initial) in
  snd (InventoryList.saveCountEdit [widget 4] (id (widget 4)) st) = [].
Proof. reflexivity. Qed.

(* ===================================================================== *)
(** ** The store operations *)
(* ===================================================================== *)

Lemma hasId_eq oid (d : ProductDocument) :
  Api.hasId oid d = true <-> _id d = Some oid.
Proof.
  unfold Api.hasId. destruct (_id d) as [i|]; [|split; discriminate].
  destruct (String.eqb_spec i oid) as [->|Hne]; split; try tauto;
    try discriminate.
  intros H. inversion H. contradiction.
Qed.

Lemma findOneByCode_some (db : Api.Collection) (d : ProductDocument) :
  In d db -> exists d', Api.findOneByCode (doc_code d) db = Some d'.
Proof.
  intros Hin. unfold Api.findOneByCode.
  destruct (List.find _ db) as [d'|] eqn:E; [now exists d'|].
  pose proof (find_none _ _ E d Hin) as H. simpl in H.
  now rewrite String.eqb_refl in H.
Qed.

Lemma findOneById_app_new oid (db : Api.Collection) (d : ProductDocument) :
  Api.findOneById oid db = None -> _id d = Some oid ->
  Api.findOneById oid (List.app db [d]) = Some d.
Proof.
  unfold Api.findOneById. intros Hnone Hid.
  induction db as [|x db IH]; simpl in *.
  - apply hasId_eq in Hid. now rewrite Hid.
  - destruct (Api.hasId oid x); [discriminate|]. now apply IH.
Qed.

Lemma findOneAndUpdate_spec oid f (db : Api.Collection) :
  match Api.findOneAndUpdate oid f db with
  | (None, db') =>
      db' = db /\ forall x, In x db -> Api.hasId oid x = false
  | (Some r, db') =>
      exists pre d post,
        db = List.app pre (d :: post)
        /\ (forall x, In x pre -> Api.hasId oid x = false)
        /\ _id d = Some oid
        /\ r = Api.set f d
        /\ db' = List.app pre (Api.set f d :: post)
  end.
Proof.
  induction db as [|x db IH]; simpl.
  - split; [reflexivity|]. intros x [].
  - destruct (Api.hasId oid x) eqn:E.
    + exists [], x, db. simpl. repeat split; try reflexivity.
      * intros y [].
      * now apply hasId_eq.
    + destruct (Api.findOneAndUpdate oid f db) as [[r|] db'].
      * destruct IH as [pre [d [post [-> [Hpre [Hid [-> ->]]]]]]].
        exists (x :: pre), d, post. simpl. repeat split; try reflexivity;
          try assumption.
        intros y [<-|Hy]; [exact E|now apply Hpre].
      * destruct IH as [-> Hall]. split; [reflexivity|].
        intros y [<-|Hy]; [exact E|now apply Hall].
Qed.

Lemma deleteOne_spec oid (db : Api.Collection) :
  match Api.deleteOne oid db with
  | (n, db') =>
      (n = 0 /\ db' = db /\ forall x, In x db -> Api.hasId oid x = false)
      \/ (n = 1 /\ exists pre d post,
            db = List.app pre (d :: post)
            /\ (forall x, In x pre -> Api.hasId oid x = false)
            /\ _id d = Some oid
            /\ db' = List.app pre post)
  end.
Proof.
  induction db as [|x db IH]; simpl.
  - left. repeat split. intros x [].
  - destruct (Api.hasId oid x) eqn:E.
    + right. split; [reflexivity|]. exists [], x, db. simpl.
      repeat split; try reflexivity.
      * intros y [].
      * now apply hasId_eq.
    + destruct (Api.deleteOne oid db) as [n db'].
      destruct IH as [[-> [-> Hall]]|[-> [pre [d [post [-> [Hpre [Hid ->]]]]]]]].
      * left. repeat split. intros y [<-|Hy]; [exact E|now apply Hall].
      * right. split; [reflexivity|]. exists (x :: pre), d, post. simpl.
        repeat split; try reflexivity; try assumption.
        intros y [<-|Hy]; [exact E|now apply Hpre].
Qed.

(* ===================================================================== *)
(** ** POST: creation *)
(* ===================================================================== *)

(** The document that a successful POST stores. *)
Lemma POST_accepts env name code count desc (db : Api.Collection) :
  JS.truthy name = true -> JS.truthy code = true -> dbUp env = true ->
  Api.findOneByCode code db = None ->
  Api.findOneById (freshId env) db = None ->
  let doc :=
    {| _id := Some (freshId env); doc_name := name; doc_code := code;
       doc_count := count; doc_description := desc;
       doc_createdAt := now1 env; doc_updatedAt := now2 env |} in
  Api.POST env (Api.mkPostBody (Some name) (Some code) (Some count) desc) db
  = (Api.json
       (Api.Success
          {| id := freshId env; name := name; code := code; count := count;
             description := desc; createdAt := Some (now1 env);
             updatedAt := Some (now2 env) |}),
     List.app db [doc]).
Proof.
  intros Hn Hc Hup Hcode Hid doc. unfold Api.POST. simpl.
  rewrite Hn, Hc, Hup, Hcode. simpl.
  unfold Api.insertOne. rewrite Hid. simpl.
  fold doc. rewrite (findOneById_app_new _ _ doc Hid eq_refl).
  reflexivity.
Qed.

(** A POST that does not answer with success stores nothing. *)
Lemma POST_failure_stores_nothing env body (db : Api.Collection) error :
  Api.envelope (fst (Api.POST env body db)) = Api.Failure error ->
  snd (Api.POST env body db) = db.
Proof.
  unfold Api.POST.
  destruct (Api.b_name body) as [name|]; [|reflexivity].
  destruct (Api.b_code body) as [code|]; [|reflexivity].
  destruct (Api.b_count body) as [count|]; [|reflexivity].
  destruct (_ || _); [reflexivity|].
  destruct (negb (dbUp env)); [reflexivity|].
  destruct (Api.findOneByCode code db); [reflexivity|].
  unfold Api.insertOne.
  destruct (Api.findOneById (freshId env) db) eqn:Hid; [reflexivity|].
  match goal with
  | |- context [Api.findOneById _ (List.app db [?d])] =>
      rewrite (findOneById_app_new _ _ d Hid eq_refl)
  end.
  simpl. discriminate.
Qed.


Lemma POST_duplicate env body (db : Api.Collection) d :
  In d db -> Api.b_code body = Some (doc_code d) ->
  snd (Api.POST env body db) = db
  /\ (exists error,
        Api.envelope (fst (Api.POST env body db)) = Api.Failure error)
  /\ (dbUp env = true -> Api.status (fst (Api.POST env body db)) = 400)
  /\ (dbUp env = true -> Api.falsy (Api.b_name body) = false ->
      Api.falsy (Api.b_code body) = false -> Api.b_count body <> None ->
      fst (Api.POST env body db)
      = Api.jsonStatus (Api.Failure "Product code already exists") 400).
Proof.
  intros Hin Hcode.
  destruct (findOneByCode_some db d Hin) as [d' Hd'].
  unfold Api.POST. rewrite Hcode.
  destruct (Api.b_name body) as [name|];
    [|simpl; repeat split; eauto; discriminate].
  destruct (Api.b_count body) as [count|];
    [|simpl; repeat split; eauto; congruence].
  destruct (Api.falsy (Some name) || Api.falsy (Some (doc_code d))) eqn:F.
  - simpl. repeat split; eauto.
    intros _ Hn Hc _. unfold Api.falsy in *. rewrite Hn, Hc in F.
    discriminate.
  - destruct (dbUp env); simpl.
    + rewrite Hd'. simpl. repeat split; eauto.
    + repeat split; eauto; discriminate.
Qed.

(* ===================================================================== *)
(** ** The coordinator: add *)
(* ===================================================================== *)

(** [createProduct] returns exactly when the request is delivered and the
    POST handler answers with success; otherwise it throws, with the
    message of the server when there is one. *)
Lemma createProduct_outcome env product srv :
  let db := Service.collection srv in
  let body := Service.postBody product in
  Service.requests (snd (Service.createProduct env product srv))
  = List.app (Service.requests srv) [Service.ReqPOST body]
  /\ match transport env with
     | Some e =>
         Service.createProduct env product srv
         = (Threw e, Service.issue (Service.ReqPOST body) srv)
     | None =>
         Service.collection (snd (Service.createProduct env product srv))
         = snd (Api.POST env body db)
         /\ fst (Service.createProduct env product srv)
            = match Api.envelope (fst (Api.POST env body db)) with
              | Api.Success p => Returned p
              | Api.Failure error =>
                  Threw (ErrorObject
                           (JS.strOr error "Failed to create product"))
              end
     end.
Proof.
  intros db body. unfold Service.createProduct.
  destruct (transport env) as [e|]; simpl; [split; reflexivity|].
  fold body. fold db. destruct (Api.POST env body db) as [response db'].
  simpl. repeat split.
Qed.

Lemma createProduct_threw_keeps_collection env product srv err :
  fst (Service.createProduct env product srv) = Threw err ->
  Service.collection (snd (Service.createProduct env product srv))
  = Service.collection srv.
Proof.
  intros Hthrew.
  pose proof (createProduct_outcome env product srv) as [_ H].
  destruct (transport env) as [e|]; [now rewrite H|].
  destruct H as [Hc Hf]. rewrite Hc. rewrite Hf in Hthrew.
  destruct (Api.envelope (fst (Api.POST env (Service.postBody product)
                                 (Service.collection srv)))) eqn:E;
    [discriminate|].
  now apply POST_failure_stores_nothing with (error := error).
Qed.

Lemma addProduct_threw env product st srv err :
  fst (Service.createProduct env product srv) = Threw err ->
  Page.products (fst (Page.addProduct env product st srv)) = Page.products st
  /\ Page.error (fst (Page.addProduct env product st srv))
     = Some (Page.messageOf err "Failed to add product")
  /\ Service.collection (snd (Page.addProduct env product st srv))
     = Service.collection srv.
Proof.
  intros Hx.
  pose proof (createProduct_threw_keeps_collection env product srv) as Hkeep.
  unfold Page.addProduct.
  destruct (Service.createProduct env product srv) as [[p|e] s]; simpl in *;
    [discriminate|].
  inversion Hx; subst.
  split; [reflexivity|]. split; [reflexivity|]. now apply (Hkeep err).
Qed.

(** C6: when [createProduct] returns a product, [addProduct] puts it at the
    front of the collection and touches nothing else; when it throws,
    [addProduct] sets the error message and the collection of the page is
    exactly what it was (and so is the stored collection). *)
Theorem C6_add_prepends_or_keeps env product st srv :
  let outcome := fst (Service.createProduct env product srv) in
  let st' := fst (Page.addProduct env product st srv) in
  let srv' := snd (Page.addProduct env product st srv) in
  srv' = snd (Service.createProduct env product srv)
  /\ Page.isModalOpen st' = Page.isModalOpen st
  /\ Page.loading st' = Page.loading st
  /\ (forall newProduct,
        outcome = Returned newProduct ->
        Page.products st' = newProduct :: Page.products st
        /\ Page.error st' = Page.error st)
  /\ (forall err,
        outcome = Threw err ->
        Page.products st' = Page.products st
        /\ Page.error st'
           = Some (Page.messageOf err "Failed to add product")
        /\ Service.collection srv' = Service.collection srv).
Proof.
  intros outcome st' srv'. subst outcome st' srv'.
  pose proof (createProduct_threw_keeps_collection env product srv) as Hkeep.
  unfold Page.addProduct.
  destruct (Service.createProduct env product srv) as [[p|e] s]; simpl in *.
  - split; [reflexivity|]. split; [reflexivity|]. split; [reflexivity|].
    split; [|intros err Hx; discriminate].
    intros x Hx. inversion Hx; subst. split; reflexivity.
  - split; [reflexivity|]. split; [reflexivity|]. split; [reflexivity|].
    split; [intros x Hx; discriminate|].
    intros x Hx. inversion Hx; subst.
    split; [reflexivity|]. split; [reflexivity|]. now apply (Hkeep x).
Qed.

Lemma C6_add_prepends_or_keeps_witness :
  let env := mkEnv 1000 1000 1000 "6543210fedcba9876543210f" true None in
  let offline :=
    mkEnv 1000 1000 1000 "6543210fedcba9876543210f" true
          (Some (ErrorObject "Failed to fetch")) in
  let product := mkInput "Widget" "W-1" 10 None None None in
  let st := Page.mkState [widget 2] true false None in
  let srv := Service.mkServer [] [] in
  Page.products (fst (Page.addProduct env product st srv))
  = [widget 10; widget 2]
  /\ Page.products (fst (Page.addProduct offline product st srv))
     = [widget 2]
  /\ Page.error (fst (Page.addProduct offline product st srv))
     = Some "Failed to fetch".
Proof.
  intros env offline product st srv.
  destruct (C6_add_prepends_or_keeps env product st srv)
    as [_ [_ [_ [Hok _]]]].
  destruct (C6_add_prepends_or_keeps offline product st srv)
    as [_ [_ [_ [_ Hko]]]].
  destruct (Hok (widget 10) eq_refl) as [Hp _].
  destruct (Hko (ErrorObject "Failed to fetch") eq_refl) as [Hq [He _]].
  split; [exact Hp|]. split; [exact Hq|exact He].
Defined.

(** C5 (as amended): a create request whose code is the code of a stored
    product is answered with an error and nothing is inserted; with the
    store reachable the answer is a 400, and for a request that carries a
    name, a code and a count it is the conflict error "Product code already
    exists".  The coordinator then leaves its collection as it was and
    shows a message. *)
Theorem C5_duplicate_code_rejected env body (db : Api.Collection) d :
  In d db -> Api.b_code body = Some (doc_code d) ->
  snd (Api.POST env body db) = db
  /\ (exists error,
        Api.envelope (fst (Api.POST env body db)) = Api.Failure error)
  /\ (dbUp env = true -> Api.status (fst (Api.POST env body db)) = 400)
  /\ (dbUp env = true -> Api.falsy (Api.b_name body) = false ->
      Api.falsy (Api.b_code body) = false -> Api.b_count body <> None ->
      fst (Api.POST env body db)
      = Api.jsonStatus (Api.Failure "Product code already exists") 400)
  /\ (forall product st requests,
        Service.postBody product = body ->
        let srv := Service.mkServer db requests in
        Page.products (fst (Page.addProduct env product st srv))
        = Page.products st
        /\ Service.collection (snd (Page.addProduct env product st srv)) = db
        /\ exists message,
             Page.error (fst (Page.addProduct env product st srv))
             = Some message).
Proof.
  intros Hin Hcode.
  destruct (POST_duplicate env body db d Hin Hcode) as [H1 [H2 [H3 H4]]].
  split; [exact H1|]. split; [exact H2|]. split; [exact H3|].
  split; [exact H4|].
  intros product st requests Hbody srv.
  pose proof (createProduct_outcome env product srv) as [_ Hout].
  assert (exists err,
             fst (Service.createProduct env product srv) = Threw err)
    as [err Herr].
  { destruct (transport env) as [e|]; [rewrite Hout; now exists e|].
    destruct Hout as [_ ->]. simpl. rewrite Hbody.
    destruct H2 as [error ->]. eauto. }
  destruct (addProduct_threw env product st srv err Herr) as [Hp [He Hc]].
  split; [exact Hp|]. split; [exact Hc|]. eauto.
Qed.

(** The scenario of the two products: "Widget" with code "W-1" is created
    in an empty collection; creating "Gadget" with the same code is
    refused, and the collection of the page still has one entry. *)
Lemma C5_duplicate_code_rejected_witness :
  let env1 := mkEnv 1000 1000 1000 "6543210fedcba9876543210f" true None in
  let env2 := mkEnv 2000 2000 2000 "6543210fedcba98765432110" true None in
  let first := mkInput "Widget" "W-1" 10 None None None in
  let second := mkInput "Gadget" "W-1" 4 None None None in
  let w1 :=
    Page.addProduct env1 first (Page.mkState [] true false None)
                    (Service.mkServer [] []) in
  let w2 := Page.addProduct env2 second (fst w1) (snd w1) in
  Page.products (fst w1) = [widget 10]
  /\ Page.products (fst w2) = [widget 10]
  /\ List.length (Service.collection (snd w2)) = 1%nat
  /\ fst (Api.POST env2 (Service.postBody second)
                   (Service.collection (snd w1)))
     = Api.jsonStatus (Api.Failure "Product code already exists") 400.
Proof.
  intros env1 env2 first second w1 w2.
  set (d := mkDocument (Some "6543210fedcba9876543210f") "Widget" "W-1" 10
                       None 1000 1000).
  destruct (C5_duplicate_code_rejected env2 (Service.postBody second) [d] d
              ltac:(left; reflexivity) eq_refl)
    as [_ [_ [_ [Hconflict Hpage]]]].
  destruct (Hpage second (fst w1) (Service.requests (snd w1)) eq_refl)
    as [Hp [Hc _]].
  split; [reflexivity|].
  split; [exact Hp|].
  split; [reflexivity|].
  apply Hconflict; [reflexivity|reflexivity|reflexivity|discriminate].
Defined.

(** C5 as stated fails: a request with the code of a stored product but
    without a name is answered with the validation error, not with the
    conflict error; and with the store unreachable a complete request with
    that code is answered 500. *)
Lemma C5_duplicate_code_other_errors_counterexample :
  let stored :=
    [mkDocument (Some "6543210fedcba9876543210f") "Widget" "W-1" 10 None
                1000 1000] in
  let env := mkEnv 2000 2000 2000 "6543210fedcba98765432110" true None in
  let down := mkEnv 2000 2000 2000 "6543210fedcba98765432110" false None in
  fst (Api.POST env (Api.mkPostBody None (Some "W-1") (Some 4) None) stored)
  = Api.jsonStatus (Api.Failure "Name, code, and count are required") 400
  /\ fst (Api.POST env (Api.mkPostBody None (Some "W-1") (Some 4) None) stored)
     <> Api.jsonStatus (Api.Failure "Product code already exists") 400
  /\ fst (Api.POST down
            (Api.mkPostBody (Some "Gadget") (Some "W-1") (Some 4) None) stored)
     = Api.jsonStatus (Api.Failure "Failed to create product") 500.
Proof.
  repeat split. simpl. discriminate.
Qed.

(* ===================================================================== *)
(** ** Create validation *)
(* ===================================================================== *)






(* ===================================================================== *)
(** ** PUT: update *)
(* ===================================================================== *)

Lemma findOneAndUpdate_at oid f (pre post : Api.Collection) d :
  (forall x, In x pre -> Api.hasId oid x = false) -> _id d = Some oid ->
  Api.findOneAndUpdate oid f (List.app pre (d :: post))
  = (Some (Api.set f d), List.app pre (Api.set f d :: post)).
Proof.
  intros Hpre Hid. induction pre as [|x pre IH]; simpl.
  - apply hasId_eq in Hid. now rewrite Hid.
  - rewrite (Hpre x (or_introl eq_refl)).
    rewrite IH; [reflexivity|]. intros y Hy. apply Hpre. now right.
Qed.

Lemma PUT_at iv env id body (pre post : Api.Collection) d :
  iv id = true -> dbUp env = true ->
  (forall x, In x pre -> Api.hasId id x = false) -> _id d = Some id ->
  Api.PUT iv env id body (List.app pre (d :: post))
  = (Api.json
       (Api.Success
          {| id := id; name := Api.u_name body; code := Api.u_code body;
             count := Api.u_count body;
             description := Api.u_description body;
             createdAt := Some (now1 env);
             updatedAt := Some (now3 env) |}),
     List.app pre
       ({| _id := _id d;
           doc_name := Api.u_name body;
           doc_code := Api.u_code body;
           doc_count := Api.u_count body;
           doc_description := Api.u_description body;
           doc_createdAt := now1 env;
           doc_updatedAt := now3 env |} :: post)).
Proof.
  intros Hv Hup Hpre Hid. unfold Api.PUT. rewrite Hv, Hup. simpl.
  rewrite findOneAndUpdate_at by assumption.
  unfold documentToProduct, Api.set. simpl. rewrite Hid. reflexivity.
Qed.

Lemma PUT_success iv env id body (db : Api.Collection) :
  Api.status (fst (Api.PUT iv env id body db)) = 200 ->
  iv id = true /\ dbUp env = true
  /\ exists pre d post,
       db = List.app pre (d :: post)
       /\ (forall x, In x pre -> Api.hasId id x = false)
       /\ _id d = Some id.
Proof.
  unfold Api.PUT.
  destruct (iv id); simpl; [|discriminate].
  destruct (dbUp env); simpl; [|discriminate].
  match goal with
  | |- context [Api.findOneAndUpdate id ?f db] =>
      pose proof (findOneAndUpdate_spec id f db) as Hspec;
      destruct (Api.findOneAndUpdate id f db) as [[r|] db']
  end; simpl; [|discriminate].
  intros _. destruct Hspec as [pre [d [post [Hdb [Hpre [Hid _]]]]]].
  split; [reflexivity|]. split; [reflexivity|]. now exists pre, d, post.
Qed.

(** C10: a successful PUT rewrites the first document whose [_id] is the
    addressed one, in place: its [createdAt] becomes the time read during
    the update, whatever it was before (the conversion to the storage
    shape receives no [createdAt] and takes the current time), its
    [updatedAt] is refreshed, its [_id] stays, and no other document
    changes. *)
Theorem C10_put_overwrites_createdAt iv env id body (db : Api.Collection) :
  Api.status (fst (Api.PUT iv env id body db)) = 200 ->
  exists pre d post,
    db = List.app pre (d :: post)
    /\ (forall x, In x pre -> Api.hasId id x = false)
    /\ _id d = Some id
    /\ snd (Api.PUT iv env id body db)
       = List.app pre
           ({| _id := _id d;
               doc_name := Api.u_name body;
               doc_code := Api.u_code body;
               doc_count := Api.u_count body;
               doc_description := Api.u_description body;
               doc_createdAt := now1 env;
               doc_updatedAt := now3 env |} :: post)
    /\ Api.envelope (fst (Api.PUT iv env id body db))
       = Api.Success
           {| id := id; name := Api.u_name body; code := Api.u_code body;
              count := Api.u_count body;
              description := Api.u_description body;
              createdAt := Some (now1 env);
              updatedAt := Some (now3 env) |}.
Proof.
  intros H200.
  destruct (PUT_success iv env id body db H200)
    as [Hv [Hup [pre [d [post [-> [Hpre Hid]]]]]]].
  exists pre, d, post.
  rewrite (PUT_at iv env id body pre post d Hv Hup Hpre Hid).
  repeat split; assumption.
Qed.

Lemma C10_put_overwrites_createdAt_witness :
  let env := mkEnv 2000 2000 2001 "" true None in
  let id := "6543210fedcba9876543210f" in
  let body := Api.mkPutBody "Widget" "W-1" 7 None in
  let db :=
    [mkDocument (Some "6543210fedcba98765432110") "Gadget" "G-1" 2 None
                500 500;
     mkDocument (Some id) "Widget" "W-1" 10 None 1000 1000] in
  exists pre d post,
    db = List.app pre (d :: post)
    /\ (forall x, In x pre -> Api.hasId id x = false)
    /\ _id d = Some id
    /\ [mkDocument (Some "6543210fedcba98765432110") "Gadget" "G-1" 2 None
                   500 500;
        mkDocument (Some id) "Widget" "W-1" 7 None 2000 2001]
       = List.app pre
           (mkDocument (_id d) "Widget" "W-1" 7 None 2000 2001 :: post)
    /\ Api.Success (mkProduct id "Widget" "W-1" 7 None (Some 2000) (Some 2001))
       = Api.Success
           (mkProduct id "Widget" "W-1" 7 None (Some 2000) (Some 2001)).
Proof.
  intros env id body db.
  exact (C10_put_overwrites_createdAt has24 env id body db eq_refl).
Defined.

(** Two successive updates with the same patch: the second one changes
    the [createdAt] and the [updatedAt] of the document and nothing else. *)
Lemma PUT_twice iv env1 env2 id body (db : Api.Collection) :
  Api.status (fst (Api.PUT iv env1 id body db)) = 200 ->
  dbUp env2 = true ->
  exists pre d post,
    db = List.app pre (d :: post)
    /\ snd (Api.PUT iv env1 id body db)
       = List.app pre
           (mkDocument (_id d) (Api.u_name body) (Api.u_code body)
              (Api.u_count body) (Api.u_description body)
              (now1 env1) (now3 env1) :: post)
    /\ snd (Api.PUT iv env2 id body (snd (Api.PUT iv env1 id body db)))
       = List.app pre
           (mkDocument (_id d) (Api.u_name body) (Api.u_code body)
              (Api.u_count body) (Api.u_description body)
              (now1 env2) (now3 env2) :: post).
Proof.
  intros H200 Hup2.
  destruct (PUT_success iv env1 id body db H200)
    as [Hv [Hup [pre [d [post [-> [Hpre Hid]]]]]]].
  exists pre, d, post. split; [reflexivity|].
  rewrite (PUT_at iv env1 id body pre post d Hv Hup Hpre Hid). simpl.
  split; [reflexivity|].
  rewrite (PUT_at iv env2 id body pre post _ Hv Hup2 Hpre); [reflexivity|].
  exact Hid.
Qed.

(** C4 at a failing input: a record created at time 1000 is updated with
    the same patch at time 2000 and again at time 3000.  After the first
    update its [createdAt] is 2000, after the second it is 3000: the two
    final states differ in [createdAt], not only in [updatedAt]. *)
Theorem C4_put_twice_moves_createdAt :
  let id := "6543210fedcba9876543210f" in
  let patch := Api.mkPutBody "Widget" "W-1" 7 None in
  let db0 := [mkDocument (Some id) "Widget" "W-1" 10 None 1000 1000] in
  let once := Api.PUT has24 (mkEnv 2000 2000 2000 "" true None) id patch db0 in
  let twice :=
    Api.PUT has24 (mkEnv 3000 3000 3000 "" true None) id patch (snd once) in
  snd once = [mkDocument (Some id) "Widget" "W-1" 7 None 2000 2000]
  /\ snd twice = [mkDocument (Some id) "Widget" "W-1" 7 None 3000 3000]
  /\ map doc_createdAt (snd once) <> map doc_createdAt (snd twice)
  /\ Api.envelope (fst once)
     = Api.Success (mkProduct id "Widget" "W-1" 7 None (Some 2000) (Some 2000))
  /\ Api.envelope (fst twice)
     = Api.Success (mkProduct id "Widget" "W-1" 7 None (Some 3000) (Some 3000)).
Proof.
  repeat split. simpl. discriminate.
Qed.

(* ===================================================================== *)
(** ** The requests a user event issues *)
(* ===================================================================== *)

Lemma addProduct_requests env product st srv :
  Service.requests (snd (Page.addProduct env product st srv))
  = List.app (Service.requests srv)
             [Service.ReqPOST (Service.postBody product)].
Proof.
  unfold Page.addProduct.
  pose proof (createProduct_outcome env product srv) as [H _].
  destruct (Service.createProduct env product srv) as [[p|e] s]; exact H.
Qed.

Lemma service_updateProduct_requests iv env id product srv :
  Service.requests (snd (Service.updateProduct iv env id product srv))
  = List.app (Service.requests srv)
             [Service.ReqPUT id (Service.putBody product)].
Proof.
  unfold Service.updateProduct.
  destruct (transport env); [reflexivity|]. simpl.
  destruct (Api.PUT _ _ _ _ _). reflexivity.
Qed.

Lemma updateProduct_requests iv env id product st srv :
  Service.requests (snd (Page.updateProduct iv env id product st srv))
  = List.app (Service.requests srv)
             [Service.ReqPUT id (Service.putBody product)].
Proof.
  unfold Page.updateProduct.
  pose proof (service_updateProduct_requests iv env id product srv) as H.
  destruct (Service.updateProduct iv env id product srv) as [[p|e] s]; exact H.
Qed.

Lemma service_deleteProduct_requests iv env id srv :
  Service.requests (snd (Service.deleteProduct iv env id srv))
  = List.app (Service.requests srv) [Service.ReqDELETE id].
Proof.
  unfold Service.deleteProduct.
  destruct (transport env); [reflexivity|]. simpl.
  destruct (Api.DELETE _ _ _ _). reflexivity.
Qed.

Lemma deleteProduct_requests iv env id st srv :
  Service.requests (snd (Page.deleteProduct iv env id st srv))
  = List.app (Service.requests srv) [Service.ReqDELETE id].
Proof.
  unfold Page.deleteProduct.
  pose proof (service_deleteProduct_requests iv env id srv) as H.
  destruct (Service.deleteProduct iv env id srv) as [[p|e] s]; exact H.
Qed.

(** The handler of a list event calls a prop at most once. *)
Lemma dispatch_emits_shape lc (products : list Product) st ev :
  snd (InventoryList.dispatch lc products st ev) = []
  \/ exists e, snd (InventoryList.dispatch lc products st ev) = [e].
Proof.
  destruct (snd (InventoryList.dispatch lc products st ev)) as [|e rest] eqn:E;
    [now left|right].
  exists e.
  pose proof (dispatch_emits lc products st ev e) as H.
  rewrite E in H. now apply H; left.
Qed.

(** Every request that one user event issues: a DELETE only from the
    confirm button of the open gate, for the target of the gate; a PUT or
    a POST only with a positive count. *)
Lemma step_requests iv lc (w : App.World) env ev :
  exists new,
    Service.requests (App.server (App.step iv lc w (env, ev)))
    = List.app (Service.requests (App.server w)) new
    /\ forall r, In r new ->
         match r with
         | Service.ReqDELETE id =>
             ev = confirmClick /\ gateOpenFor id (App.list w)
         | Service.ReqPUT _ body => 0 < Api.u_count body
         | Service.ReqPOST body =>
             exists c, Api.b_count body = Some c /\ 0 < c
         end.
Proof.
  assert (Hnil : exists new : Datatypes.list Service.Request,
             Service.requests (App.server w)
             = List.app (Service.requests (App.server w)) new
             /\ forall r, In r new ->
                  match r with
                  | Service.ReqDELETE id =>
                      ev = confirmClick /\ gateOpenFor id (App.list w)
                  | Service.ReqPUT _ body => 0 < Api.u_count body
                  | Service.ReqPOST body =>
                      exists c, Api.b_count body = Some c /\ 0 < c
                  end).
  { exists []. rewrite app_nil_r. split; [reflexivity|intros r []]. }
  unfold App.step.
  destruct (Page.loading (App.page w)); [exact Hnil|].
  destruct ev as [e| | | | |]; simpl; try exact Hnil.
  - pose proof (dispatch_emits lc (Page.products (App.page w)) (App.list w) e)
      as Hem.
    destruct (dispatch_emits_shape lc (Page.products (App.page w))
                (App.list w) e) as [Hs|[em Hs]];
      destruct (InventoryList.dispatch lc (Page.products (App.page w))
                  (App.list w) e) as [l' emits];
      simpl in Hs, Hem; subst emits; simpl; [exact Hnil|].
    destruct (Hem em (or_introl eq_refl)) as [_ Hprop].
    destruct em as [id product|id]; unfold App.callback; simpl.
    + pose proof (updateProduct_requests iv env id product (App.page w)
                    (App.server w)) as Hr.
      destruct (Page.updateProduct iv env id product (App.page w)
                  (App.server w)) as [p' s']. simpl in *.
      eexists. split; [exact Hr|].
      intros r [<-|[]]. simpl. exact Hprop.
    + pose proof (deleteProduct_requests iv env id (App.page w)
                    (App.server w)) as Hr.
      destruct (Page.deleteProduct iv env id (App.page w)
                  (App.server w)) as [p' s']. simpl in *.
      eexists. split; [exact Hr|].
      intros r [<-|[]]. destruct Hprop as [-> Hgate].
      split; [reflexivity|exact Hgate].
  - destruct (Page.isModalOpen (App.page w)); exact Hnil.
  - destruct (Page.isModalOpen (App.page w)); [|exact Hnil].
    pose proof (handleSubmit_submits (App.form w)) as Hsub.
    destruct (InventoryForm.handleSubmit (App.form w)) as [f' out].
    simpl in Hsub.
    destruct (InventoryForm.onAddProduct out) as [product|].
    + pose proof (addProduct_requests env product (App.page w) (App.server w))
        as Hr.
      destruct (Page.addProduct env product (App.page w) (App.server w))
        as [p' s']. simpl in *.
      eexists. split; [exact Hr|].
      intros r [<-|[]]. simpl. exists (in_count product).
      split; [reflexivity|]. now apply Hsub.
    + simpl. exact Hnil.
  - destruct (Page.isModalOpen (App.page w)); exact Hnil.
Qed.

(* ===================================================================== *)
(** ** Delete behind the confirmation gate *)
(* ===================================================================== *)

Lemma run_snoc iv lc (w : App.World) evs ee :
  App.run iv lc w (List.app evs [ee]) = App.step iv lc (App.run iv lc w evs) ee.
Proof. unfold App.run. now rewrite fold_left_app. Qed.

(** A DELETE request found after a run was either there before, or it was
    issued by a click on the confirm button while the gate was open for
    its id. *)
Lemma run_delete_gated iv lc (w : App.World) evs id :
  In (Service.ReqDELETE id)
     (Service.requests (App.server (App.run iv lc w evs))) ->
  In (Service.ReqDELETE id) (Service.requests (App.server w))
  \/ exists pre env post,
       evs = List.app pre ((env, confirmClick) :: post)
       /\ gateOpenFor id (App.list (App.run iv lc w pre)).
Proof.
  induction evs as [|[env ev] evs IH] using rev_ind; [now left|].
  rewrite run_snoc.
  destruct (step_requests iv lc (App.run iv lc w evs) env ev)
    as [new [-> Hnew]].
  intros Hin. apply in_app_or in Hin. destruct Hin as [Hold|Hin].
  - destruct (IH Hold) as [H|[pre [env' [post [-> Hgate]]]]]; [now left|].
    right. exists pre, env', (List.app post [(env, ev)]).
    split; [|exact Hgate]. now rewrite <- app_assoc.
  - right. destruct (Hnew _ Hin) as [-> Hgate].
    exists evs, env, []. split; [reflexivity|exact Hgate].
Qed.

Lemma dispatch_unconfirmed lc (products : list Product) st e :
  unconfirmed (App.ListEvent e) ->
  snd (InventoryList.dispatch lc products st e) = [].
Proof.
  destruct (dispatch_emits_shape lc products st e) as [H|[em H]];
    [intros _; exact H|].
  pose proof (dispatch_emits lc products st e em) as Hem.
  rewrite H in Hem. destruct (Hem (or_introl eq_refl)) as [_ Hprop].
  destruct e; simpl; try contradiction.
  - intros _. exfalso. clear Hem Hprop. revert H.
    unfold InventoryList.dispatch.
    destruct (_ =? 0); [discriminate|].
    destruct (nth_error _ _); [|discriminate].
    destruct (InventoryList.optEq _ _); discriminate.
  - intros Hc. exfalso. revert H. unfold InventoryList.dispatch.
    destruct (_ =? 0); [discriminate|].
    destruct (ConfirmModal.fire _ c) as [[|]|] eqn:F; try discriminate.
    apply fire_confirm in F. destruct F as [_ ->]. intros _. now apply Hc.
Qed.

Lemma step_unconfirmed iv lc (w : App.World) env ev :
  unconfirmed ev ->
  App.page (App.step iv lc w (env, ev)) = App.page w
  /\ App.server (App.step iv lc w (env, ev)) = App.server w.
Proof.
  intros Hu. unfold App.step.
  destruct (Page.loading (App.page w)); [split; reflexivity|].
  destruct ev as [e| | | | |]; simpl in Hu; try contradiction.
  pose proof (dispatch_unconfirmed lc (Page.products (App.page w))
                (App.list w) e Hu) as Hnil.
  destruct (InventoryList.dispatch lc (Page.products (App.page w))
              (App.list w) e) as [l' emits].
  simpl in Hnil. subst emits. simpl. split; reflexivity.
Qed.

Lemma run_unconfirmed iv lc evs (w : App.World) :
  (forall ee, In ee evs -> unconfirmed (snd ee)) ->
  App.page (App.run iv lc w evs) = App.page w
  /\ App.server (App.run iv lc w evs) = App.server w.
Proof.
  revert w. induction evs as [|[env ev] evs IH]; intros w Hall;
    [split; reflexivity|].
  change (App.run iv lc w ((env, ev) :: evs))
    with (App.run iv lc (App.step iv lc w (env, ev)) evs).
  destruct (IH (App.step iv lc w (env, ev))) as [Hp Hs].
  { intros ee Hee. apply Hall. now right. }
  destruct (step_unconfirmed iv lc w env ev) as [Hp' Hs'].
  { apply (Hall (env, ev)). now left. }
  rewrite Hp, Hs. split; assumption.
Qed.

Lemma step_confirm iv lc (w : App.World) env id :
  Page.loading (App.page w) = false ->
  Page.products (App.page w) <> [] ->
  gateOpenFor id (App.list w) ->
  let w' := App.step iv lc w (env, confirmClick) in
  let outcome := fst (Service.deleteProduct iv env id (App.server w)) in
  Service.requests (App.server w')
  = List.app (Service.requests (App.server w)) [Service.ReqDELETE id]
  /\ InventoryList.deleteConfirmModal (App.list w')
     = InventoryList.closedModal
  /\ (outcome = Returned tt ->
      Page.products (App.page w')
      = filter (fun product => negb (String.eqb (ProductModel.id product) id))
               (Page.products (App.page w))
      /\ Page.error (App.page w') = Page.error (App.page w))
  /\ (forall err,
      outcome = Threw err ->
      Page.products (App.page w') = Page.products (App.page w)
      /\ Page.error (App.page w')
         = Some (Page.messageOf err "Failed to delete product")).
Proof.
  intros Hload Hne [Hopen Hid] w' outcome. subst w' outcome.
  unfold App.step, confirmClick. rewrite Hload.
  unfold InventoryList.dispatch.
  destruct (Z.eqb_spec (Z.of_nat (List.length (Page.products (App.page w)))) 0)
    as [E|_].
  { destruct (Page.products (App.page w)); [congruence|simpl in E; lia]. }
  rewrite Hopen. simpl. rewrite Hid.
  pose proof (deleteProduct_requests iv env id (App.page w) (App.server w))
    as Hr.
  unfold Page.deleteProduct in *.
  destruct (Service.deleteProduct iv env id (App.server w)) as [[[]|err] s'];
    simpl in *.
  - split; [exact Hr|]. split; [reflexivity|].
    split; [intros _; split; reflexivity|intros err H; discriminate].
  - split; [exact Hr|]. split; [reflexivity|].
    split; [intros H; discriminate|].
    intros e H. inversion H; subst. split; reflexivity.
Qed.

(** C9: a DELETE request is issued only by the confirm button of the gate
    while the gate is open for that id; asking for a deletion and then
    cancelling, or never confirming, issues no request and leaves the
    page and the store as they were; a confirmed delete that succeeds
    removes from the collection exactly the entries with that id, keeping
    the others in order. *)
Theorem C9_delete_is_gated iv lc :
  (forall w evs id,
      In (Service.ReqDELETE id)
         (Service.requests (App.server (App.run iv lc w evs))) ->
      In (Service.ReqDELETE id) (Service.requests (App.server w))
      \/ exists pre env post,
           evs = List.app pre ((env, confirmClick) :: post)
           /\ gateOpenFor id (App.list (App.run iv lc w pre)))
  /\ (forall w evs,
      (forall ee, In ee evs -> unconfirmed (snd ee)) ->
      App.page (App.run iv lc w evs) = App.page w
      /\ App.server (App.run iv lc w evs) = App.server w)
  /\ (forall w env id,
      Page.loading (App.page w) = false ->
      Page.products (App.page w) <> [] ->
      gateOpenFor id (App.list w) ->
      fst (Service.deleteProduct iv env id (App.server w)) = Returned tt ->
      let w' := App.step iv lc w (env, confirmClick) in
      Service.requests (App.server w')
      = List.app (Service.requests (App.server w)) [Service.ReqDELETE id]
      /\ Page.products (App.page w')
         = filter (fun product =>
                     negb (String.eqb (ProductModel.id product) id))
                  (Page.products (App.page w))
      /\ forall product,
           In product (Page.products (App.page w'))
           <-> In product (Page.products (App.page w))
               /\ ProductModel.id product <> id).
Proof.
  split; [intros w evs id; apply run_delete_gated|].
  split; [intros w evs; apply run_unconfirmed|].
  intros w env id Hload Hne Hgate Hok w'.
  destruct (step_confirm iv lc w env id Hload Hne Hgate) as [Hr [_ [Hs _]]].
  destruct (Hs Hok) as [Hp _]. fold w' in Hr, Hp.
  split; [exact Hr|]. split; [exact Hp|].
  intros product. rewrite Hp, filter_In.
  destruct (String.eqb_spec (ProductModel.id product) id); simpl;
    intuition congruence.
Qed.

(** A delivered DELETE for a valid id that is stored succeeds and removes
    the first document with that id from the store. *)
Lemma deleteProduct_success iv env id srv (pre post : Api.Collection) d :
  transport env = None -> iv id = true -> dbUp env = true ->
  Service.collection srv = List.app pre (d :: post) ->
  (forall x, In x pre -> Api.hasId id x = false) -> _id d = Some id ->
  fst (Service.deleteProduct iv env id srv) = Returned tt
  /\ Service.collection (snd (Service.deleteProduct iv env id srv))
     = List.app pre post.
Proof.
  intros Ht Hv Hup Hdb Hpre Hid.
  unfold Service.deleteProduct, Api.DELETE. rewrite Ht. simpl.
  rewrite Hv, Hup, Hdb. simpl.
  assert (Hdel : Api.deleteOne id (List.app pre (d :: post))
                 = (1, List.app pre post)).
  { clear Hdb. induction pre as [|x pre IH]; simpl.
    - apply hasId_eq in Hid. now rewrite Hid.
    - rewrite (Hpre x (or_introl eq_refl)).
      rewrite IH; [reflexivity|]. intros y Hy. apply Hpre. now right. }
  rewrite Hdel. simpl. split; reflexivity.
Qed.

Lemma C9_delete_is_gated_witness :
  let askDelete := (online, App.ListEvent (InventoryList.ClickDelete 0)) in
  let cancel :=
    (online, App.ListEvent (InventoryList.Modal ConfirmModal.CancelButton)) in
  let confirm := (online, confirmClick) in
  let asked := App.run has24 anyOrder twoProducts [askDelete] in
  (In (Service.ReqDELETE (id (widget 10)))
      (Service.requests (App.server twoProducts))
   \/ exists pre env post,
        [askDelete; confirm] = List.app pre ((env, confirmClick) :: post)
        /\ gateOpenFor (id (widget 10))
             (App.list (App.run has24 anyOrder twoProducts pre)))
  /\ (App.page (App.run has24 anyOrder twoProducts [askDelete; cancel])
      = App.page twoProducts
      /\ App.server (App.run has24 anyOrder twoProducts [askDelete; cancel])
         = App.server twoProducts)
  /\ Page.products (App.page (App.step has24 anyOrder asked confirm))
     = [gadget].
Proof.
  intros askDelete cancel confirm asked.
  destruct (C9_delete_is_gated has24 anyOrder) as [Hgated [Hnever Hdone]].
  split; [|split].
  - apply Hgated. vm_compute. left. reflexivity.
  - apply Hnever. intros ee [<-|[<-|[]]]; simpl; [exact I|discriminate].
  - assert (H1 : Page.loading (App.page asked) = false) by reflexivity.
    assert (H2 : Page.products (App.page asked) <> []) by discriminate.
    assert (H3 : gateOpenFor (id (widget 10)) (App.list asked))
      by (split; reflexivity).
    assert (H4 : fst (Service.deleteProduct has24 online (id (widget 10))
                        (App.server asked)) = Returned tt) by reflexivity.
    destruct (Hdone asked online (id (widget 10)) H1 H2 H3 H4) as [_ [Hp _]].
    exact Hp.
Defined.

(** No sequence of user events makes the client ask the store for a count
    of 0 or below. *)
Lemma run_requests_positive iv lc evs (w : App.World) :
  (forall r c,
      In r (Service.requests (App.server w)) ->
      requestedCount r = Some c -> 0 < c) ->
  forall r c,
    In r (Service.requests (App.server (App.run iv lc w evs))) ->
    requestedCount r = Some c -> 0 < c.
Proof.
  intros Hw. induction evs as [|[env ev] evs IH] using rev_ind; [exact Hw|].
  rewrite run_snoc.
  destruct (step_requests iv lc (App.run iv lc w evs) env ev)
    as [new [-> Hnew]].
  intros r c Hin Hc. apply in_app_or in Hin. destruct Hin as [Hold|Hin].
  - exact (IH r c Hold Hc).
  - specialize (Hnew r Hin). destruct r as [body|i body|i]; simpl in Hc.
    + destruct Hnew as [c' [Hb Hpos]]. congruence.
    + inversion Hc; subst. exact Hnew.
    + discriminate.
Qed.

(* ===================================================================== *)
(** ** Sorting *)
(* ===================================================================== *)

Lemma insertSorted_perm {A : Type} (cmp : A -> A -> Z) (x : A) (l : list A) :
  Permutation (x :: l) (JS.insertSorted cmp x l).
Proof.
  induction l as [|y l IH]; simpl; [reflexivity|].
  destruct (cmp x y >? 0); [|reflexivity].
  rewrite perm_swap. now apply perm_skip.
Qed.

Lemma sort_perm {A : Type} (cmp : A -> A -> Z) (l : list A) :
  Permutation l (JS.sort cmp l).
Proof.
  induction l as [|x l IH]; simpl; [reflexivity|].
  rewrite <- insertSorted_perm. now apply perm_skip.
Qed.

Lemma insertSorted_hd {A : Type} (cmp : A -> A -> Z) (R : A -> A -> Prop)
  (x y : A) (l : list A) :
  R y x -> HdRel R y l -> HdRel R y (JS.insertSorted cmp x l).
Proof.
  intros Hyx Hhd. destruct l as [|z l]; simpl; [now constructor|].
  inversion Hhd; subst.
  destruct (cmp x z >? 0); now constructor.
Qed.

Lemma insertSorted_sorted {A : Type} (cmp : A -> A -> Z) (x : A) (l : list A) :
  (forall a b, cmp a b > 0 -> cmp b a <= 0) ->
  Sorted (fun a b => cmp a b <= 0) l ->
  Sorted (fun a b => cmp a b <= 0) (JS.insertSorted cmp x l).
Proof.
  intros Hanti Hs. induction l as [|y l IH]; simpl.
  - repeat constructor.
  - inversion Hs; subst.
    destruct (Z.gtb_spec (cmp x y) 0) as [Hgt|Hle].
    + constructor; [now apply IH|].
      apply insertSorted_hd; [apply Hanti; lia|assumption].
    + constructor; [assumption|]. constructor. lia.
Qed.

Lemma sort_sorted {A : Type} (cmp : A -> A -> Z) (l : list A) :
  (forall a b, cmp a b > 0 -> cmp b a <= 0) ->
  Sorted (fun a b => cmp a b <= 0) (JS.sort cmp l).
Proof.
  intros Hanti. induction l as [|x l IH]; simpl; [constructor|].
  now apply insertSorted_sorted.
Qed.

Lemma insertSorted_filter {A : Type} (cmp : A -> A -> Z) (P : A -> bool)
  (x : A) (l : list A) :
  (forall a b, P a = true -> P b = true -> cmp a b <= 0) ->
  filter P (JS.insertSorted cmp x l) = filter P (x :: l).
Proof.
  intros Hties. induction l as [|y l IH]; [reflexivity|].
  simpl JS.insertSorted.
  destruct (Z.gtb_spec (cmp x y) 0) as [Hgt|Hle]; [|reflexivity].
  simpl in *. rewrite IH.
  destruct (P x) eqn:Px; [|reflexivity].
  destruct (P y) eqn:Py; [|reflexivity].
  specialize (Hties x y Px Py). lia.
Qed.

Lemma sort_filter {A : Type} (cmp : A -> A -> Z) (P : A -> bool) (l : list A) :
  (forall a b, P a = true -> P b = true -> cmp a b <= 0) ->
  filter P (JS.sort cmp l) = filter P l.
Proof.
  intros Hties. induction l as [|x l IH]; [reflexivity|].
  change (JS.sort cmp (x :: l)) with (JS.insertSorted cmp x (JS.sort cmp l)).
  rewrite insertSorted_filter by assumption.
  simpl. now rewrite IH.
Qed.

Lemma sortedProducts_perm lc (products : list Product) st :
  Permutation products (InventoryList.sortedProducts lc products st).
Proof. apply sort_perm. Qed.

(** X1: sorting loses and duplicates nothing: whatever the column, the
    direction and the comparison of the locale, the sorted sequence is a
    rearrangement of the collection. *)
Theorem X1_sortedProducts_permutation lc (products : list Product) st :
  Permutation products (InventoryList.sortedProducts lc products st)
  /\ List.length (InventoryList.sortedProducts lc products st)
     = List.length products
  /\ forall product,
       In product (InventoryList.sortedProducts lc products st)
       <-> In product products.
Proof.
  pose proof (sortedProducts_perm lc products st) as Hp.
  split; [exact Hp|]. split; [symmetry; now apply Permutation_length|].
  intros product. split; apply Permutation_in;
    [symmetry; exact Hp|exact Hp].
Qed.

(** X2: sorted by "Stok", the counts never decrease along the rows when the
    direction is ascending and never increase when it is descending. *)
Theorem X2_sorted_by_count lc (products : list Product) st :
  InventoryList.sortField st = InventoryList.ByCount ->
  match InventoryList.sortDirection st with
  | InventoryList.Asc =>
      StronglySorted (fun a b => count a <= count b)
                     (InventoryList.sortedProducts lc products st)
  | InventoryList.Desc =>
      StronglySorted (fun a b => count b <= count a)
                     (InventoryList.sortedProducts lc products st)
  end.
Proof.
  intros Hf. unfold InventoryList.sortedProducts. rewrite Hf.
  destruct (InventoryList.sortDirection st).
  - apply Sorted_StronglySorted; [intros a b c; lia|].
    eapply Sorted_ind
      with (P := Sorted (fun a b : Product => count a <= count b));
      [constructor| |apply sort_sorted; simpl; intros; lia].
    intros a l _ IH Hhd. constructor; [exact IH|].
    destruct Hhd; constructor. simpl in *. lia.
  - apply Sorted_StronglySorted; [intros a b c; lia|].
    eapply Sorted_ind
      with (P := Sorted (fun a b : Product => count b <= count a));
      [constructor| |apply sort_sorted; simpl; intros; lia].
    intros a l _ IH Hhd. constructor; [exact IH|].
    destruct Hhd; constructor. simpl in *. lia.
Qed.

Lemma X2_sorted_by_count_witness :
  StronglySorted (fun a b => count a <= count b)
    (InventoryList.sortedProducts anyOrder [widget 7; widget 0; widget 3]
       (InventoryList.handleSort InventoryList.ByCount InventoryList.initial))
  /\ InventoryList.sortedProducts anyOrder [widget 7; widget 0; widget 3]
       (InventoryList.handleSort InventoryList.ByCount InventoryList.initial)
     = [widget 0; widget 3; widget 7].
Proof.
  split; [|reflexivity].
  exact (X2_sorted_by_count anyOrder [widget 7; widget 0; widget 3]
           (InventoryList.handleSort InventoryList.ByCount
              InventoryList.initial) eq_refl).
Defined.

(** X3: the sort is stable: products with the same key in the sorted column
    keep the order they have in the collection (for the text columns, as
    long as the locale compares a string with itself as not greater). *)
Theorem X3_sort_is_stable lc (products : list Product) st (q : Product) :
  (forall s, lc s s <= 0) ->
  filter (sameKey (InventoryList.sortField st) q)
         (InventoryList.sortedProducts lc products st)
  = filter (sameKey (InventoryList.sortField st) q) products.
Proof.
  intros Hrefl. unfold InventoryList.sortedProducts. apply sort_filter.
  intros a b Ha Hb. unfold sameKey in *.
  destruct (InventoryList.sortField st), (InventoryList.sortDirection st);
    simpl;
    try (apply String.eqb_eq in Ha; apply String.eqb_eq in Hb;
         rewrite <- Ha, <- Hb; apply Hrefl);
    apply Z.eqb_eq in Ha; apply Z.eqb_eq in Hb; lia.
Qed.

Lemma X3_sort_is_stable_witness :
  filter (sameKey InventoryList.ByCount gadget)
    (InventoryList.sortedProducts anyOrder [gadget; widget 2; widget 1]
       (InventoryList.handleSort InventoryList.ByCount InventoryList.initial))
  = [gadget; widget 2].
Proof.
  assert (Hrefl : forall s, anyOrder s s <= 0)
    by (intros s; unfold anyOrder; lia).
  exact (X3_sort_is_stable anyOrder [gadget; widget 2; widget 1]
           (InventoryList.handleSort InventoryList.ByCount
              InventoryList.initial) gadget Hrefl).
Defined.

(** X4: clicking the header of the sorted column flips the direction, so
    two clicks restore the state; clicking another column selects it in
    ascending direction; in both cases the page number and the page size
    stay as they are. *)
Theorem X4_handleSort_toggles (field : InventoryList.SortField) st :
  (InventoryList.sortField st = field ->
   InventoryList.sortField (InventoryList.handleSort field st) = field
   /\ InventoryList.sortDirection (InventoryList.handleSort field st)
      <> InventoryList.sortDirection st
   /\ InventoryList.handleSort field (InventoryList.handleSort field st) = st)
  /\ (InventoryList.sortField st <> field ->
      InventoryList.sortField (InventoryList.handleSort field st) = field
      /\ InventoryList.sortDirection (InventoryList.handleSort field st)
         = InventoryList.Asc)
  /\ InventoryList.currentPage (InventoryList.handleSort field st)
     = InventoryList.currentPage st
  /\ InventoryList.itemsPerPage (InventoryList.handleSort field st)
     = InventoryList.itemsPerPage st.
Proof.
  destruct st as [eid efd ecid tc modal sf sd cp ipp]; simpl.
  unfold InventoryList.handleSort; simpl.
  split; [|split; [|split]].
  - intros ->. destruct field, sd; simpl; repeat split; discriminate.
  - intros Hne. destruct sf, field; simpl; try contradiction;
      split; reflexivity.
  - destruct (InventoryList.sortField_eqb sf field); reflexivity.
  - destruct (InventoryList.sortField_eqb sf field); reflexivity.
Qed.

Lemma X4_handleSort_toggles_witness :
  InventoryList.sortDirection
    (InventoryList.handleSort InventoryList.ByName InventoryList.initial)
  <> InventoryList.Asc
  /\ InventoryList.sortDirection
       (InventoryList.handleSort InventoryList.ByCode
          (InventoryList.handleSort InventoryList.ByName
             InventoryList.initial))
     = InventoryList.Asc.
Proof.
  destruct (X4_handleSort_toggles InventoryList.ByName InventoryList.initial)
    as [Hsame _].
  destruct (X4_handleSort_toggles InventoryList.ByCode
              (InventoryList.handleSort InventoryList.ByName
                 InventoryList.initial)) as [_ [Hother _]].
  split.
  - exact (proj1 (proj2 (Hsame eq_refl))).
  - apply Hother. discriminate.
Defined.

(* ===================================================================== *)
(** ** More on pagination *)
(* ===================================================================== *)

Lemma in_firstn {A : Type} (n : nat) (l : list A) (x : A) :
  In x (firstn n l) -> In x l.
Proof.
  intros H. rewrite <- (firstn_skipn n l). apply in_or_app. now left.
Qed.

Lemma in_skipn {A : Type} (n : nat) (l : list A) (x : A) :
  In x (skipn n l) -> In x l.
Proof.
  intros H. rewrite <- (firstn_skipn n l). apply in_or_app. now right.
Qed.

Lemma slice_incl {A : Type} (l : list A) (start finish : Z) (x : A) :
  In x (JS.slice l start finish) -> In x l.
Proof.
  unfold JS.slice. intros H.
  apply in_firstn in H. now apply in_skipn in H.
Qed.

Lemma slice_length {A : Type} (l : list A) (start k : Z) :
  0 <= k ->
  Z.of_nat (List.length (JS.slice l start (start + k))) <= k.
Proof.
  intros Hk. unfold JS.slice. cbv zeta. rewrite length_firstn, length_skipn.
  destruct (Z.ltb_spec start 0); destruct (Z.ltb_spec (start + k) 0); lia.
Qed.

(** X5: whatever the page number, a page shows only products of the
    collection, and with a page size that is not negative it never shows
    more rows than [itemsPerPage]. *)
Theorem X5_page_rows_bounded lc (products : list Product) st :
  (forall product,
      In product (InventoryList.paginatedProducts lc products st) ->
      In product products)
  /\ List.length (InventoryList.rows lc products st)
     = List.length (InventoryList.paginatedProducts lc products st)
  /\ (0 <= InventoryList.itemsPerPage st ->
      Z.of_nat (List.length (InventoryList.paginatedProducts lc products st))
      <= InventoryList.itemsPerPage st).
Proof.
  split; [|split].
  - intros product Hin. apply slice_incl in Hin.
    eapply Permutation_in; [|exact Hin].
    symmetry. apply sortedProducts_perm.
  - unfold InventoryList.rows. apply length_map.
  - intros HK.
    unfold InventoryList.paginatedProducts, InventoryList.endIndex.
    now apply slice_length.
Qed.

Lemma X5_page_rows_bounded_witness :
  Z.of_nat
    (List.length
       (InventoryList.paginatedProducts anyOrder
          [widget 1; widget 2; widget 3]
          (InventoryList.handlePageChange (-1)
             (InventoryList.handleItemsPerPageChange 2
                InventoryList.initial)))) <= 2
  /\ InventoryList.paginatedProducts anyOrder [widget 1; widget 2; widget 3]
       (InventoryList.handlePageChange (-1)
          (InventoryList.handleItemsPerPageChange 2 InventoryList.initial))
     = [widget 1].
Proof.
  split; [|reflexivity].
  destruct (X5_page_rows_bounded anyOrder [widget 1; widget 2; widget 3]
              (InventoryList.handlePageChange (-1)
                 (InventoryList.handleItemsPerPageChange 2
                    InventoryList.initial))) as [_ [_ H]].
  apply H. simpl. lia.
Defined.

Lemma slice_length_eq {A : Type} (l : list A) (start k : Z) :
  0 <= start -> 0 <= k ->
  Z.of_nat (List.length (JS.slice l start (start + k)))
  = Z.max (Z.min (start + k) (Z.of_nat (List.length l)) - start) 0.
Proof.
  intros Hs Hk. unfold JS.slice. cbv zeta.
  rewrite length_firstn, length_skipn.
  destruct (Z.ltb_spec start 0); destruct (Z.ltb_spec (start + k) 0); lia.
Qed.

Lemma pages_outside_empty lc (products : list Product) st :
  1 <= InventoryList.itemsPerPage st ->
  InventoryList.currentPage st = 0
  \/ InventoryList.totalPages lc products st < InventoryList.currentPage st ->
  InventoryList.paginatedProducts lc products st = [].
Proof.
  intros HK Hout. apply length_zero_iff_nil. apply Nat2Z.inj.
  unfold InventoryList.paginatedProducts, InventoryList.endIndex.
  destruct Hout as [H0|Hbig].
  - unfold JS.slice, InventoryList.startIndex. cbv zeta. rewrite H0.
    rewrite length_firstn, length_skipn.
    destruct (Z.ltb_spec ((0 - 1) * InventoryList.itemsPerPage st) 0);
      destruct (Z.ltb_spec ((0 - 1) * InventoryList.itemsPerPage st
                            + InventoryList.itemsPerPage st) 0); lia.
  - rewrite totalPages_eq in Hbig.
    pose proof (ceilDiv_isCeiling (Z.of_nat (List.length products))
                  (InventoryList.itemsPerPage st) HK) as [_ Hceil].
    assert (Hstart : Z.of_nat (List.length products)
                     <= InventoryList.startIndex st)
      by (unfold InventoryList.startIndex; nia).
    rewrite slice_length_eq by lia.
    rewrite sortedProducts_length. lia.
Qed.


(** X6: with a page size of at least 1, page 0 and every page after the
    last one are empty. *)
Theorem X6_pages_outside_are_empty lc (products : list Product) st :
  1 <= InventoryList.itemsPerPage st ->
  InventoryList.currentPage st = 0
  \/ InventoryList.totalPages lc products st < InventoryList.currentPage st ->
  InventoryList.paginatedProducts lc products st = [].
Proof. apply pages_outside_empty. Qed.

Lemma X6_pages_outside_are_empty_witness :
  InventoryList.paginatedProducts anyOrder [widget 1; widget 2; widget 3]
    (InventoryList.handlePageChange 3
       (InventoryList.handleItemsPerPageChange 2 InventoryList.initial)) = [].
Proof.
  apply X6_pages_outside_are_empty; [simpl; lia|].
  right. vm_compute. reflexivity.
Defined.

Lemma pages_concat {A : Type} (k : nat) (n : nat) (l : list A) :
  (0 < k)%nat -> (List.length l <= n * k)%nat ->
  List.concat (map (fun i => firstn k (skipn (i * k) l)) (seq 0 n)) = l.
Proof.
  intros Hk. revert l. induction n as [|n IH]; intros l Hlen.
  - destruct l; [reflexivity|simpl in Hlen; lia].
  - change (seq 0 (S n)) with (0%nat :: seq 1 n).
    rewrite <- seq_shift, map_cons, map_map, concat_cons.
    change (skipn (0 * k) l) with l.
    transitivity (List.app (firstn k l) (skipn k l));
      [|apply firstn_skipn].
    f_equal.
    rewrite <- (IH (skipn k l)) at 1.
    + f_equal. apply map_ext. intros i. f_equal.
      rewrite skipn_skipn. f_equal. lia.
    + rewrite length_skipn. lia.
Qed.

(** X7: with a page size of at least 1, the pages 1, 2, ..., [totalPages]
    put one after the other are the sorted sequence: every product is on
    exactly one page, in sorted order. *)
Theorem X7_pages_partition lc (products : list Product) st :
  1 <= InventoryList.itemsPerPage st ->
  List.concat
    (map (fun i =>
            InventoryList.paginatedProducts lc products
              (InventoryList.handlePageChange (Z.of_nat i + 1) st))
         (seq 0 (Z.to_nat (InventoryList.totalPages lc products st))))
  = InventoryList.sortedProducts lc products st.
Proof.
  intros HK.
  set (K := InventoryList.itemsPerPage st) in *.
  set (sorted := InventoryList.sortedProducts lc products st).
  pose proof (ceilDiv_isCeiling (Z.of_nat (List.length products)) K HK)
    as [_ Hceil].
  rewrite totalPages_eq. fold K.
  etransitivity;
    [|apply (pages_concat (Z.to_nat K)
               (Z.to_nat (JS.ceilDiv (Z.of_nat (List.length products)) K))
               sorted)].
  - f_equal. apply map_ext. intros i.
    unfold InventoryList.paginatedProducts, InventoryList.endIndex,
      InventoryList.startIndex. simpl. fold K. fold sorted.
    replace (Z.of_nat i + 1 - 1) with (Z.of_nat i) by lia.
    rewrite slice_window by nia. unfold window. f_equal; [|f_equal]; nia.
  - lia.
  - unfold sorted. rewrite sortedProducts_length. nia.
Qed.

Lemma X7_pages_partition_witness :
  let st := InventoryList.handleItemsPerPageChange 2 InventoryList.initial in
  List.concat
    (map (fun i =>
            InventoryList.paginatedProducts anyOrder
              [widget 1; widget 2; widget 3]
              (InventoryList.handlePageChange (Z.of_nat i + 1) st))
         (seq 0 2))
  = [widget 1; widget 2; widget 3].
Proof.
  exact (X7_pages_partition anyOrder [widget 1; widget 2; widget 3]
           (InventoryList.handleItemsPerPageChange 2 InventoryList.initial)
           ltac:(simpl; lia)).
Defined.

Lemma pageNumber_linear lc (products : list Product) st (i : Z) :
  InventoryList.pageNumber lc products st i
  = InventoryList.pageNumber lc products st 0 + i.
Proof.
  unfold InventoryList.pageNumber.
  destruct (_ <=? 7); [lia|].
  destruct (_ <=? 4); [lia|].
  destruct (_ >=? _); lia.
Qed.

(** X8: while the current page is within [[1, totalPages]], the numbered
    buttons are [min(totalPages, 7)] consecutive page numbers, all within
    [[1, totalPages]], and the current page is one of them. *)
Theorem X8_page_buttons lc (products : list Product) st :
  pageInRange lc products st ->
  let T := InventoryList.totalPages lc products st in
  let first := InventoryList.pageNumber lc products st 0 in
  InventoryList.pageButtons lc products st
  = map (fun i => first + Z.of_nat i) (seq 0 (Z.to_nat (Z.min T 7)))
  /\ 1 <= first /\ first + Z.min T 7 - 1 <= T
  /\ In (InventoryList.currentPage st)
        (InventoryList.pageButtons lc products st).
Proof.
  intros Hr T first.
  assert (Hbtn : InventoryList.pageButtons lc products st
                 = map (fun i => first + Z.of_nat i)
                       (seq 0 (Z.to_nat (Z.min T 7)))).
  { unfold InventoryList.pageButtons. fold T. apply map_ext.
    intros i. apply pageNumber_linear. }
  unfold pageInRange in Hr. fold T in Hr.
  assert (Hfirst : 1 <= first /\ first + Z.min T 7 - 1 <= T
                   /\ first <= InventoryList.currentPage st
                      < first + Z.min T 7).
  { unfold first, InventoryList.pageNumber. fold T.
    destruct (Z.leb_spec T 7); [lia|].
    destruct (Z.leb_spec (InventoryList.currentPage st) 4); [lia|].
    destruct (Z.geb_spec (InventoryList.currentPage st) (T - 3)); lia. }
  destruct Hfirst as [H1 [H2 H3]].
  split; [exact Hbtn|]. split; [exact H1|]. split; [exact H2|].
  rewrite Hbtn. apply in_map_iff.
  exists (Z.to_nat (InventoryList.currentPage st - first)).
  split; [lia|]. apply in_seq. lia.
Qed.

Lemma X8_page_buttons_witness :
  let products := map widget [1; 2; 3; 4; 5; 6; 7; 8; 9; 10] in
  let st :=
    InventoryList.handlePageChange 6
      (InventoryList.handleItemsPerPageChange 1 InventoryList.initial) in
  InventoryList.pageButtons anyOrder products st = [3; 4; 5; 6; 7; 8; 9]
  /\ In 6 (InventoryList.pageButtons anyOrder products st).
Proof.
  intros products st.
  assert (Hr : pageInRange anyOrder products st)
    by (unfold pageInRange; vm_compute; split; discriminate).
  destruct (X8_page_buttons anyOrder products st Hr) as [Hb [_ [_ Hin]]].
  split; [rewrite Hb; reflexivity|exact Hin].
Defined.

(** X9: on a page within [[1, totalPages]], with a page size of at least
    1, the range shown next to the title is the range of the rows shown:
    it starts at 1 or above, ends at the number of products or below, and
    spans as many positions as the table has rows. *)
Theorem X9_shown_range lc (products : list Product) st :
  1 <= InventoryList.itemsPerPage st ->
  pageInRange lc products st ->
  1 <= InventoryList.shownFrom st
  /\ InventoryList.shownFrom st <= InventoryList.shownTo products st
  /\ InventoryList.shownTo products st <= Z.of_nat (List.length products)
  /\ Z.of_nat (List.length (InventoryList.rows lc products st))
     = InventoryList.shownTo products st - InventoryList.shownFrom st + 1.
Proof.
  intros HK Hr0.
  pose proof (proj1 (pageInRange_iff lc products st) Hr0) as Hr.
  pose proof (ceilDiv_isCeiling (Z.of_nat (List.length products))
                (InventoryList.itemsPerPage st) HK) as [Hlow Hup].
  assert (Hstart : 0 <= InventoryList.startIndex st
                   < Z.of_nat (List.length products)).
  { unfold InventoryList.startIndex. split.
    - apply Z.mul_nonneg_nonneg; lia.
    - eapply Z.le_lt_trans; [|exact Hlow].
      apply Z.mul_le_mono_nonneg_r; lia. }
  unfold InventoryList.rows. rewrite length_map.
  unfold InventoryList.paginatedProducts.
  unfold InventoryList.shownFrom, InventoryList.shownTo,
    InventoryList.endIndex.
  rewrite slice_length_eq by lia. rewrite sortedProducts_length. lia.
Qed.

Lemma X9_shown_range_witness :
  let st :=
    InventoryList.handlePageChange 2
      (InventoryList.handleItemsPerPageChange 2 InventoryList.initial) in
  InventoryList.shownFrom st = 3
  /\ InventoryList.shownTo [widget 1; widget 2; widget 3] st = 3
  /\ Z.of_nat (List.length
                 (InventoryList.rows anyOrder [widget 1; widget 2; widget 3]
                    st))
     = InventoryList.shownTo [widget 1; widget 2; widget 3] st
       - InventoryList.shownFrom st + 1.
Proof.
  intros st.
  assert (Hr : pageInRange anyOrder [widget 1; widget 2; widget 3] st)
    by (unfold pageInRange; vm_compute; split; discriminate).
  destruct (X9_shown_range anyOrder [widget 1; widget 2; widget 3] st
              ltac:(simpl; lia) Hr) as [_ [_ [_ H]]].
  split; [reflexivity|]. split; [reflexivity|exact H].
Defined.

(* ===================================================================== *)
(** ** The figures next to the title *)
(* ===================================================================== *)

Lemma flagged_iff_low (p : Product) : (count p <=? 5) = flagged p.
Proof.
  unfold flagged, InventoryList.badge.
  destruct (Z.eqb_spec (count p) 0) as [E|E].
  - rewrite E. reflexivity.
  - destruct (count p <=? 5); reflexivity.
Qed.

(** X10: the low-stock figure counts exactly the products whose row does
    not carry the "Stokta" badge, products with a count of 0 or below
    included; so the yellow label appears exactly when some product is
    flagged in its row. *)
Theorem X10_low_stock_counts_flagged_rows (products : list Product) :
  InventoryList.getLowStockItems products
  = Z.of_nat (List.length (filter flagged products))
  /\ 0 <= InventoryList.getLowStockItems products
       <= Z.of_nat (List.length products)
  /\ (InventoryList.getLowStockItems products > 0
      <-> exists p, In p products
                    /\ InventoryList.badge p <> InventoryList.Stokta).
Proof.
  assert (Heq : InventoryList.getLowStockItems products
                = Z.of_nat (List.length (filter flagged products))).
  { unfold InventoryList.getLowStockItems. do 2 f_equal.
    apply filter_ext. intros p. apply flagged_iff_low. }
  split; [exact Heq|]. split.
  - rewrite Heq. pose proof (filter_length_le flagged products). lia.
  - rewrite Heq. split.
    + intros Hpos. destruct (filter flagged products) as [|p l] eqn:E;
        [simpl in Hpos; lia|].
      assert (Hin : In p (filter flagged products))
        by (rewrite E; now left).
      apply filter_In in Hin. destruct Hin as [Hin Hf].
      exists p. split; [exact Hin|]. unfold flagged in Hf.
      intros Hb. rewrite Hb in Hf. discriminate.
    + intros [p [Hin Hb]].
      assert (Hf : In p (filter flagged products)).
      { apply filter_In. split; [exact Hin|]. unfold flagged.
        destruct (InventoryList.badge p); try reflexivity.
        now contradiction Hb. }
      destruct (filter flagged products); [destruct Hf|simpl; lia].
Qed.

Lemma fold_left_counts (products : list Product) (a : Z) :
  fold_left (fun total product => total + count product) products a
  = a + sumCounts products.
Proof.
  revert a. induction products as [|p l IH]; intros a; simpl; [lia|].
  rewrite IH. lia.
Qed.

Lemma sumCounts_perm (l l' : list Product) :
  Permutation l l' -> sumCounts l = sumCounts l'.
Proof.
  induction 1; simpl; lia.
Qed.

Lemma sumCounts_abs (products : list Product) :
  Z.abs (sumCounts products) <= sumAbs products.
Proof.
  induction products as [|p l IH]; simpl; lia.
Qed.

(** X11: for counts that are integers whose absolute values add up to 2^53
    at most, so that every addition of the source is exact, the total shown
    next to the title is the sum of the counts of the whole collection, it
    is itself at most 2^53 in absolute value, it does not depend on the sort
    order, and putting a product in front of the collection adds its
    count. *)
Theorem X11_total_is_sum_of_counts lc (products : list Product) st :
  safeIntegers products ->
  InventoryList.getTotalValue products = sumCounts products
  /\ Z.abs (InventoryList.getTotalValue products) <= 2 ^ 53
  /\ InventoryList.getTotalValue (InventoryList.sortedProducts lc products st)
     = InventoryList.getTotalValue products
  /\ forall p,
       safeIntegers (p :: products) ->
       InventoryList.getTotalValue (p :: products)
       = count p + InventoryList.getTotalValue products.
Proof.
  unfold safeIntegers. intros Hsafe.
  pose proof (sumCounts_abs products) as Habs.
  unfold InventoryList.getTotalValue. rewrite !fold_left_counts.
  split; [lia|]. split; [lia|]. split.
  - f_equal. symmetry. apply sumCounts_perm, sortedProducts_perm.
  - intros p _. rewrite fold_left_counts. simpl. lia.
Qed.

Lemma X11_total_is_sum_of_counts_witness :
  InventoryList.getTotalValue [widget 10; gadget] = 12
  /\ InventoryList.getTotalValue
       (InventoryList.sortedProducts anyOrder [widget 10; gadget]
          (InventoryList.handleSort InventoryList.ByCount
             InventoryList.initial))
     = InventoryList.getTotalValue [widget 10; gadget].
Proof.
  assert (Hsafe : safeIntegers [widget 10; gadget])
    by (unfold safeIntegers; vm_compute; discriminate).
  destruct (X11_total_is_sum_of_counts anyOrder [widget 10; gadget]
              (InventoryList.handleSort InventoryList.ByCount
                 InventoryList.initial) Hsafe) as [Hsum [_ [Hsort _]]].
  split; [rewrite Hsum; reflexivity|exact Hsort].
Defined.

(* ===================================================================== *)
(** ** The gate of the list *)
(* ===================================================================== *)

Lemma dispatch_clickDelete lc (products : list Product) st row :
  InventoryList.dispatch lc products st (InventoryList.ClickDelete row)
  = (st, [])
  \/ exists product,
       (Z.of_nat (List.length products) =? 0) = false
       /\ InventoryList.dispatch lc products st
            (InventoryList.ClickDelete row)
          = (InventoryList.handleDeleteClick product st, []).
Proof.
  unfold InventoryList.dispatch.
  destruct (Z.of_nat (List.length products) =? 0) eqn:E; [now left|].
  destruct (nth_error _ row) as [product|]; [|now left].
  destruct (InventoryList.optEq _ _); [now left|].
  right. now exists product.
Qed.

(** X12: a closed gate reacts to nothing; an open gate is closed by every
    control it reacts to; and asking for a deletion and then cancelling
    leaves the list exactly as it was before, when the gate was closed. *)
Theorem X12_gate_round_trip lc (products : list Product) st :
  (forall c,
      InventoryList.isOpen (InventoryList.deleteConfirmModal st) = false ->
      InventoryList.dispatch lc products st (InventoryList.Modal c) = (st, []))
  /\ (forall c,
      products <> [] ->
      ConfirmModal.fire
        (InventoryList.isOpen (InventoryList.deleteConfirmModal st)) c
      <> None ->
      InventoryList.deleteConfirmModal
        (fst (InventoryList.dispatch lc products st (InventoryList.Modal c)))
      = InventoryList.closedModal)
  /\ (forall row c,
      InventoryList.deleteConfirmModal st = InventoryList.closedModal ->
      c <> ConfirmModal.ConfirmButton ->
      let asked :=
        fst (InventoryList.dispatch lc products st
               (InventoryList.ClickDelete row)) in
      asked = st
      \/ (ConfirmModal.fire true c <> None ->
          InventoryList.dispatch lc products asked (InventoryList.Modal c)
          = (st, []))).
Proof.
  split; [|split].
  - intros c Hclosed. unfold InventoryList.dispatch.
    destruct (_ =? 0); [reflexivity|].
    rewrite Hclosed. reflexivity.
  - intros c Hne Hfire. unfold InventoryList.dispatch.
    destruct (Z.eqb_spec (Z.of_nat (List.length products)) 0) as [E|_].
    { destruct products; [congruence|simpl in E; lia]. }
    destruct (ConfirmModal.fire _ c) as [[|]|]; [| |congruence];
      reflexivity.
  - intros row c Hclosed Hc asked. subst asked.
    destruct (dispatch_clickDelete lc products st row)
      as [->|[product [E ->]]]; [now left|].
    right. intros Hfire. simpl fst.
    unfold InventoryList.dispatch. rewrite E.
    destruct st as [eid efd ecid tc modal sf sd cp ipp]. simpl in *.
    subst modal.
    destruct c as [| | |key]; try reflexivity; [congruence|].
    unfold ConfirmModal.fire in *. simpl in *.
    destruct (String.eqb key "Escape"); [reflexivity|congruence].
Qed.

Lemma X12_gate_round_trip_witness :
  InventoryList.dispatch anyOrder [widget 1]
    (fst (InventoryList.dispatch anyOrder [widget 1] InventoryList.initial
            (InventoryList.ClickDelete 0)))
    (InventoryList.Modal (ConfirmModal.KeyDown "Escape"))
  = (InventoryList.initial, []).
Proof.
  destruct (X12_gate_round_trip anyOrder [widget 1] InventoryList.initial)
    as [_ [_ H]].
  destruct (H 0%nat (ConfirmModal.KeyDown "Escape") eq_refl
              ltac:(discriminate)) as [Hsame|Hback].
  - discriminate Hsame.
  - apply Hback. discriminate.
Defined.

(* ===================================================================== *)
(** ** What the handlers do to the store *)
(* ===================================================================== *)

Lemma findOneById_none oid (db : Api.Collection) :
  Api.findOneById oid db = None <-> ~ In (Some oid) (map _id db).
Proof.
  unfold Api.findOneById. induction db as [|d db IH]; simpl.
  - split; [intros _ []|reflexivity].
  - destruct (Api.hasId oid d) eqn:E.
    + apply hasId_eq in E. split; [discriminate|]. intros H. exfalso.
      apply H. now left.
    + rewrite IH. split.
      * intros H [Hd|Hin]; [|now apply H].
        apply hasId_eq in Hd. congruence.
      * intros H Hin. apply H. now right.
Qed.

Lemma findOneByCode_none c (db : Api.Collection) :
  Api.findOneByCode c db = None <-> ~ In c (map doc_code db).
Proof.
  unfold Api.findOneByCode. induction db as [|d db IH]; simpl.
  - split; [intros _ []|reflexivity].
  - destruct (String.eqb_spec (doc_code d) c) as [E|E].
    + split; [discriminate|]. intros H. exfalso. apply H. now left.
    + rewrite IH. split.
      * intros H [Hd|Hin]; [contradiction|now apply H].
      * intros H Hin. apply H. now right.
Qed.

(** What a POST leaves in the store: nothing new unless it answers with
    the created product, and then one document more, at the end, with the
    generated [_id] and a code that was not stored. *)
Lemma POST_store env body (db : Api.Collection) :
  (snd (Api.POST env body db) = db
   /\ exists error,
        Api.envelope (fst (Api.POST env body db)) = Api.Failure error)
  \/ exists doc p,
       Api.POST env body db = (Api.json (Api.Success p), List.app db [doc])
       /\ documentToProduct doc = Some p
       /\ _id doc = Some (freshId env)
       /\ Api.b_name body = Some (doc_name doc)
       /\ Api.b_code body = Some (doc_code doc)
       /\ Api.b_count body = Some (doc_count doc)
       /\ ~ In (Some (freshId env)) (map _id db)
       /\ ~ In (doc_code doc) (map doc_code db).
Proof.
  unfold Api.POST.
  destruct (Api.b_name body) as [name|]; [|left; simpl; eauto].
  destruct (Api.b_code body) as [code|]; [|left; simpl; eauto].
  destruct (Api.b_count body) as [count|]; [|left; simpl; eauto].
  destruct (_ || _); [left; simpl; eauto|].
  destruct (negb (dbUp env)); [left; simpl; eauto|].
  destruct (Api.findOneByCode code db) eqn:Hcode; [left; simpl; eauto|].
  unfold Api.insertOne.
  destruct (Api.findOneById (freshId env) db) eqn:Hid;
    [left; simpl; eauto|].
  match goal with
  | |- context [Api.findOneById _ (List.app db [?d])] =>
      rewrite (findOneById_app_new _ _ d Hid eq_refl); set (doc := d)
  end.
  right. simpl. eexists doc, _. split; [reflexivity|].
  apply findOneById_none in Hid. apply findOneByCode_none in Hcode.
  repeat split; assumption.
Qed.

Lemma PUT_store iv env id body (db : Api.Collection) :
  (snd (Api.PUT iv env id body db) = db
   /\ Api.status (fst (Api.PUT iv env id body db)) <> 200
   /\ exists error,
        Api.envelope (fst (Api.PUT iv env id body db)) = Api.Failure error)
  \/ exists pre d post p,
       db = List.app pre (d :: post)
       /\ (forall x, In x pre -> Api.hasId id x = false)
       /\ _id d = Some id
       /\ ProductModel.id p = id
       /\ Api.PUT iv env id body db
          = (Api.json (Api.Success p),
             List.app pre
               (mkDocument (_id d) (Api.u_name body) (Api.u_code body)
                  (Api.u_count body) (Api.u_description body)
                  (now1 env) (now3 env) :: post)).
Proof.
  destruct (iv id) eqn:Hv;
    [|left; unfold Api.PUT; rewrite Hv; simpl;
      repeat split; [discriminate|eauto]].
  destruct (dbUp env) eqn:Hup;
    [|left; unfold Api.PUT; rewrite Hv, Hup; simpl;
      repeat split; [discriminate|eauto]].
  destruct (Api.findOneById id db) as [d0|] eqn:Hfind.
  - right.
    assert (Hex : exists pre d post,
               db = List.app pre (d :: post)
               /\ (forall x, In x pre -> Api.hasId id x = false)
               /\ _id d = Some id).
    { clear -Hfind. unfold Api.findOneById in Hfind.
      induction db as [|x db IH]; simpl in Hfind; [discriminate|].
      destruct (Api.hasId id x) eqn:E.
      - exists [], x, db. simpl. repeat split; [intros y []|].
        now apply hasId_eq.
      - destruct (IH Hfind) as [pre [d [post [-> [Hpre Hid]]]]].
        exists (x :: pre), d, post. simpl. repeat split; [|exact Hid].
        intros y [<-|Hy]; [exact E|now apply Hpre]. }
    destruct Hex as [pre [d [post [-> [Hpre Hid]]]]].
    eexists pre, d, post, _. split; [reflexivity|]. split; [exact Hpre|].
    split; [exact Hid|]. split; [|now apply PUT_at]. reflexivity.
  - left. unfold Api.PUT. rewrite Hv, Hup. simpl.
    match goal with
    | |- context [Api.findOneAndUpdate id ?f db] =>
        pose proof (findOneAndUpdate_spec id f db) as Hspec;
        destruct (Api.findOneAndUpdate id f db) as [[r|] db']
    end.
    + exfalso. destruct Hspec as [pre [d [post [-> [_ [Hid _]]]]]].
      apply findOneById_none in Hfind. apply Hfind.
      rewrite map_app. apply in_or_app. right. simpl. now left.
    + destruct Hspec as [-> _]. simpl. repeat split; [discriminate|eauto].
Qed.

Lemma deleteOne_at oid (pre post : Api.Collection) d :
  (forall x, In x pre -> Api.hasId oid x = false) -> _id d = Some oid ->
  Api.deleteOne oid (List.app pre (d :: post)) = (1, List.app pre post).
Proof.
  intros Hpre Hid. induction pre as [|x pre IH]; simpl.
  - apply hasId_eq in Hid. now rewrite Hid.
  - rewrite (Hpre x (or_introl eq_refl)).
    rewrite IH; [reflexivity|]. intros y Hy. apply Hpre. now right.
Qed.

Lemma DELETE_store iv env id (db : Api.Collection) :
  (snd (Api.DELETE iv env id db) = db
   /\ Api.status (fst (Api.DELETE iv env id db)) <> 200
   /\ exists error,
        Api.envelope (fst (Api.DELETE iv env id db)) = Api.Failure error)
  \/ exists pre d post,
       db = List.app pre (d :: post)
       /\ (forall x, In x pre -> Api.hasId id x = false)
       /\ _id d = Some id
       /\ Api.DELETE iv env id db
          = (Api.json (Api.Success "Product deleted successfully"),
             List.app pre post).
Proof.
  unfold Api.DELETE.
  destruct (iv id); simpl;
    [|left; repeat split; [discriminate|eauto]].
  destruct (dbUp env); simpl;
    [|left; repeat split; [discriminate|eauto]].
  pose proof (deleteOne_spec id db) as Hspec.
  destruct (Api.deleteOne id db) as [n db'].
  destruct Hspec as [[-> [-> _]]|[-> [pre [d [post [-> [Hpre [Hid ->]]]]]]]].
  - left. simpl. repeat split; [discriminate|eauto].
  - right. exists pre, d, post. repeat split; assumption.
Qed.

Lemma NoDup_snoc {A : Type} (l : list A) (a : A) :
  NoDup l -> ~ In a l -> NoDup (List.app l [a]).
Proof.
  intros Hl Ha. eapply Permutation_NoDup; [apply Permutation_cons_append|].
  now constructor.
Qed.

Lemma wellKeyed_POST env body (db : Api.Collection) :
  wellKeyed db -> wellKeyed (snd (Api.POST env body db)).
Proof.
  intros [Hnone Hnd].
  destruct (POST_store env body db)
    as [[-> _]|[doc [p [-> [_ [Hid [_ [_ [_ [Hfresh _]]]]]]]]]];
    [now split|].
  simpl. unfold wellKeyed. rewrite map_app. simpl. rewrite Hid. split.
  - intros Hin. apply in_app_or in Hin. destruct Hin as [Hin|[Hin|[]]];
      [now apply Hnone|discriminate].
  - now apply NoDup_snoc.
Qed.

Lemma PUT_keeps_ids iv env id body (db : Api.Collection) :
  map _id (snd (Api.PUT iv env id body db)) = map _id db.
Proof.
  destruct (PUT_store iv env id body db)
    as [[-> _]|[pre [d [post [p [-> [_ [_ [_ ->]]]]]]]]]; [reflexivity|].
  simpl. rewrite !map_app. reflexivity.
Qed.

Lemma wellKeyed_PUT iv env id body (db : Api.Collection) :
  wellKeyed db -> wellKeyed (snd (Api.PUT iv env id body db)).
Proof.
  unfold wellKeyed. now rewrite PUT_keeps_ids.
Qed.

Lemma wellKeyed_DELETE iv env id (db : Api.Collection) :
  wellKeyed db -> wellKeyed (snd (Api.DELETE iv env id db)).
Proof.
  intros [Hnone Hnd].
  destruct (DELETE_store iv env id db)
    as [[-> _]|[pre [d [post [-> [_ [_ ->]]]]]]]; [now split|].
  simpl. unfold wellKeyed in *. rewrite map_app in *. simpl in *. split.
  - intros Hin. apply Hnone. apply in_app_or in Hin. apply in_or_app.
    destruct Hin; [now left|right; now right].
  - now apply NoDup_remove_1 in Hnd.
Qed.

(** X13: the three writing handlers keep the store well keyed: if every
    stored document has an [_id] and no two have the same, this still holds
    after a POST, a PUT and a DELETE, whatever they are sent and whatever
    they answer. *)
Theorem X13_handlers_keep_ids_unique iv env id post put (db : Api.Collection) :
  wellKeyed db ->
  wellKeyed (snd (Api.POST env post db))
  /\ wellKeyed (snd (Api.PUT iv env id put db))
  /\ wellKeyed (snd (Api.DELETE iv env id db)).
Proof.
  intros H. split; [now apply wellKeyed_POST|].
  split; [now apply wellKeyed_PUT|now apply wellKeyed_DELETE].
Qed.

Lemma X13_handlers_keep_ids_unique_witness :
  wellKeyed
    (snd (Api.POST online
            (Api.mkPostBody (Some "Bolt") (Some "B-1") (Some 4) None)
            (Service.collection (App.server twoProducts)))).
Proof.
  assert (H : wellKeyed (Service.collection (App.server twoProducts))).
  { split.
    - simpl. intros [H|[H|[]]]; discriminate.
    - simpl. repeat constructor; simpl; intuition discriminate. }
  exact (proj1 (X13_handlers_keep_ids_unique has24 online "" _
                  (Api.mkPutBody "" "" 0 None) _ H)).
Defined.

Lemma POST_keeps_codes_unique env body (db : Api.Collection) :
  uniqueCodes db -> uniqueCodes (snd (Api.POST env body db)).
Proof.
  unfold uniqueCodes. intros Hnd.
  destruct (POST_store env body db)
    as [[-> _]|[doc [p [-> [_ [_ [_ [_ [_ [_ Hcode]]]]]]]]]];
    [exact Hnd|].
  simpl. rewrite map_app. simpl. now apply NoDup_snoc.
Qed.

Lemma DELETE_keeps_codes_unique iv env id (db : Api.Collection) :
  uniqueCodes db -> uniqueCodes (snd (Api.DELETE iv env id db)).
Proof.
  unfold uniqueCodes. intros Hnd.
  destruct (DELETE_store iv env id db)
    as [[-> _]|[pre [d [post [-> [_ [_ ->]]]]]]]; [exact Hnd|].
  simpl. rewrite map_app in *. simpl in *.
  now apply NoDup_remove_1 in Hnd.
Qed.

Lemma POST_race env env' name name' code count count' desc desc'
  (db : Api.Collection) :
  JS.truthy name = true -> JS.truthy name' = true -> JS.truthy code = true ->
  dbUp env = true -> dbUp env' = true ->
  ~ In code (map doc_code db) ->
  ~ In (Some (freshId env)) (map _id db) ->
  ~ In (Some (freshId env')) (map _id db) ->
  freshId env <> freshId env' ->
  let first := Api.mkPostBody (Some name) (Some code) (Some count) desc in
  let second := Api.mkPostBody (Some name') (Some code) (Some count') desc' in
  Api.POSTinterleaved (fun s => snd (Api.POST env' second s)) (fun s => s)
                      env first db
  = (Api.json
       (Api.Success
          (mkProduct (freshId env) name code count desc
                     (Some (now1 env)) (Some (now2 env)))),
     List.app
       (List.app db
          [mkDocument (Some (freshId env')) name' code count' desc'
                      (now1 env') (now2 env')])
       [mkDocument (Some (freshId env)) name code count desc
                   (now1 env) (now2 env)]).
Proof.
  intros Hn Hn' Hc Hup Hup' Hcode Hid Hid' Hne first second.
  unfold Api.POSTinterleaved, first. simpl.
  rewrite Hn, Hc, Hup. simpl.
  rewrite (proj2 (findOneByCode_none code db) Hcode).
  unfold second.
  rewrite (POST_accepts env' name' code count' desc' db Hn' Hc Hup'
             (proj2 (findOneByCode_none code db) Hcode)
             (proj2 (findOneById_none (freshId env') db) Hid')).
  simpl snd. unfold Api.insertOne.
  assert (Hfree : Api.findOneById (freshId env)
                    (List.app db
                       [mkDocument (Some (freshId env')) name' code count'
                                   desc' (now1 env') (now2 env')]) = None).
  { apply findOneById_none. rewrite map_app. simpl. intros Hin.
    apply in_app_or in Hin. destruct Hin as [Hin|[Hin|[]]];
      [now apply Hid|]. inversion Hin. congruence. }
  rewrite Hfree. simpl.
  match goal with
  | |- context [Api.findOneById _ (List.app ?l [?d])] =>
      rewrite (findOneById_app_new _ l d Hfree eq_refl)
  end.
  reflexivity.
Qed.

(** X14: creation and deletion keep the codes unique as long as no other
    write lands between the look-up of the code and the insertion: handled
    alone, a POST leaves the codes unique if they were, and so does a
    DELETE.  The check and the insertion are two steps, though: a second
    creation with the same code that is stored between them does not stop
    the first, which is answered 200 too, and the store then holds two
    documents with that code. *)
Theorem X14_post_and_delete_keep_codes_unique :
  (forall env body db,
      Api.POSTinterleaved (fun s => s) (fun s => s) env body db
      = Api.POST env body db)
  /\ (forall env body db,
      uniqueCodes db ->
      uniqueCodes
        (snd (Api.POSTinterleaved (fun s => s) (fun s => s) env body db)))
  /\ (forall iv env id db,
      uniqueCodes db -> uniqueCodes (snd (Api.DELETE iv env id db)))
  /\ (forall env env' name name' code count count' desc desc' db,
      JS.truthy name = true -> JS.truthy name' = true ->
      JS.truthy code = true ->
      dbUp env = true -> dbUp env' = true ->
      ~ In code (map doc_code db) ->
      ~ In (Some (freshId env)) (map _id db) ->
      ~ In (Some (freshId env')) (map _id db) ->
      freshId env <> freshId env' ->
      let first := Api.mkPostBody (Some name) (Some code) (Some count) desc in
      let second :=
        Api.mkPostBody (Some name') (Some code) (Some count') desc' in
      let raced :=
        Api.POSTinterleaved (fun s => snd (Api.POST env' second s))
                            (fun s => s) env first db in
      Api.status (fst (Api.POST env' second db)) = 200
      /\ Api.status (fst raced) = 200
      /\ ~ uniqueCodes (snd raced)).
Proof.
  split; [reflexivity|]. split; [|split].
  - intros env body db.
    change (Api.POSTinterleaved (fun s => s) (fun s => s) env body db)
      with (Api.POST env body db).
    apply POST_keeps_codes_unique.
  - intros iv env id db. apply DELETE_keeps_codes_unique.
  - intros env env' name name' code count count' desc desc' db
           Hn Hn' Hc Hup Hup' Hcode Hid Hid' Hne first second raced.
    subst raced first second.
    rewrite (POST_race env env' name name' code count count' desc desc' db
               Hn Hn' Hc Hup Hup' Hcode Hid Hid' Hne).
    rewrite (POST_accepts env' name' code count' desc' db Hn' Hc Hup'
               (proj2 (findOneByCode_none code db) Hcode)
               (proj2 (findOneById_none (freshId env') db) Hid')).
    split; [reflexivity|]. split; [reflexivity|].
    simpl. unfold uniqueCodes. rewrite !map_app. simpl. intros Hnd.
    apply (Permutation_NoDup (Permutation_sym (Permutation_cons_append _ _)))
      in Hnd.
    apply NoDup_cons_iff in Hnd. destruct Hnd as [Hnot _].
    apply Hnot. apply in_or_app. right. now left.
Qed.

Lemma X14_post_and_delete_keep_codes_unique_witness :
  let db := Service.collection (App.server twoProducts) in
  let env := mkEnv 2000 2000 2000 "6543210fedcba98765432111" true None in
  let env' := mkEnv 2001 2001 2001 "6543210fedcba98765432112" true None in
  let first := Api.mkPostBody (Some "Bolt") (Some "B-1") (Some 4) None in
  let second := Api.mkPostBody (Some "Brace") (Some "B-1") (Some 9) None in
  uniqueCodes (snd (Api.POSTinterleaved (fun s => s) (fun s => s)
                      env first db))
  /\ map doc_code
       (snd (Api.POSTinterleaved (fun s => snd (Api.POST env' second s))
               (fun s => s) env first db))
     = ["W-1"; "G-1"; "B-1"; "B-1"]
  /\ ~ uniqueCodes
         (snd (Api.POSTinterleaved (fun s => snd (Api.POST env' second s))
                 (fun s => s) env first db)).
Proof.
  intros db env env' first second.
  destruct X14_post_and_delete_keep_codes_unique as [_ [Halone [_ Hrace]]].
  split; [|split; [reflexivity|]].
  - apply Halone. unfold uniqueCodes. simpl.
    repeat constructor; simpl; intuition discriminate.
  - apply (Hrace env env' "Bolt" "Brace" "B-1" 4 9 None None db);
      try reflexivity; try discriminate; simpl; intuition discriminate.
Defined.

(** X15: an update is not checked against the codes that are stored: a PUT
    that gives a product the code of another stored product is answered 200,
    and the store then holds two documents with the same code. *)
Theorem X15_put_does_not_check_codes iv env id body
  (pre post : Api.Collection) d other :
  iv id = true -> dbUp env = true ->
  (forall x, In x pre -> Api.hasId id x = false) -> _id d = Some id ->
  In other (List.app pre post) -> Api.u_code body = doc_code other ->
  Api.status (fst (Api.PUT iv env id body (List.app pre (d :: post)))) = 200
  /\ ~ uniqueCodes (snd (Api.PUT iv env id body (List.app pre (d :: post)))).
Proof.
  intros Hv Hup Hpre Hid Hother Hcode.
  rewrite (PUT_at iv env id body pre post d Hv Hup Hpre Hid). simpl.
  split; [reflexivity|].
  unfold uniqueCodes. rewrite map_app. simpl. intros Hnd.
  apply NoDup_remove_2 in Hnd. apply Hnd.
  rewrite <- map_app, Hcode. now apply in_map.
Qed.

Lemma X15_put_does_not_check_codes_witness :
  ~ uniqueCodes
      (snd (Api.PUT has24 online (id gadget)
              (Api.mkPutBody "Gadget" "W-1" 2 None)
              (Service.collection (App.server twoProducts)))).
Proof.
  apply (X15_put_does_not_check_codes has24 online (id gadget)
           (Api.mkPutBody "Gadget" "W-1" 2 None)
           [mkDocument (Some (id (widget 10))) "Widget" "W-1" 10 None
                       1000 1000] []
           (mkDocument (Some (id gadget)) "Gadget" "G-1" 2 None 500 500)
           (mkDocument (Some (id (widget 10))) "Widget" "W-1" 10 None
                       1000 1000));
    try reflexivity.
  - intros x [<-|[]]. reflexivity.
  - left. reflexivity.
Defined.



Lemma DELETE_not_found iv env id (db : Api.Collection) :
  iv id = true -> dbUp env = true -> ~ In (Some id) (map _id db) ->
  Api.DELETE iv env id db
  = (Api.jsonStatus (Api.Failure "Product not found") 404, db).
Proof.
  intros Hv Hup Hnone. unfold Api.DELETE. rewrite Hv, Hup. simpl.
  pose proof (deleteOne_spec id db) as Hspec.
  destruct (Api.deleteOne id db) as [n db'].
  destruct Hspec as [[-> [-> _]]|[_ [pre [d [post [-> [_ [Hid _]]]]]]]];
    [reflexivity|].
  exfalso. apply Hnone. rewrite map_app. apply in_or_app. right. now left.
Qed.

(** X17: a DELETE that answers 200 has removed one document and nothing
    else — for an identifier written as an [ObjectId] is rendered (24
    hexadecimal digits in lower case), the first document with that [_id];
    any other answer leaves the store as it was; an identifier that is not
    valid is answered 400, and a valid one, so written, that no document
    has is answered 404. *)
Theorem X17_delete_errors_and_frame iv env id (db : Api.Collection) :
  (Api.status (fst (Api.DELETE iv env id db)) = 200 ->
   exists pre d post,
     db = List.app pre (d :: post)
     /\ snd (Api.DELETE iv env id db) = List.app pre post
     /\ (canonicalHex id = true ->
         (forall x, In x pre -> Api.hasId id x = false)
         /\ _id d = Some id))
  /\ (Api.status (fst (Api.DELETE iv env id db)) <> 200 ->
      snd (Api.DELETE iv env id db) = db)
  /\ (iv id = false ->
      fst (Api.DELETE iv env id db)
      = Api.jsonStatus (Api.Failure "Invalid product ID") 400)
  /\ (iv id = true -> canonicalHex id = true -> dbUp env = true ->
      ~ In (Some id) (map _id db) ->
      fst (Api.DELETE iv env id db)
      = Api.jsonStatus (Api.Failure "Product not found") 404).
Proof.
  split; [|split; [|split]].
  - destruct (DELETE_store iv env id db)
      as [[_ [H _]]|[pre [d [post [-> [Hpre [Hid ->]]]]]]];
      [intros H2; contradiction|].
    intros _. exists pre, d, post. repeat split; assumption.
  - destruct (DELETE_store iv env id db)
      as [[H _]|[pre [d [post [_ [_ [_ ->]]]]]]]; [intros _; exact H|].
    simpl. congruence.
  - intros Hv. unfold Api.DELETE. now rewrite Hv.
  - intros Hv _ Hup Hnone. unfold Api.DELETE. rewrite Hv, Hup. simpl.
    pose proof (deleteOne_spec id db) as Hspec.
    destruct (Api.deleteOne id db) as [n db'].
    destruct Hspec as [[-> _]|[_ [pre [d [post [-> [_ [Hid _]]]]]]]];
      [reflexivity|].
    exfalso. apply Hnone. rewrite map_app. apply in_or_app. right. now left.
Qed.

Lemma X17_delete_errors_and_frame_witness :
  snd (Api.DELETE has24 online "not-an-id"
         (Service.collection (App.server twoProducts)))
  = Service.collection (App.server twoProducts)
  /\ fst (Api.DELETE has24 online "000000000000000000000000"
            (Service.collection (App.server twoProducts)))
     = Api.jsonStatus (Api.Failure "Product not found") 404.
Proof.
  destruct (X17_delete_errors_and_frame has24 online "not-an-id"
              (Service.collection (App.server twoProducts)))
    as [_ [Hframe _]].
  destruct (X17_delete_errors_and_frame has24 online
              "000000000000000000000000"
              (Service.collection (App.server twoProducts)))
    as [_ [_ [_ Hnotfound]]].
  split.
  - apply Hframe. discriminate.
  - apply Hnotfound; try reflexivity.
    simpl. intros [H|[H|[]]]; discriminate.
Defined.

(** X18: in a well keyed store a product can be deleted once: after a
    DELETE that answered 200, a second DELETE of the same identifier is
    answered 404 and changes nothing. *)
Theorem X18_delete_twice_is_not_found iv env env' id (db : Api.Collection) :
  wellKeyed db ->
  Api.status (fst (Api.DELETE iv env id db)) = 200 ->
  dbUp env' = true ->
  Api.DELETE iv env' id (snd (Api.DELETE iv env id db))
  = (Api.jsonStatus (Api.Failure "Product not found") 404,
     snd (Api.DELETE iv env id db)).
Proof.
  intros [_ Hnd] H200 Hup.
  destruct (DELETE_store iv env id db)
    as [[_ [H _]]|[pre [d [post [-> [Hpre [Hid Heq]]]]]]]; [contradiction|].
  assert (Hv : iv id = true).
  { revert H200. unfold Api.DELETE. destruct (iv id); [reflexivity|].
    discriminate. }
  rewrite Heq. simpl.
  assert (Hnone : ~ In (Some id) (map _id (List.app pre post))).
  { rewrite map_app in *. simpl in Hnd. rewrite Hid in Hnd.
    now apply NoDup_remove_2 in Hnd. }
  now apply DELETE_not_found.
Qed.

Lemma X18_delete_twice_is_not_found_witness :
  let once :=
    Api.DELETE has24 online (id gadget)
               (Service.collection (App.server twoProducts)) in
  Api.DELETE has24 online (id gadget) (snd once)
  = (Api.jsonStatus (Api.Failure "Product not found") 404,
     [mkDocument (Some (id (widget 10))) "Widget" "W-1" 10 None 1000 1000]).
Proof.
  intros once.
  assert (H : wellKeyed (Service.collection (App.server twoProducts))).
  { split.
    - simpl. intros [H|[H|[]]]; discriminate.
    - simpl. repeat constructor; simpl; intuition discriminate. }
  exact (X18_delete_twice_is_not_found has24 online online (id gadget)
           (Service.collection (App.server twoProducts)) H eq_refl eq_refl).
Defined.

Lemma no_id_before oid (db : Api.Collection) :
  ~ In (Some oid) (map _id db) ->
  forall x, In x db -> Api.hasId oid x = false.
Proof.
  intros Hnone x Hin. destruct (Api.hasId oid x) eqn:E; [|reflexivity].
  apply hasId_eq in E. exfalso. apply Hnone. rewrite <- E. now apply in_map.
Qed.

(** X19: the [id] that a successful POST returns addresses the record it
    created: looking it up gives the document of the returned product, a
    PUT with it is answered 200, and a DELETE with it gives back the store
    as it was before the POST. *)
Theorem X19_created_id_addresses_record iv env env' body put
  (db : Api.Collection) p :
  Api.envelope (fst (Api.POST env body db)) = Api.Success p ->
  iv (id p) = true -> dbUp env' = true ->
  (exists doc,
      Api.findOneById (id p) (snd (Api.POST env body db)) = Some doc
      /\ documentToProduct doc = Some p)
  /\ Api.status (fst (Api.PUT iv env' (id p) put (snd (Api.POST env body db))))
     = 200
  /\ Api.DELETE iv env' (id p) (snd (Api.POST env body db))
     = (Api.json (Api.Success "Product deleted successfully"), db).
Proof.
  intros Hok Hv Hup.
  destruct (POST_store env body db)
    as [[_ [error Herr]]|[doc [p' [Heq [Hdoc [Hid [_ [_ [_ [Hfresh _]]]]]]]]]];
    [congruence|].
  rewrite Heq in *. simpl in Hok. inversion Hok; subst p'. clear Hok.
  assert (Hp : id p = freshId env).
  { unfold documentToProduct in Hdoc. rewrite Hid in Hdoc.
    inversion Hdoc. reflexivity. }
  simpl snd. rewrite Hp in *.
  pose proof (no_id_before _ _ Hfresh) as Hpre.
  split; [|split].
  - exists doc. split; [|exact Hdoc].
    apply findOneById_app_new; [|exact Hid].
    now apply findOneById_none.
  - now rewrite (PUT_at iv env' (freshId env) put db [] doc Hv Hup Hpre Hid).
  - unfold Api.DELETE. rewrite Hv, Hup. simpl.
    rewrite (deleteOne_at (freshId env) db [] doc Hpre Hid).
    now rewrite app_nil_r.
Qed.

Lemma X19_created_id_addresses_record_witness :
  let created :=
    Api.POST online (Api.mkPostBody (Some "Bolt") (Some "B-1") (Some 4) None)
             (Service.collection (App.server twoProducts)) in
  Api.DELETE has24 online (freshId online) (snd created)
  = (Api.json (Api.Success "Product deleted successfully"),
     Service.collection (App.server twoProducts)).
Proof.
  intros created.
  destruct (X19_created_id_addresses_record has24 online online
              (Api.mkPostBody (Some "Bolt") (Some "B-1") (Some 4) None)
              (Api.mkPutBody "Bolt" "B-1" 5 None)
              (Service.collection (App.server twoProducts))
              (mkProduct (freshId online) "Bolt" "B-1" 4 None
                         (Some 2000) (Some 2000))
              eq_refl eq_refl eq_refl) as [_ [_ H]].
  exact H.
Defined.

(** X20: the two conversions: a document has a transfer shape exactly when
    it has an [_id], which becomes the [id]; and converting that product
    back gives the fields of the document again, its [createdAt] included,
    with only [updatedAt] taken from the clock. *)
Theorem X20_conversions_round_trip (doc : ProductDocument) (n1 n2 : Date) :
  (documentToProduct doc = None <-> _id doc = None)
  /\ forall p,
       documentToProduct doc = Some p ->
       _id doc = Some (id p)
       /\ productToDocument n1 n2 (omitId p)
          = {| f_name := doc_name doc; f_code := doc_code doc;
               f_count := doc_count doc;
               f_description := doc_description doc;
               f_createdAt := doc_createdAt doc;
               f_updatedAt := n2 |}.
Proof.
  unfold documentToProduct. destruct (_id doc) as [oid|]; split.
  - split; discriminate.
  - intros p H. inversion H; subst. split; reflexivity.
  - split; reflexivity.
  - intros p H. discriminate.
Qed.

Lemma X20_conversions_round_trip_witness :
  productToDocument 2000 3000 (omitId (widget 10))
  = mkFields "Widget" "W-1" 10 None 1000 3000.
Proof.
  destruct (X20_conversions_round_trip
              (mkDocument (Some (id (widget 10))) "Widget" "W-1" 10 None
                          1000 1000) 2000 3000) as [_ H].
  exact (proj2 (H (widget 10) eq_refl)).
Defined.

(* ===================================================================== *)
(** ** GET and the initial load *)
(* ===================================================================== *)

Lemma mapDocuments_some (docs : Api.Collection) :
  ~ In None (map _id docs) ->
  exists data,
    Api.mapDocuments docs = Some data
    /\ map Some data = map documentToProduct docs
    /\ map (fun p => Some (id p)) data = map _id docs.
Proof.
  induction docs as [|d docs IH]; simpl; intros Hnone.
  - exists []. repeat split.
  - destruct IH as [data [Hm [Hs Hi]]];
      [intros H; apply Hnone; now right|].
    destruct (documentToProduct d) as [p|] eqn:E.
    + rewrite Hm. exists (p :: data). split; [reflexivity|]. simpl.
      rewrite Hs, Hi. split; [reflexivity|]. f_equal.
      unfold documentToProduct in E. destruct (_id d); [|discriminate].
      inversion E. reflexivity.
    + exfalso. apply Hnone. left.
      unfold documentToProduct in E. now destruct (_id d).
Qed.

Lemma mapDocuments_none (docs : Api.Collection) :
  In None (map _id docs) -> Api.mapDocuments docs = None.
Proof.
  induction docs as [|d docs IH]; simpl; [intros []|].
  intros [Hd|Hin].
  - unfold documentToProduct. now rewrite Hd.
  - rewrite (IH Hin). now destruct (documentToProduct d).
Qed.

Lemma GET_success newestFirst env (db : Api.Collection) :
  Permutation db (newestFirst db) ->
  dbUp env = true -> ~ In None (map _id db) ->
  exists data,
    Api.GET newestFirst env db = Api.json (Api.Success data)
    /\ map Some data = map documentToProduct (newestFirst db)
    /\ Permutation (map (fun p => Some (id p)) data) (map _id db)
    /\ List.length data = List.length db.
Proof.
  intros Hperm Hup Hnone. unfold Api.GET. rewrite Hup. simpl.
  assert (Hnone' : ~ In None (map _id (newestFirst db))).
  { intros H. apply Hnone. eapply Permutation_in; [|exact H].
    symmetry. now apply Permutation_map. }
  destruct (mapDocuments_some _ Hnone') as [data [-> [Hs Hi]]].
  exists data. split; [reflexivity|]. split; [exact Hs|]. split.
  - rewrite Hi. symmetry. now apply Permutation_map.
  - rewrite <- (length_map (fun p => Some (id p))), Hi, length_map.
    symmetry. now apply Permutation_length.
Qed.

(** X21: with the store reachable and every document keyed, GET answers
    200 with the transfer shapes of the documents, one for each, in the
    order in which the driver returned them; with the store unreachable, or
    a document without [_id], it answers 500 "Failed to fetch products". *)
Theorem X21_get_lists_every_document newestFirst env (db : Api.Collection) :
  Permutation db (newestFirst db) ->
  (dbUp env = true -> ~ In None (map _id db) ->
   exists data,
     Api.GET newestFirst env db = Api.json (Api.Success data)
     /\ map Some data = map documentToProduct (newestFirst db)
     /\ Permutation (map (fun p => Some (id p)) data) (map _id db)
     /\ List.length data = List.length db)
  /\ (dbUp env = false \/ In None (map _id db) ->
      Api.GET newestFirst env db
      = Api.jsonStatus (Api.Failure "Failed to fetch products") 500).
Proof.
  intros Hperm. split.
  - intros Hup Hnone. now apply GET_success.
  - intros [Hdown|Hnone]; unfold Api.GET.
    + now rewrite Hdown.
    + destruct (dbUp env); [|reflexivity]. simpl.
      rewrite mapDocuments_none; [reflexivity|].
      eapply Permutation_in; [|exact Hnone]. now apply Permutation_map.
Qed.

Lemma X21_get_lists_every_document_witness :
  Api.GET sortNewestFirst online (Service.collection (App.server twoProducts))
  = Api.json (Api.Success [widget 10; gadget])
  /\ Api.GET sortNewestFirst online
       [mkDocument None "Ghost" "X-0" 1 None 10 10]
     = Api.jsonStatus (Api.Failure "Failed to fetch products") 500.
Proof.
  split.
  - destruct (X21_get_lists_every_document sortNewestFirst online
                (Service.collection (App.server twoProducts))
                (sort_perm _ _)) as [H _].
    destruct H as [data [Hget _]]; [reflexivity| |].
    + simpl. intros [H|[H|[]]]; discriminate.
    + reflexivity.
  - apply (X21_get_lists_every_document sortNewestFirst online
             [mkDocument None "Ghost" "X-0" 1 None 10 10] (sort_perm _ _)).
    right. left. reflexivity.
Defined.

(** X22: a load always ends with [loading] off; when the products arrive
    they replace the collection and the error is cleared; when the fetch
    throws the collection is kept and the message is shown; and a load that
    is delivered by a reachable, well keyed store leaves the page listing
    exactly the stored documents. *)
Theorem X22_load_replaces_or_keeps newestFirst env st srv :
  let st' := Page.loadProducts newestFirst env st srv in
  Page.loading st' = false
  /\ Page.isModalOpen st' = Page.isModalOpen st
  /\ (forall data,
        Service.fetchProducts newestFirst env srv = Returned data ->
        Page.products st' = data /\ Page.error st' = None)
  /\ (forall err,
        Service.fetchProducts newestFirst env srv = Threw err ->
        Page.products st' = Page.products st
        /\ Page.error st'
           = Some (Page.messageOf err "Failed to load products"))
  /\ (transport env = None -> dbUp env = true ->
      ~ In None (map _id (Service.collection srv)) ->
      Permutation (Service.collection srv)
                  (newestFirst (Service.collection srv)) ->
      inSync st' srv /\ Page.error st' = None).
Proof.
  intros st'. subst st'. unfold Page.loadProducts.
  split; [reflexivity|]. split.
  { destruct (Service.fetchProducts newestFirst env srv); reflexivity. }
  split; [|split].
  - intros data ->. split; reflexivity.
  - intros err ->. split; reflexivity.
  - intros Ht Hup Hnone Hperm.
    destruct (GET_success newestFirst env (Service.collection srv) Hperm Hup Hnone)
      as [data [Hget [_ [Hids _]]]].
    unfold Service.fetchProducts. rewrite Ht, Hget. simpl.
    split; [exact Hids|reflexivity].
Qed.

Lemma X22_load_replaces_or_keeps_witness :
  Page.products
    (Page.loadProducts sortNewestFirst online Page.initial
       (App.server twoProducts)) = [widget 10; gadget]
  /\ inSync
       (Page.loadProducts sortNewestFirst online Page.initial
          (App.server twoProducts))
       (App.server twoProducts).
Proof.
  destruct (X22_load_replaces_or_keeps sortNewestFirst online Page.initial
              (App.server twoProducts)) as [_ [_ [Hdata [_ Hsync]]]].
  split.
  - exact (proj1 (Hdata [widget 10; gadget] eq_refl)).
  - apply Hsync; [reflexivity|reflexivity| |apply sort_perm].
    simpl. intros [H|[H|[]]]; discriminate.
Defined.

(* ===================================================================== *)
(** ** The page and the store stay in step *)
(* ===================================================================== *)

Lemma replace_keeps_ids (i : string) (updated : Product) (l : list Product) :
  id updated = i ->
  map (fun p => Some (id p))
      (map (fun product =>
              if String.eqb (id product) i then updated else product) l)
  = map (fun p => Some (id p)) l.
Proof.
  intros Hu. induction l as [|q l IH]; simpl; [reflexivity|].
  rewrite IH. f_equal.
  destruct (String.eqb_spec (id q) i) as [E|E]; congruence.
Qed.

Lemma filter_ids (i : string) (l : list Product) :
  map (fun p => Some (id p))
      (filter (fun product => negb (String.eqb (id product) i)) l)
  = filter (fun o => match o with
                     | Some x => negb (String.eqb x i)
                     | None => true
                     end)
           (map (fun p => Some (id p)) l).
Proof.
  induction l as [|q l IH]; simpl; [reflexivity|].
  destruct (String.eqb (id q) i); simpl; now rewrite IH.
Qed.

Lemma remove_keeps_sync (i : string) (l : list Product)
  (pre post : list (option string)) :
  Permutation (map (fun p => Some (id p)) l)
              (List.app pre (Some i :: post)) ->
  NoDup (List.app pre (Some i :: post)) ->
  Permutation
    (map (fun p => Some (id p))
         (filter (fun product => negb (String.eqb (id product) i)) l))
    (List.app pre post).
Proof.
  intros Hperm Hnd. rewrite filter_ids.
  apply NoDup_Permutation.
  - apply NoDup_filter. eapply Permutation_NoDup; [symmetry; exact Hperm|].
    exact Hnd.
  - now apply NoDup_remove_1 in Hnd.
  - intros x. rewrite filter_In. split.
    + intros [Hin Hq].
      apply (Permutation_in _ Hperm) in Hin.
      apply in_app_or in Hin. apply in_or_app.
      destruct Hin as [Hin|[Hx|Hin]]; [now left| |now right].
      subst x. rewrite String.eqb_refl in Hq. discriminate.
    + intros Hin. split.
      * apply (Permutation_in _ (Permutation_sym Hperm)).
        apply in_app_or in Hin. apply in_or_app.
        destruct Hin; [now left|right; now right].
      * destruct x as [y|]; [|reflexivity].
        destruct (String.eqb_spec y i) as [->|]; [|reflexivity].
        exfalso. now apply NoDup_remove_2 in Hnd.
Qed.

Lemma addProduct_sync env product st srv :
  transport env = None ->
  inSync st srv -> wellKeyed (Service.collection srv) ->
  inSync (fst (Page.addProduct env product st srv))
         (snd (Page.addProduct env product st srv))
  /\ wellKeyed
       (Service.collection (snd (Page.addProduct env product st srv))).
Proof.
  intros Ht Hsync Hkeyed.
  pose proof (createProduct_outcome env product srv) as [_ Hout].
  rewrite Ht in Hout. destruct Hout as [Hc Hf].
  pose proof (wellKeyed_POST env (Service.postBody product)
                (Service.collection srv) Hkeyed) as Hk'.
  unfold Page.addProduct, inSync in *.
  destruct (Service.createProduct env product srv) as [[p|e] srv'];
    simpl in *; rewrite Hc; (split; [|exact Hk']).
  - destruct (POST_store env (Service.postBody product)
                (Service.collection srv))
      as [[_ [error Herr]]|[doc [p' [Heq [Hdoc [Hid _]]]]]].
    + rewrite Herr in Hf. discriminate.
    + rewrite Heq in *. simpl in *. inversion Hf; subst p'.
      rewrite map_app. simpl. rewrite Hid.
      assert (Hp : id p = freshId env).
      { unfold documentToProduct in Hdoc. rewrite Hid in Hdoc.
        inversion Hdoc. reflexivity. }
      rewrite Hp. rewrite <- Permutation_cons_append. now constructor.
  - destruct (POST_store env (Service.postBody product)
                (Service.collection srv))
      as [[-> _]|[doc [p' [Heq _]]]]; [exact Hsync|].
    rewrite Heq in Hf. discriminate.
Qed.

Lemma updateProduct_sync iv env id product st srv :
  transport env = None ->
  inSync st srv -> wellKeyed (Service.collection srv) ->
  inSync (fst (Page.updateProduct iv env id product st srv))
         (snd (Page.updateProduct iv env id product st srv))
  /\ wellKeyed
       (Service.collection (snd (Page.updateProduct iv env id product st srv))).
Proof.
  intros Ht Hsync Hkeyed.
  pose proof (wellKeyed_PUT iv env id (Service.putBody product)
                (Service.collection srv) Hkeyed) as Hk'.
  pose proof (PUT_keeps_ids iv env id (Service.putBody product)
                (Service.collection srv)) as Hids.
  unfold Page.updateProduct, Service.updateProduct, inSync in *.
  rewrite Ht. simpl.
  destruct (PUT_store iv env id (Service.putBody product)
              (Service.collection srv))
    as [[_ [_ [error Herr]]]|[pre [d [post [p [_ [_ [_ [Hp Heq]]]]]]]]].
  - destruct (Api.PUT iv env id (Service.putBody product)
                (Service.collection srv)) as [response db'].
    simpl in *. rewrite Herr. simpl. rewrite Hids. now split.
  - rewrite Heq in *. simpl in *. rewrite Hids.
    split; [|exact Hk']. now rewrite replace_keeps_ids.
Qed.

Lemma deleteProduct_sync iv env id st srv :
  transport env = None ->
  inSync st srv -> wellKeyed (Service.collection srv) ->
  inSync (fst (Page.deleteProduct iv env id st srv))
         (snd (Page.deleteProduct iv env id st srv))
  /\ wellKeyed
       (Service.collection (snd (Page.deleteProduct iv env id st srv))).
Proof.
  intros Ht Hsync Hkeyed.
  pose proof (wellKeyed_DELETE iv env id (Service.collection srv) Hkeyed)
    as Hk'.
  unfold Page.deleteProduct, Service.deleteProduct, inSync in *.
  rewrite Ht. simpl.
  destruct (DELETE_store iv env id (Service.collection srv))
    as [[Hsame [_ [error Herr]]]|[pre [d [post [Hdb [_ [Hid Heq]]]]]]].
  - destruct (Api.DELETE iv env id (Service.collection srv))
      as [response db'].
    simpl in *. rewrite Herr. simpl. subst db'. now split.
  - rewrite Heq in *. simpl in *. split; [|exact Hk'].
    destruct Hkeyed as [_ Hnd]. rewrite Hdb in Hsync, Hnd.
    rewrite map_app in *. simpl in *. rewrite Hid in *.
    now apply remove_keeps_sync.
Qed.

Lemma step_sync iv lc (w : App.World) ee :
  delivered ee ->
  inSync (App.page w) (App.server w) ->
  wellKeyed (Service.collection (App.server w)) ->
  inSync (App.page (App.step iv lc w ee)) (App.server (App.step iv lc w ee))
  /\ wellKeyed (Service.collection (App.server (App.step iv lc w ee))).
Proof.
  destruct ee as [env ev]. unfold delivered. simpl fst.
  intros Ht Hsync Hkeyed. unfold App.step.
  destruct (Page.loading (App.page w)); [now split|].
  destruct ev as [e| | | | |]; simpl; try (now split).
  - destruct (dispatch_emits_shape lc (Page.products (App.page w))
                (App.list w) e) as [Hs|[em Hs]];
      destruct (InventoryList.dispatch lc (Page.products (App.page w))
                  (App.list w) e) as [l' emits];
      simpl in Hs; subst emits; simpl; [now split|].
    destruct em as [id product|id]; unfold App.callback; simpl.
    + pose proof (updateProduct_sync iv env id product (App.page w)
                    (App.server w) Ht Hsync Hkeyed) as H.
      destruct (Page.updateProduct iv env id product (App.page w)
                  (App.server w)). exact H.
    + pose proof (deleteProduct_sync iv env id (App.page w)
                    (App.server w) Ht Hsync Hkeyed) as H.
      destruct (Page.deleteProduct iv env id (App.page w) (App.server w)).
      exact H.
  - destruct (Page.isModalOpen (App.page w)); now split.
  - destruct (Page.isModalOpen (App.page w)); [|now split].
    destruct (InventoryForm.handleSubmit (App.form w)) as [f' out].
    destruct (InventoryForm.onAddProduct out) as [product|].
    + pose proof (addProduct_sync env product (App.page w) (App.server w)
                    Ht Hsync Hkeyed) as H.
      destruct (Page.addProduct env product (App.page w) (App.server w)).
      simpl in *. destruct (InventoryForm.onClose out); exact H.
    + simpl. destruct (InventoryForm.onClose out); now split.
  - destruct (Page.isModalOpen (App.page w)); now split.
Qed.

(** X23: as long as every request is delivered, the page and the store stay
    in step: if the collection of the page lists exactly the stored
    documents (the same ids, each once) and the store is well keyed, this
    still holds after any sequence of user events — additions, edits,
    confirmed and cancelled deletions, failed requests included. *)
Theorem X23_page_mirrors_store iv lc evs (w : App.World) :
  (forall ee, In ee evs -> delivered ee) ->
  inSync (App.page w) (App.server w) ->
  wellKeyed (Service.collection (App.server w)) ->
  inSync (App.page (App.run iv lc w evs)) (App.server (App.run iv lc w evs))
  /\ wellKeyed (Service.collection (App.server (App.run iv lc w evs))).
Proof.
  revert w. induction evs as [|ee evs IH]; intros w Hall Hsync Hkeyed;
    [now split|].
  change (App.run iv lc w (ee :: evs))
    with (App.run iv lc (App.step iv lc w ee) evs).
  destruct (step_sync iv lc w ee (Hall ee (or_introl eq_refl)) Hsync Hkeyed)
    as [Hs Hk].
  apply IH; [|exact Hs|exact Hk].
  intros ee' Hin. apply Hall. now right.
Qed.

Lemma X23_page_mirrors_store_witness :
  let evs :=
    [(online, App.ListEvent (InventoryList.ClickDelete 0));
     (online, confirmClick);
     (online, App.ClickAddProduct);
     (online, App.FormInput InventoryForm.FieldName "Bolt" None);
     (online, App.FormInput InventoryForm.FieldCode "B-1" None);
     (online, App.FormInput InventoryForm.FieldCount "4" (Some 4));
     (online, App.FormSubmit)] in
  inSync (App.page (App.run has24 anyOrder twoProducts evs))
         (App.server (App.run has24 anyOrder twoProducts evs))
  /\ map name (Page.products (App.page (App.run has24 anyOrder twoProducts evs)))
     = ["Bolt"; "Gadget"].
Proof.
  intros evs. split; [|reflexivity].
  apply X23_page_mirrors_store.
  - intros ee Hin. unfold evs in Hin. simpl in Hin.
    repeat (destruct Hin as [<-|Hin]; [reflexivity|]). destruct Hin.
  - apply Permutation_refl.
  - split.
    + simpl. intros [H|[H|[]]]; discriminate.
    + simpl. repeat constructor; simpl; intuition discriminate.
Defined.

(* ===================================================================== *)
(** ** The error message and the edits of the page *)
(* ===================================================================== *)

Lemma strOr_truthy (a b : string) :
  JS.truthy b = true -> JS.truthy (JS.strOr a b) = true.
Proof.
  intros Hb. unfold JS.strOr. destruct (JS.truthy a) eqn:E; assumption.
Qed.

Lemma addProduct_banner env product st srv :
  (forall m, transport env = Some (ErrorObject m) -> JS.truthy m = true) ->
  Page.bannerShown st = true ->
  Page.bannerShown (fst (Page.addProduct env product st srv)) = true.
Proof.
  intros Hloud Hshown. unfold Page.addProduct, Service.createProduct.
  destruct (transport env) as [[m|]|]; simpl.
  - now apply Hloud.
  - reflexivity.
  - destruct (Api.POST env (Service.postBody product) _) as [response db'].
    simpl. destruct (Api.envelope response) as [p|error]; simpl;
      [exact Hshown|].
    now apply strOr_truthy.
Qed.

Lemma updateProduct_banner iv env id product st srv :
  (forall m, transport env = Some (ErrorObject m) -> JS.truthy m = true) ->
  Page.bannerShown st = true ->
  Page.bannerShown (fst (Page.updateProduct iv env id product st srv)) = true.
Proof.
  intros Hloud Hshown. unfold Page.updateProduct, Service.updateProduct.
  destruct (transport env) as [[m|]|]; simpl.
  - now apply Hloud.
  - reflexivity.
  - destruct (Api.PUT iv env id (Service.putBody product) _)
      as [response db'].
    simpl. destruct (Api.envelope response) as [p|error]; simpl;
      [exact Hshown|].
    now apply strOr_truthy.
Qed.

Lemma deleteProduct_banner iv env id st srv :
  (forall m, transport env = Some (ErrorObject m) -> JS.truthy m = true) ->
  Page.bannerShown st = true ->
  Page.bannerShown (fst (Page.deleteProduct iv env id st srv)) = true.
Proof.
  intros Hloud Hshown. unfold Page.deleteProduct, Service.deleteProduct.
  destruct (transport env) as [[m|]|]; simpl.
  - now apply Hloud.
  - reflexivity.
  - destruct (Api.DELETE iv env id _) as [response db'].
    simpl. destruct (Api.envelope response) as [p|error]; simpl;
      [exact Hshown|].
    now apply strOr_truthy.
Qed.

(** X24: an error banner stays until it is dismissed: when the banner is
    shown, it is still shown after any user event other than the click on
    its "×" — a later addition, edit or deletion, whether it succeeds or
    fails — provided that an [Error] thrown by the transport of that event
    carries a message that is not empty (the messages of the server and the
    fallbacks of the client never are). *)
Theorem X24_error_is_not_cleared iv lc (w : App.World) env ev :
  ev <> App.DismissError ->
  (forall m, transport env = Some (ErrorObject m) -> JS.truthy m = true) ->
  Page.bannerShown (App.page w) = true ->
  Page.bannerShown (App.page (App.step iv lc w (env, ev))) = true.
Proof.
  intros Hev Hloud Hshown.
  unfold App.step.
  destruct (Page.loading (App.page w)); [exact Hshown|].
  destruct ev as [e| | | | |]; simpl; try exact Hshown; [| | | |congruence].
  - destruct (dispatch_emits_shape lc (Page.products (App.page w))
                (App.list w) e) as [Hs|[em Hs]];
      destruct (InventoryList.dispatch lc (Page.products (App.page w))
                  (App.list w) e) as [l' emits];
      simpl in Hs; subst emits; simpl; [exact Hshown|].
    destruct em as [id product|id]; unfold App.callback; simpl.
    + pose proof (updateProduct_banner iv env id product (App.page w)
                    (App.server w) Hloud Hshown) as H.
      destruct (Page.updateProduct iv env id product (App.page w)
                  (App.server w)). exact H.
    + pose proof (deleteProduct_banner iv env id (App.page w) (App.server w)
                    Hloud Hshown) as H.
      destruct (Page.deleteProduct iv env id (App.page w) (App.server w)).
      exact H.
  - destruct (Page.isModalOpen (App.page w)); exact Hshown.
  - destruct (Page.isModalOpen (App.page w)); [|exact Hshown].
    destruct (InventoryForm.handleSubmit (App.form w)) as [f' out].
    destruct (InventoryForm.onAddProduct out) as [product|].
    + pose proof (addProduct_banner env product (App.page w) (App.server w)
                    Hloud Hshown) as H.
      destruct (Page.addProduct env product (App.page w) (App.server w)).
      simpl in *. destruct (InventoryForm.onClose out); exact H.
    + simpl. destruct (InventoryForm.onClose out); exact Hshown.
  - destruct (Page.isModalOpen (App.page w)); exact Hshown.
Qed.

Lemma X24_error_is_not_cleared_witness :
  let offline := mkEnv 0 0 0 "" true (Some (ErrorObject "Failed to fetch")) in
  let w :=
    App.run has24 anyOrder twoProducts
      [(online, App.ListEvent (InventoryList.ClickCount 0));
       (online, App.ListEvent (InventoryList.ChangeCountInput 0 (Some 3)));
       (offline, App.ListEvent (InventoryList.BlurCountInput 0))] in
  Page.error (App.page w) = Some "Failed to fetch"
  /\ Page.bannerShown
       (App.page (App.step has24 anyOrder w
                    (online, App.ListEvent (InventoryList.ClickDelete 1))))
     = true
  /\ Page.error
       (App.page
          (App.run has24 anyOrder w
             [(online, App.ListEvent (InventoryList.ClickDelete 1));
              (online, confirmClick)]))
     = Some "Failed to fetch".
Proof.
  intros offline w. split; [reflexivity|]. split; [|reflexivity].
  apply X24_error_is_not_cleared; [discriminate| |reflexivity].
  intros m H. discriminate H.
Defined.

(** The proviso is needed: a failure whose [Error] has an empty message
    replaces the message shown by the empty string, which renders no
    banner. *)
Example empty_message_hides_banner :
  let silent := mkEnv 0 0 0 "" true (Some (ErrorObject "")) in
  let st := Page.mkState [widget 2] false false (Some "Failed to fetch") in
  let srv := Service.mkServer [] [] in
  Page.bannerShown st = true
  /\ Page.error (fst (Page.deleteProduct has24 silent (id (widget 2)) st srv))
     = Some ""
  /\ Page.bannerShown
       (fst (Page.deleteProduct has24 silent (id (widget 2)) st srv))
     = false.
Proof.
  repeat split.
Qed.

(** X25: an edit never changes which products the page lists: whatever the
    outcome of the request, after [updateProduct] the collection has the
    same ids in the same order. *)
Theorem X25_update_keeps_ids iv env id product st srv :
  map ProductModel.id
      (Page.products (fst (Page.updateProduct iv env id product st srv)))
  = map ProductModel.id (Page.products st).
Proof.
  unfold Page.updateProduct, Service.updateProduct.
  destruct (transport env); [reflexivity|]. simpl.
  destruct (PUT_store iv env id (Service.putBody product)
              (Service.collection srv))
    as [[_ [_ [error Herr]]]|[pre [d [post [p [_ [_ [_ [Hp Heq]]]]]]]]].
  - destruct (Api.PUT iv env id (Service.putBody product)
                (Service.collection srv)) as [response db'].
    simpl in *. rewrite Herr. reflexivity.
  - rewrite Heq. simpl. rewrite map_map.
    apply map_ext. intros q.
    destruct (String.eqb_spec (ProductModel.id q) id); congruence.
Qed.

(* ===================================================================== *)
(** ** The creation form *)
(* ===================================================================== *)

(** X26: the form submits exactly when the trimmed name and the trimmed
    code are not empty and the count is positive.  It then submits the
    trimmed values, empties its fields, shows no error and closes; otherwise
    it keeps its fields, stays open and flags exactly the fields at
    fault. *)
Theorem X26_form_submits_iff_valid st :
  let fd := InventoryForm.formData st in
  let st' := fst (InventoryForm.handleSubmit st) in
  let out := snd (InventoryForm.handleSubmit st) in
  let valid :=
    JS.truthy (JS.trim (InventoryForm.fd_name fd)) = true
    /\ JS.truthy (JS.trim (InventoryForm.fd_code fd)) = true
    /\ 0 < InventoryForm.fd_count fd in
  (valid ->
   (exists product,
       InventoryForm.onAddProduct out = Some product
       /\ in_name product = JS.trim (InventoryForm.fd_name fd)
       /\ in_code product = JS.trim (InventoryForm.fd_code fd)
       /\ in_count product = InventoryForm.fd_count fd)
   /\ InventoryForm.onClose out = true
   /\ st' = InventoryForm.initial)
  /\ (~ valid ->
      InventoryForm.onAddProduct out = None
      /\ InventoryForm.onClose out = false
      /\ InventoryForm.formData st' = fd)
  /\ (InventoryForm.e_name (InventoryForm.errors st') <> None
      <-> JS.truthy (JS.trim (InventoryForm.fd_name fd)) = false)
  /\ (InventoryForm.e_code (InventoryForm.errors st') <> None
      <-> JS.truthy (JS.trim (InventoryForm.fd_code fd)) = false)
  /\ (InventoryForm.e_count (InventoryForm.errors st') <> None
      <-> InventoryForm.fd_count fd <= 0).
Proof.
  intros fd st' out valid. subst st' out valid.
  unfold InventoryForm.handleSubmit, InventoryForm.keysLength. cbv zeta.
  fold fd.
  destruct (JS.truthy (JS.trim (InventoryForm.fd_name fd)));
    destruct (JS.truthy (JS.trim (InventoryForm.fd_code fd)));
    destruct (Z.leb_spec (InventoryForm.fd_count fd) 0); simpl;
    (split;
     [intros [H1 [H2 H3]];
      first [discriminate | lia
            | (split; [eexists; repeat split|split; reflexivity])]
     |split;
      [intros Hn;
       first [(exfalso; apply Hn; repeat split; lia) | repeat split]
      |repeat split; intros; first [discriminate | lia | congruence]]]).
Qed.

Lemma X26_form_submits_iff_valid_witness :
  let st :=
    InventoryForm.mkState (InventoryForm.mkFormData "  Bolt " "B-1" 4 " ")
                          (InventoryForm.mkErrors None None None) in
  fst (InventoryForm.handleSubmit st) = InventoryForm.initial
  /\ InventoryForm.onClose (snd (InventoryForm.handleSubmit st)) = true
  /\ InventoryForm.onAddProduct (snd (InventoryForm.handleSubmit st))
     = Some (mkInput "Bolt" "B-1" 4 None None None).
Proof.
  intros st.
  destruct (X26_form_submits_iff_valid st) as [H _].
  destruct H as [_ [Hclose Hst]]; [repeat split|].
  split; [exact Hst|]. split; [exact Hclose|reflexivity].
Defined.

Lemma handleSubmit_submits_valid st product :
  InventoryForm.onAddProduct (snd (InventoryForm.handleSubmit st))
  = Some product ->
  JS.truthy (in_name product) = true
  /\ JS.truthy (in_code product) = true
  /\ 0 < in_count product.
Proof.
  unfold InventoryForm.handleSubmit, InventoryForm.keysLength. cbv zeta.
  destruct (JS.truthy (JS.trim (InventoryForm.fd_name _))) eqn:En;
    destruct (JS.truthy (JS.trim (InventoryForm.fd_code _))) eqn:Ec;
    destruct (Z.leb_spec (InventoryForm.fd_count (InventoryForm.formData st)) 0);
    simpl; try discriminate.
  intros Hsome. inversion Hsome; subst. simpl. repeat split; assumption.
Qed.

(** X27: what the form submits always passes the presence check of the
    server: sent to a reachable store whose next [_id] is free, it is either
    stored and answered 200, when its code is new, or refused with the
    conflict "Product code already exists", when its code is stored — never
    with "Name, code, and count are required". *)
Theorem X27_form_input_passes_server_check st product env
  (db : Api.Collection) :
  InventoryForm.onAddProduct (snd (InventoryForm.handleSubmit st))
  = Some product ->
  dbUp env = true -> ~ In (Some (freshId env)) (map _id db) ->
  (In (in_code product) (map doc_code db) ->
   Api.POST env (Service.postBody product) db
   = (Api.jsonStatus (Api.Failure "Product code already exists") 400, db))
  /\ (~ In (in_code product) (map doc_code db) ->
      exists p,
        fst (Api.POST env (Service.postBody product) db)
        = Api.json (Api.Success p)
        /\ id p = freshId env /\ name p = in_name product
        /\ code p = in_code product /\ count p = in_count product).
Proof.
  intros Hsub Hup Hfresh.
  destruct (handleSubmit_submits_valid st product Hsub) as [Hn [Hc _]].
  split.
  - intros Hin. apply in_map_iff in Hin. destruct Hin as [d [Hd Hin]].
    destruct (POST_duplicate env (Service.postBody product) db d Hin)
      as [Hdb [_ [_ Hconflict]]]; [simpl; now rewrite Hd|].
    rewrite <- Hdb at 2. rewrite <- Hconflict.
    + now destruct (Api.POST env (Service.postBody product) db).
    + exact Hup.
    + simpl. now rewrite Hn.
    + simpl. now rewrite Hc.
    + discriminate.
  - intros Hnew. unfold Service.postBody.
    rewrite (POST_accepts env (in_name product) (in_code product)
               (in_count product) (in_description product) db Hn Hc Hup).
    + eexists. split; [reflexivity|]. repeat split.
    + now apply findOneByCode_none.
    + now apply findOneById_none.
Qed.

Lemma X27_form_input_passes_server_check_witness :
  let st :=
    InventoryForm.mkState (InventoryForm.mkFormData "Bolt" " W-1 " 4 "")
                          (InventoryForm.mkErrors None None None) in
  Api.POST online
    (Service.postBody (mkInput "Bolt" "W-1" 4 None None None))
    (Service.collection (App.server twoProducts))
  = (Api.jsonStatus (Api.Failure "Product code already exists") 400,
     Service.collection (App.server twoProducts)).
Proof.
  intros st.
  destruct (X27_form_input_passes_server_check st
              (mkInput "Bolt" "W-1" 4 None None None) online
              (Service.collection (App.server twoProducts)) eq_refl eq_refl)
    as [H _].
  - simpl. intros [H|[H|[]]]; discriminate.
  - apply H. simpl. left. reflexivity.
Defined.

(** X28: no sequence of user events makes the client ask the store for a
    count of 0 or below: if every request issued so far that carries a
    count carries a positive one, so does every request issued after any
    further events, be it a POST from the form or a PUT from an edit. *)
Theorem X28_client_requests_positive_counts iv lc evs (w : App.World) :
  (forall r c,
      In r (Service.requests (App.server w)) ->
      requestedCount r = Some c -> 0 < c) ->
  forall r c,
    In r (Service.requests (App.server (App.run iv lc w evs))) ->
    requestedCount r = Some c -> 0 < c.
Proof. apply run_requests_positive. Qed.

Lemma X28_client_requests_positive_counts_witness :
  let w :=
    App.run has24 anyOrder twoProducts
      [(online, App.ListEvent (InventoryList.ClickCount 0));
       (online, App.ListEvent (InventoryList.ChangeCountInput 0 (Some 3)));
       (online, App.ListEvent (InventoryList.BlurCountInput 0));
       (online, App.ListEvent (InventoryList.ClickCount 1));
       (online, App.ListEvent (InventoryList.ChangeCountInput 1 (Some 0)));
       (online, App.ListEvent (InventoryList.BlurCountInput 1))] in
  Service.requests (App.server w)
  = [Service.ReqPUT (id (widget 10)) (Api.mkPutBody "Widget" "W-1" 3 None)]
  /\ 0 < 3.
Proof.
  intros w. split; [vm_compute; reflexivity|].
  apply (X28_client_requests_positive_counts has24 anyOrder
           [(online, App.ListEvent (InventoryList.ClickCount 0));
            (online, App.ListEvent (InventoryList.ChangeCountInput 0 (Some 3)));
            (online, App.ListEvent (InventoryList.BlurCountInput 0));
            (online, App.ListEvent (InventoryList.ClickCount 1));
            (online, App.ListEvent (InventoryList.ChangeCountInput 1 (Some 0)));
            (online, App.ListEvent (InventoryList.BlurCountInput 1))]
           twoProducts
           ltac:(intros r c [])
           (Service.ReqPUT (id (widget 10))
              (Api.mkPutBody "Widget" "W-1" 3 None))).
  - vm_compute. left. reflexivity.
  - reflexivity.
Defined.

(* ===================================================================== *)
(** ** After a deletion *)
(* ===================================================================== *)

(** X29: nothing moves the list back when the collection shrinks: the
    controls of the gate leave [currentPage] as it is, and once the
    collection has shrunk to fill exactly the pages before the current one,
    the current page lies after the last page and the table shows no row,
    although the collection is not empty. *)
Theorem X29_page_is_not_reset_after_deletion lc (products : list Product) st :
  (forall remaining c,
      InventoryList.currentPage
        (fst (InventoryList.dispatch lc remaining st (InventoryList.Modal c)))
      = InventoryList.currentPage st)
  /\ (1 <= InventoryList.itemsPerPage st ->
      2 <= InventoryList.currentPage st ->
      Z.of_nat (List.length products)
      = (InventoryList.currentPage st - 1) * InventoryList.itemsPerPage st ->
      products <> []
      /\ InventoryList.totalPages lc products st
         = InventoryList.currentPage st - 1
      /\ ~ pageInRange lc products st
      /\ InventoryList.rows lc products st = []).
Proof.
  split.
  - intros remaining c. unfold InventoryList.dispatch.
    destruct (_ =? 0); [reflexivity|].
    destruct (ConfirmModal.fire _ c) as [[|]|]; reflexivity.
  - intros HK Hp Hlen.
    pose proof (ceilDiv_isCeiling (Z.of_nat (List.length products))
                  (InventoryList.itemsPerPage st) HK) as [Hlow Hup].
    assert (HT : InventoryList.totalPages lc products st
                 = InventoryList.currentPage st - 1).
    { rewrite totalPages_eq. rewrite Hlen in *.
      apply Z.mul_lt_mono_pos_r in Hlow; [|lia].
      apply Z.mul_le_mono_pos_r in Hup; [|lia]. lia. }
    split; [|split; [exact HT|split]].
    + intros ->. simpl in Hlen.
      assert (0 < (InventoryList.currentPage st - 1)
                  * InventoryList.itemsPerPage st)
        by (apply Z.mul_pos_pos; lia).
      lia.
    + unfold pageInRange. rewrite HT. lia.
    + unfold InventoryList.rows.
      rewrite pages_outside_empty by (try assumption; right; rewrite HT; lia).
      reflexivity.
Qed.

Lemma X29_page_is_not_reset_after_deletion_witness :
  let st :=
    InventoryList.handlePageChange 2
      (InventoryList.handleItemsPerPageChange 2 InventoryList.initial) in
  InventoryList.rows anyOrder [widget 1; widget 2; widget 3] st
  = [(widget 3, InventoryList.DusukStok)]
  /\ InventoryList.rows anyOrder [widget 1; widget 2] st = [].
Proof.
  intros st. split; [reflexivity|].
  destruct (X29_page_is_not_reset_after_deletion anyOrder
              [widget 1; widget 2] st) as [_ H].
  assert (H1 : 1 <= InventoryList.itemsPerPage st) by (simpl; lia).
  assert (H2 : 2 <= InventoryList.currentPage st) by (simpl; lia).
  assert (H3 : Z.of_nat (List.length [widget 1; widget 2])
               = (InventoryList.currentPage st - 1)
                 * InventoryList.itemsPerPage st) by reflexivity.
  exact (proj2 (proj2 (proj2 (H H1 H2 H3)))).
Defined.

(* ===================================================================== *)
(** ** The message of a refused edit or deletion *)
(* ===================================================================== *)

Lemma PUT_not_found iv env id body (db : Api.Collection) :
  iv id = true -> dbUp env = true -> ~ In (Some id) (map _id db) ->
  Api.PUT iv env id body db
  = (Api.jsonStatus (Api.Failure "Product not found") 404, db).
Proof.
  intros Hv Hup Hnone. unfold Api.PUT. rewrite Hv, Hup. simpl.
  match goal with
  | |- context [Api.findOneAndUpdate id ?f db] =>
      pose proof (findOneAndUpdate_spec id f db) as Hspec;
      destruct (Api.findOneAndUpdate id f db) as [[r|] db']
  end.
  - exfalso. destruct Hspec as [pre [d [post [-> [_ [Hid _]]]]]].
    apply Hnone. rewrite map_app. apply in_or_app. right. now left.
  - destruct Hspec as [-> _]. reflexivity.
Qed.

(** X30: when a delivered edit or deletion addresses a product that the
    store does not hold — its identifier is not valid, or it is valid,
    written as an [ObjectId] is rendered (24 hexadecimal digits in lower
    case), and no document has it — the page keeps its collection, the
    store is untouched, and the message shown is the one of the server:
    "Invalid product ID" or "Product not found". *)
Theorem X30_refused_request_shows_server_message iv env id product st srv :
  transport env = None ->
  (iv id = false ->
   Page.updateProduct iv env id product st srv
   = (Page.setError (Some "Invalid product ID") st,
      Service.issue (Service.ReqPUT id (Service.putBody product)) srv)
   /\ Page.deleteProduct iv env id st srv
      = (Page.setError (Some "Invalid product ID") st,
         Service.issue (Service.ReqDELETE id) srv))
  /\ (iv id = true -> canonicalHex id = true -> dbUp env = true ->
      ~ In (Some id) (map _id (Service.collection srv)) ->
      Page.updateProduct iv env id product st srv
      = (Page.setError (Some "Product not found") st,
         Service.issue (Service.ReqPUT id (Service.putBody product)) srv)
      /\ Page.deleteProduct iv env id st srv
         = (Page.setError (Some "Product not found") st,
            Service.issue (Service.ReqDELETE id) srv)).
Proof.
  intros Ht. split.
  - intros Hv.
    unfold Page.updateProduct, Page.deleteProduct, Service.updateProduct,
      Service.deleteProduct, Api.PUT, Api.DELETE.
    rewrite Ht. simpl. rewrite Hv. simpl. split; reflexivity.
  - intros Hv _ Hup Hnone.
    unfold Page.updateProduct, Page.deleteProduct, Service.updateProduct,
      Service.deleteProduct.
    rewrite Ht. simpl.
    rewrite (PUT_not_found iv env id _ _ Hv Hup Hnone).
    rewrite (DELETE_not_found iv env id _ Hv Hup Hnone).
    simpl. split; reflexivity.
Qed.

Lemma X30_refused_request_shows_server_message_witness :
  Page.error
    (fst (Page.deleteProduct has24 online "000000000000000000000000"
            (App.page twoProducts) (App.server twoProducts)))
  = Some "Product not found"
  /\ Page.products
       (fst (Page.updateProduct has24 online "oops"
               (mkInput "Widget" "W-1" 3 None None None)
               (App.page twoProducts) (App.server twoProducts)))
     = [widget 10; gadget].
Proof.
  destruct (X30_refused_request_shows_server_message has24 online
              "000000000000000000000000"
              (mkInput "Widget" "W-1" 3 None None None)
              (App.page twoProducts) (App.server twoProducts) eq_refl)
    as [_ Hmissing].
  destruct (X30_refused_request_shows_server_message has24 online "oops"
              (mkInput "Widget" "W-1" 3 None None None)
              (App.page twoProducts) (App.server twoProducts) eq_refl)
    as [Hinvalid _].
  split.
  - destruct Hmissing as [_ ->]; try reflexivity.
    simpl. intros [H|[H|[]]]; discriminate.
  - destruct (Hinvalid eq_refl) as [-> _]. reflexivity.
Defined.

Lemma X10_low_stock_counts_flagged_rows_witness :
  InventoryList.getLowStockItems [widget 10; widget 0; widget (-2); gadget] = 3
  /\ InventoryList.getLowStockItems [widget 10; widget 0; widget (-2); gadget]
     > 0.
Proof.
  destruct (X10_low_stock_counts_flagged_rows
              [widget 10; widget 0; widget (-2); gadget]) as [Heq [_ Hiff]].
  split; [rewrite Heq; reflexivity|].
  apply Hiff. exists gadget. split; [simpl; tauto|discriminate].
Defined.
